(** * Sticker Component Analyzer: scene construction and panel intake

    A shallow embedding of the Figma plugin of [src/ui.tsx]: the controller
    half ([processImageAnalysisResults] and the plugin entry point) and the
    panel half ([processClipboardText], [handleJsonFileImport],
    [analyzeImage]).

    The host scene-graph API is an in-memory document: nodes are built as
    values and appended to their parent once complete, styles live in a
    registry searched by name ([getStyleByName], which the source declares
    on [PluginAPI]).  What the sources do not contain is taken as given:
    which fonts the host can load, the two [ComponentBuilder] functions,
    [JSON.parse], the vision and Figma services and [Math.random]. *)

From Stdlib Require Import List String Ascii ZArith QArith Lia Bool Arith DecimalString.
Import ListNotations.
Close Scope Q_scope.
Open Scope string_scope.

Set Implicit Arguments.

(** ** JavaScript numbers

  The program never computes with numbers: it stores them, tests them for
  truthiness ([x || d]) and prints them inside template literals.  The
  type is therefore kept abstract behind these three operations. *)

Class JsNumber := {
  number : Type;
  num_of_Q : Q -> number;          (* value of a numeric literal *)
  num_truthy : number -> bool;     (* ToBoolean: false on 0, -0 and NaN *)
  num_toString : number -> string  (* ToString, as used by template literals *)
}.

(** [s || d] on a string: the empty string is the only falsy string. *)
Definition str_or (s d : string) : string :=
  if s =? "" then d else s.

(** [x || d] on an optional string ([undefined] is falsy too). *)
Definition optstr_or (s : option string) (d : string) : string :=
  match s with
  | Some v => str_or v d
  | None => d
  end.

(** Decimal rendering of a loop counter, as [`${i+1}`] prints it. *)
Definition nat_toString (n : nat) : string :=
  NilEmpty.string_of_uint (Nat.to_uint n).

(** ** Data model (interfaces of [main]) *)

Record FontName := { family : string; style : string }.

Definition FontName_eqb (a b : FontName) : bool :=
  (family a =? family b) && (style a =? style b).

Definition InterBold : FontName := {| family := "Inter"; style := "Bold" |}.
Definition InterRegular : FontName := {| family := "Inter"; style := "Regular" |}.

Section DataModel.
Context {NUM : JsNumber}.

(** [x || d] on an optional number. *)
Definition num_or (x : option number) (d : number) : number :=
  match x with
  | Some v => if num_truthy v then v else d
  | None => d
  end.

Record RGB := { r : number; g : number; b : number }.

(** A [SolidPaint] object literal; [paintOpacity] is absent when the
    literal has no [opacity] key. *)
Record Paint := { paintType : string; paintColor : RGB; paintOpacity : option number }.

End DataModel.

Module ColorData.
Section T.
Context {NUM : JsNumber}.
Record t := { name : string; color : RGB; opacity : option number }.
End T.
End ColorData.

Module TypographyData.
Section T.
Context {NUM : JsNumber}.
Record t := {
    text : string;
    fontName : option FontName;
    fontSize : option number;
    x : number; y : number; width : number; height : number
  }.
End T.
End TypographyData.

Module ComponentData.
Section T.
Context {NUM : JsNumber}.
  (** [name] is declared as a string, but the construction code guards it
      with [||] and the JSON intake copies it unchecked, so it is optional
      here ([None] is [undefined]).  [strokes], [children] and
      [properties] are never read by the code embedded below. *)
Record t := {
    id : string;
    type : string;
    name : option string;
    x : number; y : number; width : number; height : number;
    fills : option (list Paint)
  }.
End T.
End ComponentData.

Section ImageAnalysis.
Context {NUM : JsNumber}.

Record ImageAnalysisResult := {
  components : list ComponentData.t;
  colors : list ColorData.t;
  typography : list TypographyData.t
  }.

(** [a.name === b.name] on optional strings. *)
Definition name_eqb (a b : option string) : bool :=
  match a, b with
  | Some s, Some t => s =? t
  | None, None => true
  | _, _ => false
  end.

End ImageAnalysis.

(** ** The host scene graph

  Nodes and styles are JavaScript objects whose properties the program
  assigns one by one; a node records those assignments in order.  A
  property the program never assigns is absent (the host default). *)

Section Host.
Context {NUM : JsNumber}.

Inductive PropValue :=
  | PStr (s : string)
  | PNum (n : number)
  | PFont (f : FontName)
  | PPaints (ps : list Paint)
  | PStyleId (sid : nat).

Definition Props := list (string * PropValue).

Fixpoint setProp (k : string) (v : PropValue) (ps : Props) : Props :=
  match ps with
  | [] => [(k, v)]
  | (k', v') :: rest =>
      if k' =? k then (k, v) :: rest else (k', v') :: setProp k v rest
  end.

Fixpoint getProp (k : string) (ps : Props) : option PropValue :=
  match ps with
  | [] => None
  | (k', v) :: rest => if k' =? k then Some v else getProp k rest
  end.

Inductive NodeType := FRAME | TEXT | RECTANGLE | COMPONENT | COMPONENT_SET.

#[warnings="-register-all"]
Inductive SceneNode := mkNode {
  nodeType : NodeType;
  props : Props;
  children : list SceneNode
  }.

Definition createNode (ty : NodeType) : SceneNode := mkNode ty [] [].

Definition assign (k : string) (v : PropValue) (n : SceneNode) : SceneNode :=
  mkNode (nodeType n) (setProp k v (props n)) (children n).

Definition prop (k : string) (n : SceneNode) : option PropValue :=
  getProp k (props n).

Definition appendChild (parent child : SceneNode) : SceneNode :=
  mkNode (nodeType parent) (props parent) (children parent ++ [child]).

(** [node.resize(w, h)] *)
Definition resize (w h : number) (n : SceneNode) : SceneNode :=
  assign "height" (PNum h) (assign "width" (PNum w) n).

Inductive StyleKind := PaintStyle | TextStyle.

Record Style := { styleId : nat; styleKind : StyleKind; styleProps : Props }.

Definition style_named (nm : string) (s : Style) : bool :=
  match getProp "name" (styleProps s) with
  | Some (PStr n) => n =? nm
  | _ => false
  end.

Inductive UiMessage :=
  | CREATION_COMPLETE
  | CREATION_ERROR (msg : string)
  | INITIALIZE_UNIFIED_SYSTEM.

Inductive TimerAction := ClosePluginAction.

(** The document and plugin runtime as the controller sees them. *)
Record Figma := {
  styles : list Style;
  nextStyleId : nat;
  pageChildren : list SceneNode;
  selection : list SceneNode;
  viewport : list SceneNode;
  uiMessages : list UiMessage;
  timers : list (nat * TimerAction);   (* pending [setTimeout]s: delay in ms *)
  closed : bool
  }.

Definition with_styles (f : Figma) (ss : list Style) (next : nat) : Figma :=
  {| styles := ss; nextStyleId := next; pageChildren := pageChildren f;
     selection := selection f; viewport := viewport f;
     uiMessages := uiMessages f; timers := timers f; closed := closed f |}.

Definition with_page (f : Figma) (pg sel vp : list SceneNode) : Figma :=
  {| styles := styles f; nextStyleId := nextStyleId f; pageChildren := pg;
     selection := sel; viewport := vp;
     uiMessages := uiMessages f; timers := timers f; closed := closed f |}.

Definition with_runtime (f : Figma) (ms : list UiMessage)
    (ts : list (nat * TimerAction)) (c : bool) : Figma :=
  {| styles := styles f; nextStyleId := nextStyleId f; pageChildren := pageChildren f;
     selection := selection f; viewport := viewport f;
     uiMessages := ms; timers := ts; closed := c |}.

Definition emptyFigma : Figma :=
  {| styles := []; nextStyleId := 0; pageChildren := []; selection := [];
     viewport := []; uiMessages := []; timers := []; closed := false |}.

End Host.

(** ** Effects: host state, exceptions, [try]/[catch]/[finally] *)

Inductive Exn := Error (message : string).

Definition message (e : Exn) : string := let 'Error m := e in m.

Inductive Outcome (A : Type) :=
| Returned (a : A)
| Thrown (e : Exn).
Arguments Returned {A} a.
Arguments Thrown {A} e.

(** A computation over a mutable store [S] that returns or throws; the
    store survives a throw, as the mutations made before it do. *)
Definition M (S A : Type) : Type := S -> Outcome A * S.

Definition ret {S A : Type} (a : A) : M S A := fun s => (Returned a, s).

Definition throw {S A : Type} (e : Exn) : M S A := fun s => (Thrown e, s).

Definition bind {S A B : Type} (m : M S A) (k : A -> M S B) : M S B :=
  fun s =>
    match m s with
    | (Returned a, s') => k a s'
    | (Thrown e, s') => (Thrown e, s')
    end.

Definition tryCatch {S A : Type} (body : M S A) (handler : Exn -> M S A) : M S A :=
  fun s =>
    match body s with
    | (Returned a, s') => (Returned a, s')
    | (Thrown e, s') => handler e s'
    end.

(** [try { body } finally { cleanup }]: the cleanup runs on both exits and
    the body's outcome is kept unless the cleanup itself throws. *)
Definition tryFinally {S A : Type} (body : M S A) (cleanup : M S unit) : M S A :=
  fun s =>
    match body s with
    | (out, s') =>
        match cleanup s' with
        | (Returned _, s'') => (out, s'')
        | (Thrown e, s'') => (Thrown e, s'')
        end
    end.

Definition modify {S : Type} (f : S -> S) : M S unit := fun s => (Returned tt, f s).

Definition gets {S A : Type} (f : S -> A) : M S A := fun s => (Returned (f s), s).

Declare Scope js_scope.
Delimit Scope js_scope with js.
Notation "x <- m ;; k" := (bind m (fun x => k))
  (at level 100, m at next level, right associativity) : js_scope.
Notation "m ;; k" := (bind m (fun _ => k))
  (at level 100, right associativity) : js_scope.
Notation "' p <- m ;; k" := (bind m (fun p => k))
  (at level 100, p pattern, m at next level, right associativity) : js_scope.

(** ** External collaborators of the controller

    [figma.loadFontAsync] rejects on a font the host cannot load, and the
    program awaits it outside any [try].  [ComponentBuilder] (module
    [./component-builder]) is not among the sources: each builder may
    mutate the document, and either returns a newly created node or throws. *)

Class Collaborators {NUM : JsNumber} := {
  fontAvailable : FontName -> bool;
  createSystemComponent : ComponentData.t -> Figma -> Outcome SceneNode * Figma;
  createComponentSet : list ComponentData.t -> Figma -> Outcome SceneNode * Figma
}.

(** ** The controller: [processImageAnalysisResults] *)

Section Controller.
Context {NUM : JsNumber} {ENV : Collaborators}.
Open Scope js_scope.

(** What the run leaves behind besides the document: console output and
    the calls made to [ComponentBuilder], in order. *)
Inductive Event :=
| ConsoleError (label : string) (error : Exn)
| CallCreateComponentSet (variantComponents : list ComponentData.t)
| CallCreateSystemComponent (component : ComponentData.t).

Record World := { figma : Figma; trace : list Event }.

Definition onFigma (f : Figma -> Figma) : M World unit :=
  modify (fun w => {| figma := f (figma w); trace := trace w |}).

Definition emitEvent (ev : Event) : M World unit :=
  modify (fun w => {| figma := figma w; trace := trace w ++ [ev] |}).

Definition consoleError (label : string) (error : Exn) : M World unit :=
  emitEvent (ConsoleError label error).

Definition callBuilder {A : Type} (ev : Event)
    (builder : Figma -> Outcome A * Figma) : M World A :=
  fun w =>
    match builder (figma w) with
    | (out, f') => (out, {| figma := f'; trace := trace w ++ [ev] |})
    end.

Definition loadFontAsync (fontName : FontName) : M World unit :=
  if fontAvailable fontName then ret tt
  else throw (Error ("The font " ++ family fontName ++ " " ++ style fontName
                     ++ " could not be loaded")).

(** [figma.getStyleByName(name)]: the first registered style of that name,
    [null] when there is none. *)
Definition getStyleByName (nm : string) : M World (option Style) :=
  gets (fun w => find (style_named nm) (styles (figma w))).

(** [figma.createPaintStyle()] / [figma.createTextStyle()]: registers an
    empty style under a new id and hands back that id. *)
Definition createStyle (kind : StyleKind) : M World nat :=
  fun w =>
    let f := figma w in
    let sid := nextStyleId f in
    (Returned sid,
     {| figma := with_styles f
                   (styles f ++ [{| styleId := sid; styleKind := kind; styleProps := [] |}])
                   (S sid);
        trace := trace w |}).

Definition updateStyle (sid : nat) (k : string) (v : PropValue) (s : Style) : Style :=
  if Nat.eqb (styleId s) sid
  then {| styleId := styleId s; styleKind := styleKind s;
          styleProps := setProp k v (styleProps s) |}
  else s.

(** [style.k = v] on the registered style object with id [sid]. *)
Definition setStyleProp (sid : nat) (k : string) (v : PropValue) : M World unit :=
  onFigma (fun f => with_styles f (map (updateStyle sid k v) (styles f)) (nextStyleId f)).

Definition lit (q : Q) : PropValue := PNum (num_of_Q q).

(** The auto-layout frame set-up the source repeats for every section,
    row and wrapper: name, layout mode, both sizing modes, spacing, no fill. *)
Definition autoLayoutFrame (nm mode : string) (spacing : Q) : SceneNode :=
  let frame := createNode FRAME in
  let frame := assign "name" (PStr nm) frame in
  let frame := assign "layoutMode" (PStr mode) frame in
  let frame := assign "counterAxisSizingMode" (PStr "AUTO") frame in
  let frame := assign "primaryAxisSizingMode" (PStr "AUTO") frame in
  let frame := assign "itemSpacing" (lit spacing) frame in
  assign "fills" (PPaints []) frame.

(** The title block the source repeats at the head of every section. *)
Definition sectionTitle (characters : string) : M World SceneNode :=
  let title := createNode TEXT in
  loadFontAsync InterBold ;;
  let title := assign "fontName" (PFont InterBold) title in
  let title := assign "characters" (PStr characters) title in
  let title := assign "fontSize" (lit 16) title in
  ret title.

(** *** 1. Colour palette *)

Definition colorStyleName (colorData : ColorData.t) : string :=
  "Color/" ++ ColorData.name colorData.

Definition colorPaint (colorData : ColorData.t) : Paint :=
  {| paintType := "SOLID";
     paintColor := ColorData.color colorData;
     paintOpacity := Some (num_or (ColorData.opacity colorData) (num_of_Q 1)) |}.

(** The style a swatch is linked to: the one found by name, otherwise a
    new paint style carrying the swatch's own paint. *)
Definition paintStyleFor (colorData : ColorData.t) : M World nat :=
  let paint := colorPaint colorData in
  let styleName := colorStyleName colorData in
  found <- getStyleByName styleName ;;
  match found with
  | Some st => ret (styleId st)
  | None =>
      sid <- createStyle PaintStyle ;;
      setStyleProp sid "name" (PStr styleName) ;;
      setStyleProp sid "paints" (PPaints [paint]) ;;
      ret sid
  end.

(** Body of the loop over [imageData.colors]. *)
Definition colorSwatch (colorData : ColorData.t) : M World SceneNode :=
  let colorWrapper :=
    autoLayoutFrame ("Color-" ++ ColorData.name colorData ++ "-Wrapper") "VERTICAL" 4 in
  let rect := createNode RECTANGLE in
  let rect := assign "name" (PStr (ColorData.name colorData)) rect in
  let rect := resize (num_of_Q 48) (num_of_Q 48) rect in
  let paint := colorPaint colorData in
  sid <- paintStyleFor colorData ;;
  let rect := assign "fills" (PPaints [paint]) rect in
  let rect := assign "cornerRadius" (lit 4) rect in
  let rect := assign "fillStyleId" (PStyleId sid) rect in
  let label := createNode TEXT in
  loadFontAsync InterRegular ;;
  let label := assign "characters" (PStr (ColorData.name colorData)) label in
  let label := assign "fontSize" (lit 11) label in
  let label := assign "textAlignHorizontal" (PStr "CENTER") label in
  let colorWrapper := appendChild colorWrapper rect in
  let colorWrapper := appendChild colorWrapper label in
  ret colorWrapper.

Fixpoint colorLoop (colors : list ColorData.t) (colorRow : SceneNode) : M World SceneNode :=
  match colors with
  | [] => ret colorRow
  | colorData :: rest =>
      colorWrapper <- colorSwatch colorData ;;
      colorLoop rest (appendChild colorRow colorWrapper)
  end.

Definition buildColorSection (colors : list ColorData.t) : M World SceneNode :=
  let colorSection := autoLayoutFrame "Color Palette" "VERTICAL" 16 in
  title <- sectionTitle "Color Styles" ;;
  let colorSection := appendChild colorSection title in
  let colorRow := autoLayoutFrame "Colors" "HORIZONTAL" 12 in
  colorRow <- colorLoop colors colorRow ;;
  ret (appendChild colorSection colorRow).

(** *** 2. Typography *)

(** A JavaScript object used as an insertion-ordered map.  Every key built
    below contains a ['-'], so none is an array index and [for ... in]
    visits the keys in the order they were first written. *)
Fixpoint obj_get {V : Type} (k : string) (o : list (string * V)) : option V :=
  match o with
  | [] => None
  | (k', v) :: rest => if k' =? k then Some v else obj_get k rest
  end.

Fixpoint obj_set {V : Type} (k : string) (v : V) (o : list (string * V)) : list (string * V) :=
  match o with
  | [] => [(k, v)]
  | (k', v') :: rest =>
      if k' =? k then (k, v) :: rest else (k', v') :: obj_set k v rest
  end.

(** [`${text.fontSize || 'unknown'}-${text.fontName?.family || 'unknown'}`] *)
Definition groupKey (text : TypographyData.t) : string :=
  (match TypographyData.fontSize text with
   | Some n => if num_truthy n then num_toString n else "unknown"
   | None => "unknown"
   end)
  ++ "-" ++
  (match TypographyData.fontName text with
   | Some f => str_or (family f) "unknown"
   | None => "unknown"
   end).

(** One turn of the grouping loop: create the bucket when the key is new,
    then push onto it. *)
Definition addToGroup (textGroups : list (string * list TypographyData.t))
    (text : TypographyData.t) : list (string * list TypographyData.t) :=
  let key := groupKey text in
  let textGroups :=
    match obj_get key textGroups with
    | None => obj_set key [] textGroups
    | Some _ => textGroups
    end in
  match obj_get key textGroups with
  | Some bucket => obj_set key (bucket ++ [text])%list textGroups
  | None => textGroups
  end.

Definition groupTypography (typography : list TypographyData.t)
    : list (string * list TypographyData.t) :=
  fold_left addToGroup typography [].

Definition sampleFontSize (sample : TypographyData.t) : number :=
  num_or (TypographyData.fontSize sample) (num_of_Q 16).

Definition sampleFontName (sample : TypographyData.t) : FontName :=
  match TypographyData.fontName sample with
  | Some f => f
  | None => InterRegular
  end.

Definition textStyleName (sample : TypographyData.t) : string :=
  "Text/" ++ family (sampleFontName sample) ++ "-" ++ style (sampleFontName sample)
  ++ "/" ++ num_toString (sampleFontSize sample) ++ "px".

Definition textStyleFor (sample : TypographyData.t) : M World nat :=
  let fontSize := sampleFontSize sample in
  let fontName := sampleFontName sample in
  let styleName := textStyleName sample in
  found <- getStyleByName styleName ;;
  match found with
  | Some st => ret (styleId st)
  | None =>
      sid <- createStyle TextStyle ;;
      setStyleProp sid "name" (PStr styleName) ;;
      loadFontAsync fontName ;;
      setStyleProp sid "fontName" (PFont fontName) ;;
      setStyleProp sid "fontSize" (PNum fontSize) ;;
      ret sid
  end.

(** Body of the loop over the groups, for a group whose first element is
    [sample]. *)
Definition textSample (sample : TypographyData.t) : M World SceneNode :=
  let fontSize := sampleFontSize sample in
  let fontName := sampleFontName sample in
  sid <- textStyleFor sample ;;
  let text := createNode TEXT in
  loadFontAsync fontName ;;
  let text := assign "fontName" (PFont fontName) text in
  let text := assign "fontSize" (PNum fontSize) text in
  let text := assign "characters"
                (PStr (str_or (TypographyData.text sample)
                         (family fontName ++ " " ++ num_toString fontSize ++ "px"))) text in
  let text := assign "textStyleId" (PStyleId sid) text in
  ret text.

Fixpoint groupLoop (textGroups : list (string * list TypographyData.t))
    (typoSection : SceneNode) : M World SceneNode :=
  match textGroups with
  | [] => ret typoSection
  | (_, bucket) :: rest =>
      match bucket with
      | sample :: _ =>
          text <- textSample sample ;;
          groupLoop rest (appendChild typoSection text)
      | [] => groupLoop rest typoSection
      end
  end.

Definition buildTypographySection (typography : list TypographyData.t) : M World SceneNode :=
  let typoSection := autoLayoutFrame "Typography" "VERTICAL" 16 in
  title <- sectionTitle "Text Styles" ;;
  let typoSection := appendChild typoSection title in
  let textGroups := groupTypography typography in
  groupLoop textGroups typoSection.

(** *** 3. Components *)

Definition fallbackComponent (i : nat) (compData : ComponentData.t) : SceneNode :=
  let fallback := createNode COMPONENT in
  let fallback := resize (ComponentData.width compData) (ComponentData.height compData) fallback in
  let fallback :=
    assign "name"
      (PStr (optstr_or (ComponentData.name compData) ("Component " ++ nat_toString (i + 1))))
      fallback in
  match ComponentData.fills compData with
  | Some fills => assign "fills" (PPaints fills) fallback
  | None => fallback
  end.

(** The [for] loop of the individual path, from index [i] on. *)
Fixpoint individualLoop (comps : list ComponentData.t) (i : nat)
    (componentsSection : SceneNode) : M World SceneNode :=
  match comps with
  | [] => ret componentsSection
  | compData :: rest =>
      componentsSection <-
        tryCatch
          (component <- callBuilder (CallCreateSystemComponent compData)
                          (createSystemComponent compData) ;;
           ret (appendChild componentsSection component))
          (fun error =>
             consoleError "Error creating component:" error ;;
             ret (appendChild componentsSection (fallbackComponent i compData))) ;;
      individualLoop rest (S i) componentsSection
  end.

(** [components.length > 1 && components[0].name === components[1].name] *)
Definition namedAlike (comps : list ComponentData.t) : bool :=
  Nat.ltb 1 (List.length comps) &&
  match comps with
  | c0 :: c1 :: _ => name_eqb (ComponentData.name c0) (ComponentData.name c1)
  | _ => false
  end.

Definition buildComponentsSection (comps : list ComponentData.t) : M World SceneNode :=
  let componentsSection := autoLayoutFrame "Components" "VERTICAL" 24 in
  title <- sectionTitle "UI Components" ;;
  let componentsSection := appendChild componentsSection title in
  ' (hasVariants, componentsSection) <-
    (if namedAlike comps then
       tryCatch
         (componentSet <- callBuilder (CallCreateComponentSet comps)
                            (createComponentSet comps) ;;
          ret (true, appendChild componentsSection componentSet))
         (fun error =>
            consoleError "Error creating component variants:" error ;;
            ret (false, componentsSection))
     else ret (false, componentsSection)) ;;
  if negb hasVariants then individualLoop comps 0 componentsSection
  else ret componentsSection.

(** *** Assembly *)

Definition parentFill : Paint :=
  {| paintType := "SOLID";
     paintColor := {| r := num_of_Q (98 # 100); g := num_of_Q (98 # 100);
                      b := num_of_Q (98 # 100) |};
     paintOpacity := None |}.

Definition newParentFrame : SceneNode :=
  let parentFrame := createNode FRAME in
  let parentFrame := assign "name" (PStr "Sticker Component Analysis") parentFrame in
  let parentFrame := assign "layoutMode" (PStr "VERTICAL") parentFrame in
  let parentFrame := assign "counterAxisSizingMode" (PStr "AUTO") parentFrame in
  let parentFrame := assign "primaryAxisSizingMode" (PStr "AUTO") parentFrame in
  let parentFrame := assign "itemSpacing" (lit 24) parentFrame in
  let parentFrame := assign "paddingLeft" (lit 32) parentFrame in
  let parentFrame := assign "paddingRight" (lit 32) parentFrame in
  let parentFrame := assign "paddingTop" (lit 32) parentFrame in
  let parentFrame := assign "paddingBottom" (lit 32) parentFrame in
  assign "fills" (PPaints [parentFill]) parentFrame.

(** An array is always truthy, so [imageData.xs && imageData.xs.length > 0]
    is the length test alone. *)
Definition nonEmpty {A : Type} (xs : list A) : bool := Nat.ltb 0 (List.length xs).

Definition processImageAnalysisResults (imageData : ImageAnalysisResult) : M World SceneNode :=
  let parentFrame := newParentFrame in
  parentFrame <-
    (if nonEmpty (colors imageData) then
       colorSection <- buildColorSection (colors imageData) ;;
       ret (appendChild parentFrame colorSection)
     else ret parentFrame) ;;
  parentFrame <-
    (if nonEmpty (typography imageData) then
       typoSection <- buildTypographySection (typography imageData) ;;
       ret (appendChild parentFrame typoSection)
     else ret parentFrame) ;;
  parentFrame <-
    (if nonEmpty (components imageData) then
       componentsSection <- buildComponentsSection (components imageData) ;;
       ret (appendChild parentFrame componentsSection)
     else ret parentFrame) ;;
  onFigma (fun f => with_page f (pageChildren f ++ [parentFrame]) [parentFrame] [parentFrame]) ;;
  ret parentFrame.

(** ** The plugin entry point: the two handlers *)

Definition postMessage (m : UiMessage) : M World unit :=
  onFigma (fun f => with_runtime f (uiMessages f ++ [m]) (timers f) (closed f)).

(** [setTimeout(action, delay)] *)
Definition setTimeout (action : TimerAction) (delay : nat) : M World unit :=
  onFigma (fun f => with_runtime f (uiMessages f) (timers f ++ [(delay, action)]) (closed f)).

(** [figma.closePlugin()] *)
Definition closePlugin : M World unit :=
  onFigma (fun f => with_runtime f (uiMessages f) (timers f) true).

Definition setSelection (nodes : list SceneNode) : M World unit :=
  onFigma (fun f => with_page f (pageChildren f) nodes (viewport f)).

Definition onImageAnalysisComplete (imageData : ImageAnalysisResult) : M World unit :=
  tryFinally
    (tryCatch
       (parentFrame <- processImageAnalysisResults imageData ;;
        setSelection [parentFrame] ;;
        postMessage CREATION_COMPLETE)
       (fun error =>
          consoleError "Error in image analysis handler:" error ;;
          postMessage (CREATION_ERROR ("Error creating components: " ++ message error))))
    (setTimeout ClosePluginAction 2000).

Definition onClosePlugin : M World unit := closePlugin.

Inductive PluginEvent :=
| IMAGE_ANALYSIS_COMPLETE (imageData : ImageAnalysisResult)
| CLOSE_PLUGIN.

(** The handler the entry point registers for each event.  [once] itself
    (module [./utilities]) is not among the sources; what it does with a
    second event of the same name is left out. *)
Definition handler (ev : PluginEvent) : M World unit :=
  match ev with
  | IMAGE_ANALYSIS_COMPLETE imageData => onImageAnalysisComplete imageData
  | CLOSE_PLUGIN => onClosePlugin
  end.

Definition runTimer (action : TimerAction) (f : Figma) : Figma :=
  match action with
  | ClosePluginAction => with_runtime f (uiMessages f) (timers f) true
  end.

(** The host clock moves on by [ms] milliseconds: timers that are due
    fire, the others come closer. *)
Definition elapse (ms : nat) (f : Figma) : Figma :=
  let due := filter (fun t => Nat.leb (fst t) ms) (timers f) in
  let waiting := filter (fun t => negb (Nat.leb (fst t) ms)) (timers f) in
  let f := with_runtime f (uiMessages f) (map (fun t => (fst t - ms, snd t)) waiting) (closed f) in
  fold_left (fun f t => runTimer (snd t) f) due f.

End Controller.

(** ** JavaScript values on the panel side

    What [JSON.parse] returns and what the panel passes around as [any].
    [VUndefined] never comes out of the parser; it is what reading an
    absent property gives. *)

Section JsValues.
Context {NUM : JsNumber}.

#[warnings="-register-all"]
Inductive jsval :=
| VUndefined
| VNull
| VBool (b : bool)
| VNum (n : number)
| VStr (s : string)
| VArr (items : list jsval)
| VObj (fields : list (string * jsval)).

(** ToBoolean *)
Definition truthy (v : jsval) : bool :=
  match v with
  | VUndefined | VNull => false
  | VBool b => b
  | VNum n => num_truthy n
  | VStr s => negb (s =? "")
  | VArr _ | VObj _ => true
  end.

(** [a || b] *)
Definition js_or (a b : jsval) : jsval := if truthy a then a else b.

(** [v.k] for the property names this program reads ([version],
    [imageAnalysis], [colors], [name], ...): none of them is defined on a
    prototype, so only an object's own fields can answer, and reading
    through [null] or [undefined] is a TypeError. *)
Definition member (v : jsval) (k : string) : Outcome jsval :=
  match v with
  | VUndefined =>
      Thrown (Error ("Cannot read properties of undefined (reading '" ++ k ++ "')"))
  | VNull =>
      Thrown (Error ("Cannot read properties of null (reading '" ++ k ++ "')"))
  | VObj fields =>
      Returned (match obj_get k fields with Some x => x | None => VUndefined end)
  | _ => Returned VUndefined
  end.

(** ToString, as a template literal applies it. *)
Fixpoint js_toString (v : jsval) : string :=
  match v with
  | VUndefined => "undefined"
  | VNull => "null"
  | VBool true => "true"
  | VBool false => "false"
  | VNum n => num_toString n
  | VStr s => s
  | VArr items =>
      (fix join (xs : list jsval) : string :=
         match xs with
         | [] => ""
         | x :: rest =>
             let element :=
               match x with
               | VUndefined | VNull => ""
               | _ => js_toString x
               end in
             match rest with
             | [] => element
             | _ => element ++ "," ++ join rest
             end
         end) items
  | VObj _ => "[object Object]"
  end.

End JsValues.

(** ** String helpers of the panel *)

(** White space removed by [String.prototype.trim], among the code units
    below 256. *)
Definition is_ws (c : ascii) : bool :=
  let n := nat_of_ascii c in
  (Nat.leb 9 n && Nat.leb n 13) || Nat.eqb n 32 || Nat.eqb n 160.

Fixpoint trimStart (s : string) : string :=
  match s with
  | EmptyString => EmptyString
  | String c rest => if is_ws c then trimStart rest else s
  end.

Fixpoint trimEnd (s : string) : string :=
  match s with
  | EmptyString => EmptyString
  | String c rest =>
      match trimEnd rest with
      | EmptyString => if is_ws c then EmptyString else String c EmptyString
      | kept => String c kept
      end
  end.

Definition trim (s : string) : string := trimEnd (trimStart s).

(** [!text || text.trim() === ''] *)
Definition noText (text : string) : bool :=
  (text =? "") || (trim text =? "").

Definition lowerChar (c : ascii) : ascii :=
  let n := nat_of_ascii c in
  if (Nat.leb 65 n && Nat.leb n 90)
     || (Nat.leb 192 n && Nat.leb n 222 && negb (Nat.eqb n 215))
  then ascii_of_nat (n + 32) else c.

Fixpoint toLowerCase (s : string) : string :=
  match s with
  | EmptyString => EmptyString
  | String c rest => String (lowerChar c) (toLowerCase rest)
  end.

Definition endsWith (s suffix : string) : bool :=
  let n := String.length s in
  let m := String.length suffix in
  Nat.leb m n && (substring (n - m) m s =? suffix).

(** [s] between double quotes, for messages that quote a button label. *)
Definition quoted (s : string) : string :=
  String (ascii_of_nat 34) s ++ String (ascii_of_nat 34) EmptyString.

(** ** The panel: intake, validation and [analyzeImage] *)

Module Panel.

Inductive ImportMethod := image | json.

Inductive Tab := upload | settings | help.

(** A [File] as the panel uses it: its name and what a [FileReader] makes
    of it ([None] when the read fails). *)
Record File := {
  fileName : string;
  asText : option string;
  asDataURL : option string
}.

Class Services {NUM : JsNumber} := {
  JSON_parse : string -> Outcome jsval;
  (* visionService.analyzeImage *)
  visionAnalyzeImage : string -> Outcome jsval;
  (* figmaService.findSimilarComponents *)
  findSimilarComponents : jsval -> Outcome jsval;
  (* the n-th draw of Math.random().toString(36).substr(2, 9) *)
  randomSuffix : nat -> string
}.

Section Plugin.
Context {NUM : JsNumber} {SVC : Services}.
Open Scope js_scope.

(** The [useState] cells of [Plugin]. *)
Record State := {
  apiKey : string;
  imageFile : option File;
  imagePreview : option string;
  isProcessing : bool;
  error : option string;
  statusMessage : string;
  activeTab : Tab;
  importedJsonData : jsval;
  importMethod : ImportMethod
}.

Definition initialState (key : string) : State :=
  {| apiKey := key; imageFile := None; imagePreview := None; isProcessing := false;
     error := None; statusMessage := ""; activeTab := upload;
     importedJsonData := VNull; importMethod := image |}.

Definition setImageFile (v : option File) (s : State) : State :=
  {| apiKey := apiKey s; imageFile := v; imagePreview := imagePreview s;
     isProcessing := isProcessing s; error := error s; statusMessage := statusMessage s;
     activeTab := activeTab s; importedJsonData := importedJsonData s;
     importMethod := importMethod s |}.

Definition setImagePreview (v : option string) (s : State) : State :=
  {| apiKey := apiKey s; imageFile := imageFile s; imagePreview := v;
     isProcessing := isProcessing s; error := error s; statusMessage := statusMessage s;
     activeTab := activeTab s; importedJsonData := importedJsonData s;
     importMethod := importMethod s |}.

Definition setIsProcessing (v : bool) (s : State) : State :=
  {| apiKey := apiKey s; imageFile := imageFile s; imagePreview := imagePreview s;
     isProcessing := v; error := error s; statusMessage := statusMessage s;
     activeTab := activeTab s; importedJsonData := importedJsonData s;
     importMethod := importMethod s |}.

Definition setError (v : option string) (s : State) : State :=
  {| apiKey := apiKey s; imageFile := imageFile s; imagePreview := imagePreview s;
     isProcessing := isProcessing s; error := v; statusMessage := statusMessage s;
     activeTab := activeTab s; importedJsonData := importedJsonData s;
     importMethod := importMethod s |}.

Definition setStatusMessage (v : string) (s : State) : State :=
  {| apiKey := apiKey s; imageFile := imageFile s; imagePreview := imagePreview s;
     isProcessing := isProcessing s; error := error s; statusMessage := v;
     activeTab := activeTab s; importedJsonData := importedJsonData s;
     importMethod := importMethod s |}.

Definition setImportedJsonData (v : jsval) (s : State) : State :=
  {| apiKey := apiKey s; imageFile := imageFile s; imagePreview := imagePreview s;
     isProcessing := isProcessing s; error := error s; statusMessage := statusMessage s;
     activeTab := activeTab s; importedJsonData := v;
     importMethod := importMethod s |}.

Definition setImportMethod (v : ImportMethod) (s : State) : State :=
  {| apiKey := apiKey s; imageFile := imageFile s; imagePreview := imagePreview s;
     isProcessing := isProcessing s; error := error s; statusMessage := statusMessage s;
     activeTab := activeTab s; importedJsonData := importedJsonData s;
     importMethod := v |}.

Inductive ConsoleEntry :=
| ConsoleLog (label : string)
| ConsoleWarn (label : string) (e : Exn)
| ConsoleErr (label : string) (e : Exn).

(** Messages sent to the controller with [emit]. *)
Inductive Emitted :=
| EmitImageAnalysisComplete (analysisResult : jsval)
| EmitClosePlugin.

Record World := {
  state : State;
  console : list ConsoleEntry;
  emitted : list Emitted;
  randomDraws : nat
}.

Definition update (f : State -> State) : M World unit :=
  modify (fun w => {| state := f (state w); console := console w;
                      emitted := emitted w; randomDraws := randomDraws w |}).

Definition log (entry : ConsoleEntry) : M World unit :=
  modify (fun w => {| state := state w; console := console w ++ [entry];
                      emitted := emitted w; randomDraws := randomDraws w |}).

Definition emit (msg : Emitted) : M World unit :=
  modify (fun w => {| state := state w; console := console w;
                      emitted := emitted w ++ [msg]; randomDraws := randomDraws w |}).

Definition mathRandomId : M World string :=
  fun w => (Returned (randomSuffix (randomDraws w)),
            {| state := state w; console := console w;
               emitted := emitted w; randomDraws := S (randomDraws w) |}).

(** Lifts a call that returns or throws without touching the panel. *)
Definition call {A : Type} (out : Outcome A) : M World A := fun w => (out, w).

(** [if (v.imageAnalysis.originalImage) setImagePreview(...)], for a [v]
    whose [imageAnalysis] is already known to be truthy. *)
Definition showOriginalImage (data : jsval) : M World unit :=
  imageAnalysis <- call (member data "imageAnalysis") ;;
  originalImage <- call (member imageAnalysis "originalImage") ;;
  if truthy originalImage then
    update (setImagePreview (Some ("data:image/jpeg;base64," ++ js_toString originalImage)))
  else ret tt.

(** [reader.onload] of [handleJsonFileImport], on the text read. *)
Definition onJsonFileLoaded (jsonText : string) : M World unit :=
  tryCatch
    (if negb (jsonText =? "") then
       jsonData <- call (JSON_parse jsonText) ;;
       version <- call (member jsonData "version") ;;
       valid <- (if truthy version then
                   imageAnalysis <- call (member jsonData "imageAnalysis") ;;
                   ret (truthy imageAnalysis)
                 else ret false) ;;
       if valid then
         update (setImportedJsonData jsonData) ;;
         update (setImportMethod json) ;;
         update (setStatusMessage
                   ("JSON data loaded successfully. Click " ++ quoted "Create Components"
                    ++ " to proceed.")) ;;
         showOriginalImage jsonData
       else
         update (setError (Some "Invalid JSON format. Missing required data structure."))
     else ret tt)
    (fun err =>
       log (ConsoleErr "JSON parse error:" err) ;;
       update (setError (Some ("Error parsing JSON: " ++ message err)))).

Definition handleJsonFileImport (file : File) : M World unit :=
  match asText file with
  | Some jsonText => onJsonFileLoaded jsonText
  | None => update (setError (Some "Error reading the JSON file."))
  end.

Definition handleFileChange (files : list File) : M World unit :=
  match files with
  | selectedFile :: _ =>
      if endsWith (toLowerCase (fileName selectedFile)) ".json" then
        handleJsonFileImport selectedFile
      else
        update (setImageFile (Some selectedFile)) ;;
        update (setImportMethod image) ;;
        update (setError None) ;;
        update (setImportedJsonData VNull) ;;
        (* reader.onload, once the preview has been read *)
        match asDataURL selectedFile with
        | Some url => update (setImagePreview (Some url))
        | None => ret tt
        end
  | [] => ret tt
  end.

(** The test guarding the clipboard intake. *)
Definition isComponentData (clipboardData : jsval) : M World bool :=
  if truthy clipboardData then
    version <- call (member clipboardData "version") ;;
    if truthy version then
      imageAnalysis <- call (member clipboardData "imageAnalysis") ;;
      if truthy imageAnalysis then
        colors <- call (member imageAnalysis "colors") ;;
        if truthy colors then ret true
        else
          typography <- call (member imageAnalysis "typography") ;;
          if truthy typography then ret true
          else
            components <- call (member imageAnalysis "components") ;;
            ret (truthy components)
      else ret false
    else ret false
  else ret false.

Definition processClipboardText (text : string) : M World unit :=
  if noText text then
    update (setError (Some "No data found in clipboard"))
  else
    tryCatch
      (clipboardData <- call (JSON_parse text) ;;
       valid <- isComponentData clipboardData ;;
       if valid then
         update (setStatusMessage
                   ("Component data detected! Click " ++ quoted "Create Components"
                    ++ " to proceed.")) ;;
         update (setImportedJsonData clipboardData) ;;
         update (setImportMethod json) ;;
         update (setError (Some "")) ;;
         showOriginalImage clipboardData
       else
         log (ConsoleLog "Not valid component data format") ;;
         update (setError (Some "The clipboard data is not in the expected format")))
      (fun parseError =>
         log (ConsoleLog "No valid component data in clipboard") ;;
         update (setError (Some "No valid component data found in clipboard"))).

(** [xs.map(f)]: only an array has a [map] to call. *)
Fixpoint mapItems (f : jsval -> M World jsval) (items : list jsval) : M World (list jsval) :=
  match items with
  | [] => ret []
  | x :: rest =>
      y <- f x ;;
      ys <- mapItems f rest ;;
      ret (y :: ys)
  end.

Definition arrayMap (owner key : string) (xs : jsval) (f : jsval -> M World jsval)
    : M World jsval :=
  match xs with
  | VArr items => ys <- mapItems f items ;; ret (VArr ys)
  | VUndefined =>
      throw (Error ("Cannot read properties of undefined (reading 'map')"))
  | VNull =>
      throw (Error ("Cannot read properties of null (reading 'map')"))
  | _ => throw (Error (owner ++ "." ++ key ++ ".map is not a function"))
  end.

Definition remapColor (color : jsval) : M World jsval :=
  name <- call (member color "name") ;;
  r <- call (member color "r") ;;
  g <- call (member color "g") ;;
  b <- call (member color "b") ;;
  opacity <- call (member color "opacity") ;;
  ret (VObj [("name", name);
             ("color", VObj [("r", r); ("g", g); ("b", b)]);
             ("opacity", js_or opacity (VNum (num_of_Q 1)))]).

Definition remapText (text : jsval) : M World jsval :=
  t <- call (member text "text") ;;
  fontSize <- call (member text "fontSize") ;;
  x <- call (member text "x") ;;
  y <- call (member text "y") ;;
  width <- call (member text "width") ;;
  height <- call (member text "height") ;;
  ret (VObj [("text", t); ("fontSize", fontSize); ("x", x); ("y", y);
             ("width", width); ("height", height)]).

Definition remapComponent (component : jsval) : M World jsval :=
  id <- call (member component "id") ;;
  id <- (if truthy id then ret id
         else suffix <- mathRandomId ;; ret (VStr ("comp-" ++ suffix))) ;;
  name <- call (member component "name") ;;
  type <- call (member component "type") ;;
  x <- call (member component "x") ;;
  y <- call (member component "y") ;;
  width <- call (member component "width") ;;
  height <- call (member component "height") ;;
  ret (VObj [("id", id); ("name", name); ("type", js_or type (VStr "RECTANGLE"));
             ("x", x); ("y", y); ("width", width); ("height", height)]).

(** The JSON branch of [analyzeImage]: imported data to the internal
    [ImageAnalysisResult] shape. *)
Definition remapImported (imported : jsval) : M World jsval :=
  jsonData <- call (member imported "imageAnalysis") ;;
  colors <- call (member jsonData "colors") ;;
  colors <- arrayMap "jsonData" "colors" colors remapColor ;;
  typography <- call (member jsonData "typography") ;;
  typography <- arrayMap "jsonData" "typography" typography remapText ;;
  components <- call (member jsonData "components") ;;
  components <- arrayMap "jsonData" "components" components remapComponent ;;
  ret (VObj [("colors", colors); ("typography", typography); ("components", components)]).

Definition fileToBase64 (file : File) : M World string :=
  match asDataURL file with
  | Some url => ret url
  | None => throw (Error "undefined")
  end.

(** The primary analysis: the vision service on the image path, the
    remapping on the JSON path.  [s] holds the state cells as the handler
    closed over them. *)
Definition primaryAnalysis (s : State) : M World jsval :=
  match importMethod s with
  | image =>
      match imageFile s with
      | Some file =>
          base64Image <- fileToBase64 file ;;
          call (visionAnalyzeImage base64Image)
      | None => throw (Error "Cannot read properties of null")
      end
  | json => remapImported (importedJsonData s)
  end.

(** The optional enrichment step with its own [try]/[catch]. *)
Definition enrich (analysisResult : jsval) : M World unit :=
  tryCatch
    (similarComponents <- call (findSimilarComponents analysisResult) ;;
     log (ConsoleLog "Found similar components:"))
    (fun figmaError =>
       log (ConsoleWarn "Figma API error (non-critical):" figmaError)).

Definition isSome {A : Type} (o : option A) : bool :=
  match o with Some _ => true | None => false end.

Definition analyzeImage : M World unit :=
  s <- gets state ;;
  match importMethod s, isSome (imageFile s), truthy (importedJsonData s) with
  | image, false, _ => update (setError (Some "Please select an image first."))
  | json, _, false => update (setError (Some "Please import a JSON file first."))
  | _, _, _ =>
      update (setIsProcessing true) ;;
      update (setError None) ;;
      tryFinally
        (tryCatch
           (analysisResult <- primaryAnalysis s ;;
            enrich analysisResult ;;
            emit (EmitImageAnalysisComplete analysisResult) ;;
            update (setStatusMessage "Image analyzed successfully!"))
           (fun err =>
              update (setError (Some ("Error analyzing image: " ++ message err)))))
        (update (setIsProcessing false))
  end.

Definition handleClose : M World unit := emit EmitClosePlugin.

Definition handleCreateComponents : M World unit :=
  s <- gets state ;;
  match importMethod s with
  | image =>
      if isSome (imageFile s) then analyzeImage
      else update (setError (Some "No valid image or component data available."))
  | json =>
      if truthy (importedJsonData s) then analyzeImage
      else update (setError (Some "No valid image or component data available."))
  end.

(** *** What the claims speak about *)

(** [v] is an object with an own field [k]. *)
Definition hasField (v : jsval) (k : string) : bool :=
  match v with
  | VObj fields => isSome (obj_get k fields)
  | _ => false
  end.

(** The value of field [k] of [v], [undefined] when there is none. *)
Definition field (v : jsval) (k : string) : jsval :=
  match v with
  | VObj fields => match obj_get k fields with Some x => x | None => VUndefined end
  | _ => VUndefined
  end.

(** A payload without top-level [version] or without [imageAnalysis]. *)
Definition lacksTopLevel (v : jsval) : Prop :=
  hasField v "version" = false \/ hasField v "imageAnalysis" = false.

(** A payload whose [imageAnalysis] has none of [colors], [typography],
    [components]. *)
Definition lacksAnalysisData (v : jsval) : Prop :=
  hasField (field v "imageAnalysis") "colors" = false /\
  hasField (field v "imageAnalysis") "typography" = false /\
  hasField (field v "imageAnalysis") "components" = false.

(** From [before] to [after] the error cell was set to [msg] and no other
    cell moved; in particular the imported data and the import method are
    the previous ones, and nothing was sent to the controller. *)
Definition onlyErrorSet (msg : string) (before after : World) : Prop :=
  state after = setError (Some msg) (state before) /\
  importedJsonData (state after) = importedJsonData (state before) /\
  importMethod (state after) = importMethod (state before) /\
  emitted after = emitted before.

(** A payload the clipboard intake accepts: colours only. *)
Definition colorsOnlyPayload : jsval :=
  VObj [("version", VStr "1.0");
        ("imageAnalysis",
         VObj [("colors",
                VArr [VObj [("name", VStr "primary");
                            ("r", VNum (num_of_Q (2 # 10)));
                            ("g", VNum (num_of_Q (4 # 10)));
                            ("b", VNum (num_of_Q 1))]])])].

(** The panel after that payload was taken in. *)
Definition withImported (data : jsval) (w : World) : World :=
  {| state := setImportMethod json (setImportedJsonData data (state w));
     console := console w; emitted := emitted w; randomDraws := randomDraws w |}.

(** The world [analyzeImage] runs its [try] block in: processing flag
    raised, error cleared. *)
Definition started (w : World) : World :=
  {| state := setError None (setIsProcessing true (state w));
     console := console w; emitted := emitted w; randomDraws := randomDraws w |}.

(** The guards at the head of [analyzeImage] let the run through. *)
Definition ready (s : State) : bool :=
  match importMethod s with
  | image => isSome (imageFile s)
  | json => truthy (importedJsonData s)
  end.

(** [w'] differs from [w] at most in the number of random draws. *)
Definition sameButDraws (w w' : World) : Prop :=
  state w' = state w /\ console w' = console w /\ emitted w' = emitted w.

(** A computation that touches neither cells, console nor outbox. *)
Definition quiet {A : Type} (m : M World A) : Prop :=
  forall w out w', m w = (out, w') -> sameButDraws w w'.

End Plugin.
End Panel.

(** ** What the claims speak about *)

Section ControllerSpec.
Context {NUM : JsNumber} {ENV : Collaborators}.

(** A section title: a text node set in Inter Bold. *)
Definition isBoldTitle (n : SceneNode) : Prop :=
  nodeType n = TEXT /\ prop "fontName" n = Some (PFont InterBold).

(** The degraded node standing in for element [i] (counted from 0). *)
Definition isFallbackFor (i : nat) (c : ComponentData.t) (n : SceneNode) : Prop :=
  nodeType n = COMPONENT /\
  children n = [] /\
  prop "width" n = Some (PNum (ComponentData.width c)) /\
  prop "height" n = Some (PNum (ComponentData.height c)) /\
  prop "name" n =
    Some (PStr (match ComponentData.name c with
                | Some s => if s =? "" then "Component " ++ nat_toString (i + 1) else s
                | None => "Component " ++ nat_toString (i + 1)
                end)) /\
  prop "fills" n = option_map PPaints (ComponentData.fills c).

(** The individual build of a batch, element by element, from index [i]
    and document [f]: every element yields one node, the builder's own
    when it returns and a fallback when it throws; [evs] is what the batch
    adds to the trace and [f'] the document it ends in. *)
Inductive IndividualBuild
  : nat -> list ComponentData.t -> Figma -> list SceneNode -> list Event -> Figma -> Prop :=
| build_done : forall i f, IndividualBuild i [] f [] [] f
| build_ok : forall i c cs f n f1 ns evs f2,
    createSystemComponent c f = (Returned n, f1) ->
    IndividualBuild (S i) cs f1 ns evs f2 ->
    IndividualBuild i (c :: cs) f (n :: ns) (CallCreateSystemComponent c :: evs) f2
| build_fallback : forall i c cs f e f1 n ns evs f2,
    createSystemComponent c f = (Thrown e, f1) ->
    isFallbackFor i c n ->
    IndividualBuild (S i) cs f1 ns evs f2 ->
    IndividualBuild i (c :: cs) f (n :: ns)
      (CallCreateSystemComponent c :: ConsoleError "Error creating component:" e :: evs) f2.

Definition isBuilderCall (ev : Event) : bool :=
  match ev with
  | ConsoleError _ _ => false
  | _ => true
  end.

(** The calls made to [ComponentBuilder], console output left out. *)
Definition builderCalls (evs : list Event) : list Event := filter isBuilderCall evs.

(** Number of registered styles carrying a given name. *)
Definition stylesNamed (nm : string) (f : Figma) : nat :=
  List.length (filter (style_named nm) (styles f)).

(** Style ids are handed out from a counter, so every registered id lies
    below it. *)
Definition WellFormed (f : Figma) : Prop :=
  Forall (fun s => styleId s < nextStyleId f) (styles f).

(** The same, as a check that runs. *)
Definition wellFormed (f : Figma) : bool :=
  forallb (fun s => Nat.ltb (styleId s) (nextStyleId f)) (styles f).

(** [f'] keeps every style of [f], in place and unchanged, and may have
    more after them. *)
Definition extends (f f' : Figma) : Prop :=
  exists added, styles f' = (styles f ++ added)%list.

(** A named section of the parent frame: a frame of that name whose first
    child is a title. *)
Definition isSection (nm : string) (section : SceneNode) : Prop :=
  nodeType section = FRAME /\
  prop "name" section = Some (PStr nm) /\
  exists title rest, children section = title :: rest /\ isBoldTitle title.

(** The children a section contributes to the parent frame: the section
    itself when it is wanted, nothing otherwise. *)
Definition optionalSection (wanted : bool) (nm : string) (nodes : list SceneNode) : Prop :=
  if wanted then exists section, nodes = [section] /\ isSection nm section
  else nodes = [].

(** *** Colours *)

(** The paint of a colour, as the specification has it: solid, of the
    colour's own value, with the colour's opacity, or 1 when it has none
    (or a falsy one). *)
Definition solidPaintOf (c : ColorData.t) : Paint :=
  {| paintType := "SOLID";
     paintColor := ColorData.color c;
     paintOpacity :=
       Some (match ColorData.opacity c with
             | Some o => if num_truthy o then o else num_of_Q 1
             | None => num_of_Q 1
             end) |}.

(** The paint style registered for a colour under id [sid]: named
    [Color/<name>] and holding the colour's paint. *)
Definition newPaintStyle (sid : nat) (c : ColorData.t) : Style :=
  {| styleId := sid; styleKind := PaintStyle;
     styleProps := [("name", PStr ("Color/" ++ ColorData.name c));
                    ("paints", PPaints [solidPaintOf c])] |}.

(** The first colour of the list whose style name, [Color/<name>], is
    [nm]. *)
Definition firstOfName (nm : string) (colors : list ColorData.t) : option ColorData.t :=
  find (fun c => ("Color/" ++ ColorData.name c) =? nm) colors.

(** A swatch wrapper for colour [c]: a rectangle filled with the colour's
    own paint and linked to the style document [f] files under
    [Color/<name>], then a label. *)
Definition swatchLinkedTo (f : Figma) (c : ColorData.t) (wrapper : SceneNode) : Prop :=
  exists rect label st,
    children wrapper = [rect; label] /\
    nodeType rect = RECTANGLE /\
    prop "fills" rect = Some (PPaints [solidPaintOf c]) /\
    find (style_named ("Color/" ++ ColorData.name c)) (styles f) = Some st /\
    prop "fillStyleId" rect = Some (PStyleId (styleId st)).

(** Two swatch wrappers whose rectangles point at the same style. *)
Definition shareStyle (wrapper1 wrapper2 : SceneNode) : Prop :=
  exists rect1 label1 rect2 label2,
    children wrapper1 = [rect1; label1] /\
    children wrapper2 = [rect2; label2] /\
    prop "fillStyleId" rect1 = prop "fillStyleId" rect2.

(** *** Typography *)

(** A property name made of decimal digits only: the names an object
    enumerates ahead of the others, in numeric order. *)
Definition isIndexLike (k : string) : bool :=
  forallb (fun c => Nat.leb 48 (nat_of_ascii c) && Nat.leb (nat_of_ascii c) 57)
    (list_ascii_of_string k).

(** Keys in order of first occurrence. *)
Fixpoint firstOccurrences (ks : list string) : list string :=
  match ks with
  | [] => []
  | k :: rest => k :: filter (fun k' => negb (k' =? k)) (firstOccurrences rest)
  end.

(** The entries filed under key [k], in input order. *)
Definition bucketOf (k : string) (typography : list TypographyData.t)
    : list TypographyData.t :=
  filter (fun t => groupKey t =? k) typography.

(** Grouping as the specification words it: one group per distinct key,
    in order of first occurrence, holding the entries of that key. *)
Definition groupedByKey (typography : list TypographyData.t)
    : list (string * list TypographyData.t) :=
  map (fun k => (k, bucketOf k typography)) (firstOccurrences (map groupKey typography)).

(** The two halves of the pair typography is grouped by, as they read
    in a key: the rendered font size and the font family, each [unknown]
    when absent or falsy. *)
Definition sizePart (t : TypographyData.t) : string :=
  match TypographyData.fontSize t with
  | Some n => if num_truthy n then num_toString n else "unknown"
  | None => "unknown"
  end.

Definition familyPart (t : TypographyData.t) : string :=
  match TypographyData.fontName t with
  | Some f => if family f =? "" then "unknown" else family f
  | None => "unknown"
  end.

(** Two entries of one pair (fontSize, fontFamily). *)
Definition samePair (a b : TypographyData.t) : bool :=
  (sizePart a =? sizePart b) && (familyPart a =? familyPart b).

(** A text without the character [-]. *)
Definition dashFree (s : string) : bool :=
  forallb (fun c => negb (Ascii.eqb c "-"%char)) (list_ascii_of_string s).

(** The first entry of every pair, in input order. *)
Fixpoint representatives (typography : list TypographyData.t) : list TypographyData.t :=
  match typography with
  | [] => []
  | t :: rest => t :: filter (fun t' => negb (samePair t' t)) (representatives rest)
  end.

(** Grouping by pair, as the specification words it: one group per
    distinct pair (fontSize, fontFamily), in order of first occurrence,
    holding the entries of that pair in input order. *)
Definition groupedByPair (typography : list TypographyData.t)
    : list (list TypographyData.t) :=
  map (fun first => filter (fun t => samePair t first) typography)
    (representatives typography).

(** The font and the size a group's style is made from: those of its
    first element, Inter Regular standing in for an absent font and 16
    for an absent (or falsy) size. *)
Definition fontOfFirst (first : TypographyData.t) : FontName :=
  match TypographyData.fontName first with
  | Some f => f
  | None => {| family := "Inter"; style := "Regular" |}
  end.

Definition sizeOfFirst (first : TypographyData.t) : number :=
  match TypographyData.fontSize first with
  | Some n => if num_truthy n then n else num_of_Q 16
  | None => num_of_Q 16
  end.

(** The name of a group's text style, as the specification has it:
    [Text/<family>-<style>/<size>px]. *)
Definition styleNameOfFirst (first : TypographyData.t) : string :=
  "Text/" ++ family (fontOfFirst first) ++ "-" ++ style (fontOfFirst first)
  ++ "/" ++ num_toString (sizeOfFirst first) ++ "px".

(** The text style registered for a sample under id [sid]. *)
Definition newTextStyle (sid : nat) (sample : TypographyData.t) : Style :=
  {| styleId := sid; styleKind := TextStyle;
     styleProps := [("name", PStr (styleNameOfFirst sample));
                    ("fontName", PFont (fontOfFirst sample));
                    ("fontSize", PNum (sizeOfFirst sample))] |}.

(** A sample text node for [sample]: a text node bound to the style
    document [f] files under [Text/<family>-<style>/<size>px]. *)
Definition sampleBoundTo (f : Figma) (sample : TypographyData.t) (node : SceneNode) : Prop :=
  nodeType node = TEXT /\
  children node = [] /\
  exists st,
    find (style_named (styleNameOfFirst sample)) (styles f) = Some st /\
    prop "textStyleId" node = Some (PStyleId (styleId st)).

(** The first element of every non-empty group. *)
Definition samplesOf (textGroups : list (string * list TypographyData.t))
    : list TypographyData.t :=
  flat_map (fun g => match snd g with sample :: _ => [sample] | [] => [] end) textGroups.

(** *** Components *)

(** At least two components, the first two of one name. *)
Definition firstTwoShareName (comps : list ComponentData.t) : Prop :=
  exists c0 c1 rest,
    comps = c0 :: c1 :: rest /\ ComponentData.name c0 = ComponentData.name c1.

(** The components section once its title is in. *)
Definition componentsFrame (title : SceneNode) : SceneNode :=
  appendChild (autoLayoutFrame "Components" "VERTICAL" 24) title.

(** *** Teardown *)

(** Between [before] and [after] nothing was torn down, and a timer is
    left that will call [figma.closePlugin] after a positive delay. *)
Definition closesAfterDelay (before after : Figma) : Prop :=
  exists delay, 0 < delay /\ closed after = closed before /\
                In (delay, ClosePluginAction) (timers after).

End ControllerSpec.

(** ** Sample collaborators, used to run the definitions *)

Module Sample.

(** Numbers as rationals.  The rendering agrees with JavaScript's on the
    integers, the only values it is applied to below. *)
Definition Rational : JsNumber :=
  {| number := Q;
     num_of_Q := fun q => q;
     num_truthy := fun q => negb (Qeq_bool q 0);
     num_toString := fun q =>
       let q := Qred q in
       if Pos.eqb (Qden q) 1 then NilZero.string_of_int (Z.to_int (Qnum q))
       else NilZero.string_of_int (Z.to_int (Qnum q)) ++ "/"
            ++ NilZero.string_of_int (Z.to_int (Zpos (Qden q))) |}.

#[local] Existing Instance Rational.

Definition component (nm : string) : @ComponentData.t Rational :=
  {| ComponentData.id := "c-" ++ nm; ComponentData.type := "RECTANGLE";
     ComponentData.name := Some nm;
     ComponentData.x := 0%Q; ComponentData.y := 0%Q;
     ComponentData.width := 120%Q; ComponentData.height := 40%Q;
     ComponentData.fills := None |}.

Definition built (nm : string) : @SceneNode Rational :=
  assign "name" (PStr nm) (createNode COMPONENT).

(** A builder that refuses components named [Broken] and cannot make
    variant sets at all; every font loads. *)
Definition fragile : @Collaborators Rational :=
  {| fontAvailable := fun _ => true;
     createSystemComponent := fun c f =>
       match ComponentData.name c with
       | Some "Broken" => (Thrown (Error "unsupported element"), f)
       | Some nm => (Returned (built nm), f)
       | None => (Returned (built "unnamed"), f)
       end;
     createComponentSet := fun _ f => (Thrown (Error "variants unsupported"), f) |}.

(** A builder that always succeeds. *)
Definition sturdy : @Collaborators Rational :=
  {| fontAvailable := fun _ => true;
     createSystemComponent := fun c f =>
       (Returned (built (optstr_or (ComponentData.name c) "unnamed")), f);
     createComponentSet := fun _ f =>
       (Returned (assign "name" (PStr "Variants") (createNode COMPONENT_SET)), f) |}.

Definition emptyWorld : @World Rational := {| figma := emptyFigma; trace := [] |}.

Definition batch5 : list (@ComponentData.t Rational) :=
  [component "Header"; component "Card"; component "Broken";
   component "Footer"; component "Badge"].

Definition variants : list (@ComponentData.t Rational) :=
  [component "Btn"; component "Btn"; component "Card"].

Definition color (nm : string) (red green blue : Q) : @ColorData.t Rational :=
  {| ColorData.name := nm;
     ColorData.color := {| r := red; g := green; b := blue |};
     ColorData.opacity := None |}.

(** Two colours of one name and different values, then a third colour. *)
Definition palette : list (@ColorData.t Rational) :=
  [color "brand" 1 0 0; color "brand" 0 0 1; color "accent" 0 1 0]%Q.

Definition textEntry (content : string) (font : option FontName) (size : option Q)
    : @TypographyData.t Rational :=
  {| TypographyData.text := content;
     TypographyData.fontName := font;
     TypographyData.fontSize := size;
     TypographyData.x := 0%Q; TypographyData.y := 0%Q;
     TypographyData.width := 100%Q; TypographyData.height := 20%Q |}.

(** Two entries in 16px Inter (one bold, one regular), one entry without
    font in 12px. *)
Definition texts : list (@TypographyData.t Rational) :=
  [textEntry "Title" (Some InterBold) (Some 16%Q);
   textEntry "Body" (Some InterRegular) (Some 16%Q);
   textEntry "Caption" None (Some 12%Q)].

Definition analysis : @ImageAnalysisResult Rational :=
  {| components := batch5; colors := palette; typography := texts |}.

(** *** The panel's services *)

Definition notJson : string := "not json".

Definition versionOnlyText : string :=
  "{" ++ quoted "version" ++ ":" ++ quoted "1.0" ++ "}".

Definition colorsOnlyText : string :=
  "{" ++ quoted "version" ++ ":" ++ quoted "1.0" ++ ","
  ++ quoted "imageAnalysis" ++ ":{" ++ quoted "colors" ++ ":[{"
  ++ quoted "name" ++ ":" ++ quoted "primary" ++ ","
  ++ quoted "r" ++ ":0.2," ++ quoted "g" ++ ":0.4," ++ quoted "b" ++ ":1}]}}".

(** [JSON.parse] on the three texts used below; every other text is taken
    not to parse. *)
Definition parse (text : string) : Outcome (@jsval Rational) :=
  if text =? versionOnlyText then Returned (VObj [("version", VStr "1.0")])
  else if text =? colorsOnlyText then Returned Panel.colorsOnlyPayload
  else Thrown (Error "Unexpected token").

Definition emptyResult : @jsval Rational :=
  VObj [("colors", VArr []); ("typography", VArr []); ("components", VArr [])].

(** A vision service that answers and a Figma service that is refused. *)
Definition services : @Panel.Services Rational :=
  {| Panel.JSON_parse := parse;
     Panel.visionAnalyzeImage := fun _ => Returned emptyResult;
     Panel.findSimilarComponents := fun _ => Thrown (Error "403 Forbidden");
     Panel.randomSuffix := fun n => "r" ++ nat_toString n |}.

Definition panel : @Panel.World Rational :=
  {| Panel.state := Panel.initialState "";
     Panel.console := []; Panel.emitted := []; Panel.randomDraws := 0 |}.

Definition jsonFile (content : string) : Panel.File :=
  {| Panel.fileName := "Export.JSON"; Panel.asText := Some content;
     Panel.asDataURL := None |}.

Definition screenshot : Panel.File :=
  {| Panel.fileName := "screen.png"; Panel.asText := None;
     Panel.asDataURL := Some "data:image/png;base64,iVBORw0KGgo=" |}.

(** The panel once a screenshot was chosen. *)
Definition panelWithImage : @Panel.World Rational :=
  {| Panel.state := Panel.setImageFile (Some screenshot) (Panel.initialState "");
     Panel.console := []; Panel.emitted := []; Panel.randomDraws := 0 |}.

End Sample.

From Stdlib Require Import Permutation.

(** * More of the program *)

(** ** More of the panel: external data, clipboard access, the API key *)

Module Browser.
Import Panel.

Section Session.
Context {NUM : JsNumber} {SVC : Services}.
Open Scope js_scope.

Definition setApiKey (v : string) (s : State) : State :=
  {| apiKey := v; imageFile := imageFile s; imagePreview := imagePreview s;
     isProcessing := isProcessing s; error := error s; statusMessage := statusMessage s;
     activeTab := activeTab s; importedJsonData := importedJsonData s;
     importMethod := importMethod s |}.

(** [v === s] for a string literal [s]. *)
Definition isString (v : jsval) (s : string) : bool :=
  match v with
  | VStr t => t =? s
  | _ => false
  end.

(** [handleExternalMessage], on [event.data].  The listener has no
    [try] of its own: what it throws escapes it. *)
Definition handleExternalMessage (eventData : jsval) : M World unit :=
  pluginMessage <- call (member eventData "pluginMessage") ;;
  if truthy pluginMessage then
    type <- call (member pluginMessage "type") ;;
    if isString type "EXTERNAL_DATA_RECEIVED" then
      log (ConsoleLog "UI received external data:") ;;
      externalData <- call (member pluginMessage "data") ;;
      update (setImportedJsonData externalData) ;;
      update (setImportMethod json) ;;
      update (setStatusMessage
                ("Data received from Chrome extension. Click " ++ quoted "Create Components"
                 ++ " to proceed.")) ;;
      imageAnalysis <- call (member externalData "imageAnalysis") ;;
      if truthy imageAnalysis then
        originalImage <- call (member imageAnalysis "originalImage") ;;
        if truthy originalImage then
          update (setImagePreview
                    (Some ("data:image/jpeg;base64," ++ js_toString originalImage)))
        else ret tt
      else ret tt
    else ret tt
  else ret tt.

(** What [navigator.clipboard] has to offer. *)
Inductive Clipboard :=
| NoClipboardApi
| ReadRejected (e : Exn)
| Holds (text : string).

Inductive TimeoutAction := ClearStatusMessage.

(** The panel in its browser window: the state cells, the clipboard, the
    local storage, the pending timeouts, the number of manual-paste
    containers appended to the tab so far and the bare warnings written
    to the console. *)
Record Session := {
  world : World;
  clipboard : Clipboard;
  localStorage : list (string * string);
  timeouts : list (nat * TimeoutAction);
  manualPasteOptions : nat;
  warnings : list string
}.

Definition lift {A : Type} (m : M World A) : M Session A :=
  fun s =>
    match m (world s) with
    | (out, w') =>
        (out, {| world := w'; clipboard := clipboard s; localStorage := localStorage s;
                 timeouts := timeouts s; manualPasteOptions := manualPasteOptions s;
                 warnings := warnings s |})
    end.

(** [console.warn] of a bare message. *)
Definition warn (label : string) : M Session unit :=
  modify (fun s =>
    {| world := world s; clipboard := clipboard s; localStorage := localStorage s;
       timeouts := timeouts s; manualPasteOptions := manualPasteOptions s;
       warnings := (warnings s ++ [label])%list |}).

(** [showManualPasteOption]: one more container under [.tab-content],
    which every tab renders. *)
Definition showManualPasteOption : M Session unit :=
  modify (fun s =>
    {| world := world s; clipboard := clipboard s; localStorage := localStorage s;
       timeouts := timeouts s; manualPasteOptions := S (manualPasteOptions s);
       warnings := warnings s |}).

(** [navigator.clipboard && navigator.clipboard.readText]: what
    [readText()] will settle with, when the API is there at all. *)
Definition clipboardApi (c : Clipboard) : option (Outcome string) :=
  match c with
  | NoClipboardApi => None
  | ReadRejected e => Some (Thrown e)
  | Holds text => Some (Returned text)
  end.

(** [await navigator.clipboard.readText()] *)
Definition readText (settled : Outcome string) : M Session string :=
  fun s => (settled, s).

Definition handlePasteFromClipboard : M Session unit :=
  tryCatch
    (lift (update (setStatusMessage "Reading from clipboard...")) ;;
     c <- gets clipboard ;;
     match clipboardApi c with
     | Some settled =>
         clipboardText <- readText settled ;;
         lift (processClipboardText clipboardText)
     | None =>
         lift (update (setError
                 (Some "Clipboard API not available. Please try manual paste."))) ;;
         showManualPasteOption
     end)
    (fun err =>
       lift (log (ConsoleErr "Clipboard access error:" err)) ;;
       lift (update (setError
               (Some ("Error accessing clipboard: " ++ message err
                      ++ ". Try manual paste.")))) ;;
       showManualPasteOption).

Definition checkClipboardForComponentData : M Session unit :=
  tryCatch
    (lift (update (setStatusMessage "Checking clipboard for component data...")) ;;
     c <- gets clipboard ;;
     match clipboardApi c with
     | Some settled =>
         tryCatch
           (clipboardText <- readText settled ;;
            lift (processClipboardText clipboardText))
           (fun clipboardError =>
              lift (log (ConsoleErr "Error reading from clipboard API:" clipboardError)) ;;
              lift (update (setError
                      (Some ("Could not access clipboard. "
                             ++ "Please try pasting manually into a text field.")))) ;;
              showManualPasteOption)
     | None =>
         warn "Clipboard API not available" ;;
         lift (update (setError
                 (Some ("Clipboard API not available in this context. "
                        ++ "Please try pasting manually.")))) ;;
         showManualPasteOption
     end)
    (fun err =>
       lift (log (ConsoleErr "Clipboard check error:" err)) ;;
       lift (update (setError (Some ("Error checking clipboard: " ++ message err))))).

(** The [Process Pasted Data] button of the upload tab, on the value of
    its textarea. *)
Definition processPastedData (value : string) : M World unit :=
  if negb (value =? "") then processClipboardText value
  else update (setError (Some "Please paste data into the textarea first")).

Definition apiKeyItem : string := "googleVisionApiKey".

Definition setItem (k v : string) : M Session unit :=
  modify (fun s =>
    {| world := world s; clipboard := clipboard s;
       localStorage := obj_set k v (localStorage s);
       timeouts := timeouts s; manualPasteOptions := manualPasteOptions s;
       warnings := warnings s |}).

Definition getItem (k : string) : M Session (option string) :=
  gets (fun s => obj_get k (localStorage s)).

Definition setTimeout (action : TimeoutAction) (delay : nat) : M Session unit :=
  modify (fun s =>
    {| world := world s; clipboard := clipboard s; localStorage := localStorage s;
       timeouts := (timeouts s ++ [(delay, action)])%list;
       manualPasteOptions := manualPasteOptions s;
       warnings := warnings s |}).

Definition handleApiKeySave : M Session unit :=
  key <- gets (fun s => apiKey (state (world s))) ;;
  setItem apiKeyItem key ;;
  lift (update (setStatusMessage "API Key saved successfully!")) ;;
  setTimeout ClearStatusMessage 3000.

(** The effect run once when the panel is mounted. *)
Definition onMount : M Session unit :=
  savedApiKey <- getItem apiKeyItem ;;
  match savedApiKey with
  | Some key => if negb (key =? "") then lift (update (setApiKey key)) else ret tt
  | None => ret tt
  end ;;
  checkClipboardForComponentData.

(** A panel opened afresh in a browser that kept [storage]. *)
Definition freshSession (configuredKey : string) (c : Clipboard)
    (storage : list (string * string)) : Session :=
  {| world := {| state := initialState configuredKey; console := [];
                 emitted := []; randomDraws := 0 |};
     clipboard := c; localStorage := storage; timeouts := [];
     manualPasteOptions := 0; warnings := [] |}.

(** *** What the further properties speak about *)

(** The test of the clipboard intake, on values. *)
Definition acceptedByClipboard (v : jsval) : bool :=
  truthy v && truthy (field v "version") && truthy (field v "imageAnalysis")
  && (truthy (field (field v "imageAnalysis") "colors")
      || truthy (field (field v "imageAnalysis") "typography")
      || truthy (field (field v "imageAnalysis") "components")).

(** The test of the file import, on values. *)
Definition acceptedByFile (v : jsval) : bool :=
  truthy (field v "version") && truthy (field v "imageAnalysis").

(** The preview an accepted payload leaves: its [originalImage] as a JPEG
    data URL when it has one, the previous preview otherwise. *)
Definition previewAfter (v : jsval) (previous : option string) : option string :=
  let originalImage := field (field v "imageAnalysis") "originalImage" in
  if truthy originalImage
  then Some ("data:image/jpeg;base64," ++ js_toString originalImage)
  else previous.

(** The cells after payload [v] was taken in with status [status] and
    error cell [err]. *)
Definition takenIn (v : jsval) (status : string) (err : option string) (s : State) : State :=
  setImagePreview (previewAfter v (imagePreview s))
    (setError err (setImportMethod json (setImportedJsonData v (setStatusMessage status s)))).

Definition detectedStatus : string :=
  "Component data detected! Click " ++ quoted "Create Components" ++ " to proceed.".

Definition loadedStatus : string :=
  "JSON data loaded successfully. Click " ++ quoted "Create Components" ++ " to proceed.".

Definition notNullish (v : jsval) : bool :=
  match v with
  | VUndefined | VNull => false
  | _ => true
  end.

Definition asArray (v : jsval) : option (list jsval) :=
  match v with
  | VArr items => Some items
  | _ => None
  end.

(** What the remapping can work on: an [imageAnalysis] whose [colors],
    [typography] and [components] are arrays without [null] elements. *)
Definition remappable (imported : jsval) : bool :=
  notNullish imported &&
  match asArray (field (field imported "imageAnalysis") "colors"),
        asArray (field (field imported "imageAnalysis") "typography"),
        asArray (field (field imported "imageAnalysis") "components") with
  | Some cs, Some ts, Some ks =>
      forallb notNullish cs && forallb notNullish ts && forallb notNullish ks
  | _, _, _ => false
  end.

(** The number of elements of array field [k] of a remapped result. *)
Definition sizeOf (k : string) (v : jsval) : option nat :=
  option_map (@List.length jsval) (asArray (field v k)).

(** The elements of array field [k] of [v]; none when it is no array. *)
Definition itemsOf (k : string) (v : jsval) : list jsval :=
  match asArray (field v k) with
  | Some items => items
  | None => []
  end.

(** The random identifiers the remapping draws: one for each component
    whose [id] is falsy. *)
Definition drawsFor (component : jsval) : nat :=
  if truthy (field component "id") then 0 else 1.

Definition identifiersDrawn (components : list jsval) : nat :=
  list_sum (map drawsFor components).

(** A remapped component is complete: [id] and [type] are truthy. *)
Definition complete (component : jsval) : bool :=
  truthy (field component "id") && truthy (field component "type").

Definition whitespaceOnly (text : string) : bool :=
  forallb is_ws (list_ascii_of_string text).

(** Nothing but the cells for status, error, imported data, import method
    and preview differs between [w] and [w'], and the console. *)
Definition intakeOnly (w w' : World) : Prop :=
  apiKey (state w') = apiKey (state w) /\
  imageFile (state w') = imageFile (state w) /\
  isProcessing (state w') = isProcessing (state w) /\
  activeTab (state w') = activeTab (state w) /\
  emitted w' = emitted w /\
  randomDraws w' = randomDraws w.

(** A computation that stays within the intake cells. *)
Definition keepsToIntake {A : Type} (m : M World A) : Prop :=
  forall w out w', m w = (out, w') -> intakeOnly w w'.

End Session.
End Browser.

(** ** The controller's listener for external messages
    ([setupExternalMessaging]) *)

Module External.

(** [UnifiedCore] (module [./unified-core]) is not among the sources:
    whether the import is there, and what [processComponentData] settles
    with. *)
Class UnifiedCore {NUM : JsNumber} := {
  processComponentData : option (jsval -> Outcome jsval)
}.

Section Listener.
Context {NUM : JsNumber} {CORE : UnifiedCore}.
Open Scope js_scope.

(** The [EXTERNAL_DATA_RECEIVED] envelope posted to the panel. *)
Record Envelope := {
  envData : jsval;
  envSimplified : bool;
  envMessage : option jsval
}.

(** [figma.notify]: the warning about simplified data, or an error. *)
Inductive Notice :=
| SimplifiedNotice
| ErrorNotice (errorMessage : string).

Inductive Entry :=
| LogInfo (label : string)
| LogError (label : string) (e : Exn).

(** What the listener leaves behind: the envelopes posted, the notices
    shown, the payloads handed to [processComponentData], the console. *)
Record World := {
  posted : list Envelope;
  notices : list Notice;
  reprocessed : list jsval;
  console : list Entry
}.

Definition postMessage (e : Envelope) : M World unit :=
  modify (fun w => {| posted := (posted w ++ [e])%list; notices := notices w;
                      reprocessed := reprocessed w; console := console w |}).

Definition notify (n : Notice) : M World unit :=
  modify (fun w => {| posted := posted w; notices := (notices w ++ [n])%list;
                      reprocessed := reprocessed w; console := console w |}).

Definition log (e : Entry) : M World unit :=
  modify (fun w => {| posted := posted w; notices := notices w;
                      reprocessed := reprocessed w; console := (console w ++ [e])%list |}).

Definition get (v : jsval) (k : string) : M World jsval := fun w => (member v k, w).

(** [await UnifiedCore.processComponentData(componentData)] *)
Definition callCore (process : jsval -> Outcome jsval) (componentData : jsval)
    : M World jsval :=
  fun w => (process componentData,
            {| posted := posted w; notices := notices w;
               reprocessed := (reprocessed w ++ [componentData])%list;
               console := console w |}).

Definition isTrue (v : jsval) : bool :=
  match v with
  | VBool true => true
  | _ => false
  end.

Definition raw (componentData : jsval) : Envelope :=
  {| envData := componentData; envSimplified := false; envMessage := None |}.

(** The [message] listener, on [event.data]. *)
Definition onMessage (eventData : jsval) : M World unit :=
  tryCatch
    (if truthy eventData then
       source <- get eventData "source" ;;
       if Browser.isString source "sticker-chrome-extension"
          || Browser.isString source "sticker-system"
       then
         log (LogInfo "Received external message:") ;;
         fromComponentData <- get eventData "componentData" ;;
         componentData <-
           (if truthy fromComponentData then ret fromComponentData
            else get eventData "data") ;;
         if truthy componentData then
           simplified <- get componentData "simplified" ;;
           if isTrue simplified then
             log (LogInfo "Received simplified component data due to size constraints") ;;
             note <- get componentData "message" ;;
             postMessage
               {| envData := componentData; envSimplified := true;
                  envMessage :=
                    Some (js_or note
                            (VStr "Data was simplified due to size constraints")) |} ;;
             notify SimplifiedNotice
           else
             match processComponentData with
             | Some process =>
                 tryCatch
                   (processedData <- callCore process componentData ;;
                    postMessage (raw processedData))
                   (fun err =>
                      log (LogError "Error processing data through unified core:" err) ;;
                      postMessage (raw componentData))
             | None => postMessage (raw componentData)
             end
         else ret tt
       else ret tt
     else ret tt)
    (fun err =>
       log (LogError "Error processing external message:" err) ;;
       notify (ErrorNotice (message err))).

(** A message the listener answers: a recognised sender and a payload. *)
Definition payloadOf (eventData : jsval) : option jsval :=
  if truthy eventData
     && (Browser.isString (Panel.field eventData "source") "sticker-chrome-extension"
         || Browser.isString (Panel.field eventData "source") "sticker-system")
  then
    let componentData := js_or (Panel.field eventData "componentData") (Panel.field eventData "data") in
    if truthy componentData then Some componentData else None
  else None.

End Listener.
End External.

(** ** What the further properties of the controller speak about *)

Section MoreControllerSpec.
Context {NUM : JsNumber} {ENV : Collaborators}.

(** The fonts a run asks the host for, in order. *)
Definition fontsNeeded (imageData : ImageAnalysisResult) : list FontName :=
  ((if nonEmpty (colors imageData) then [InterBold; InterRegular] else []) ++
   (if nonEmpty (typography imageData)
    then InterBold :: map sampleFontName (samplesOf (groupTypography (typography imageData)))
    else []) ++
   (if nonEmpty (components imageData) then [InterBold] else []))%list.

(** [w'] differs from [w] at most in the style registry. *)
Definition sameButStyles (w w' : World) : Prop :=
  trace w' = trace w /\
  pageChildren (figma w') = pageChildren (figma w) /\
  selection (figma w') = selection (figma w) /\
  viewport (figma w') = viewport (figma w) /\
  uiMessages (figma w') = uiMessages (figma w) /\
  timers (figma w') = timers (figma w) /\
  closed (figma w') = closed (figma w).

(** Every colour already has its style in [f]. *)
Definition paletteFiled (colors : list ColorData.t) (f : Figma) : bool :=
  forallb (fun c => match find (style_named (colorStyleName c)) (styles f) with
                   | Some _ => true
                   | None => false
                   end) colors.

(** Every group's sample already has its style in [f]. *)
Definition samplesFiled (typography : list TypographyData.t) (f : Figma) : bool :=
  forallb (fun s => match find (style_named (textStyleName s)) (styles f) with
                   | Some _ => true
                   | None => false
                   end)
    (samplesOf (groupTypography typography)).

(** A text style that has its name and nothing else yet. *)
Definition bareTextStyle (sid : nat) (sample : TypographyData.t) : Style :=
  {| styleId := sid; styleKind := TextStyle;
     styleProps := [("name", PStr (textStyleName sample))] |}.

(** A computation that touches nothing but the style registry. *)
Definition stylesOnly {A : Type} (m : M World A) : Prop :=
  forall w out w', m w = (out, w') -> sameButStyles w w'.

(** A computation that returns when the host has every font of [fs] and
    throws when it lacks one, then leaving all but the style registry as
    it was. *)
Definition loadsFonts (fs : list FontName) {A : Type} (m : M World A) : Prop :=
  forall w,
    match m w with
    | (Returned _, _) => forallb fontAvailable fs = true
    | (Thrown _, w') => forallb fontAvailable fs = false /\ sameButStyles w w'
    end.

End MoreControllerSpec.

(** ** More sample data *)

Module Cases.

#[local] Existing Instance Sample.Rational.

(** A payload with the three arrays; the second component has no [id]. *)
Definition fullPayload : @jsval Sample.Rational :=
  VObj [("version", VStr "1.0");
        ("imageAnalysis",
         VObj [("colors",
                VArr [VObj [("name", VStr "primary");
                            ("r", VNum (num_of_Q (2 # 10)));
                            ("g", VNum (num_of_Q (4 # 10)));
                            ("b", VNum (num_of_Q 1))]]);
               ("typography",
                VArr [VObj [("text", VStr "Title"); ("fontSize", VNum (num_of_Q 16))]]);
               ("components",
                VArr [VObj [("id", VStr "c-1"); ("name", VStr "Card")];
                      VObj [("name", VStr "Badge")]])])].

Definition fullText : string :=
  "{" ++ quoted "version" ++ ":" ++ quoted "1.0" ++ ","
  ++ quoted "imageAnalysis" ++ ":{"
  ++ quoted "colors" ++ ":[{" ++ quoted "name" ++ ":" ++ quoted "primary" ++ ","
  ++ quoted "r" ++ ":0.2," ++ quoted "g" ++ ":0.4," ++ quoted "b" ++ ":1}],"
  ++ quoted "typography" ++ ":[{" ++ quoted "text" ++ ":" ++ quoted "Title" ++ ","
  ++ quoted "fontSize" ++ ":16}],"
  ++ quoted "components" ++ ":[{" ++ quoted "id" ++ ":" ++ quoted "c-1" ++ ","
  ++ quoted "name" ++ ":" ++ quoted "Card" ++ "},{"
  ++ quoted "name" ++ ":" ++ quoted "Badge" ++ "}]}}".

(** [JSON.parse] on [fullText] too. *)
Definition parse (text : string) : Outcome (@jsval Sample.Rational) :=
  if text =? fullText then Returned fullPayload else Sample.parse text.

Definition services : @Panel.Services Sample.Rational :=
  {| Panel.JSON_parse := parse;
     Panel.visionAnalyzeImage := fun _ => Returned Sample.emptyResult;
     Panel.findSimilarComponents := fun _ => Thrown (Error "403 Forbidden");
     Panel.randomSuffix := fun n => "r" ++ nat_toString n |}.

(** The message the controller forwards to the panel. *)
Definition externalMessage : @jsval Sample.Rational :=
  VObj [("pluginMessage",
         VObj [("type", VStr "EXTERNAL_DATA_RECEIVED"); ("data", fullPayload)])].

(** A host that has the Inter family and nothing else. *)
Definition interOnly : @Collaborators Sample.Rational :=
  {| fontAvailable := fun f => family f =? "Inter";
     createSystemComponent := @createSystemComponent _ Sample.sturdy;
     createComponentSet := @createComponentSet _ Sample.sturdy |}.

Definition quote : @TypographyData.t Sample.Rational :=
  Sample.textEntry "Quote" (Some {| family := "Roboto"; style := "Italic" |}) (Some 14%Q).

(** The sample analysis with the variants for components. *)
Definition withVariants : @ImageAnalysisResult Sample.Rational :=
  {| components := Sample.variants; colors := Sample.palette;
     typography := Sample.texts |}.

(** Colours and typography, no components. *)
Definition paletteAndTexts : @ImageAnalysisResult Sample.Rational :=
  {| components := []; colors := Sample.palette; typography := Sample.texts |}.

End Cases.

(** * Proofs *)

Unset Implicit Arguments.
Open Scope list_scope.

(** ** Running a computation step by step *)

Section MonadSteps.
Context {S A B : Type}.

Lemma bind_returned (m : M S A) (k : A -> M S B) s b s' :
  bind m k s = (Returned b, s') ->
  exists a s1, m s = (Returned a, s1) /\ k a s1 = (Returned b, s').
Proof.
  unfold bind. destruct (m s) as [[a|e] s1]; [eauto | discriminate].
Qed.

Lemma bind_step (m : M S A) (k : A -> M S B) s a s1 :
  m s = (Returned a, s1) -> bind m k s = k a s1.
Proof. unfold bind. intros ->. reflexivity. Qed.

Lemma bind_thrown (m : M S A) (k : A -> M S B) s e s1 :
  m s = (Thrown e, s1) -> bind m k s = (Thrown e, s1).
Proof. unfold bind. intros ->. reflexivity. Qed.
End MonadSteps.

(** ** The controller *)

Section ControllerProofs.
Context {NUM : JsNumber} {ENV : Collaborators}.

(** *** Titles, fonts and styles *)

Lemma loadFontAsync_returned fontName w u w' :
  loadFontAsync fontName w = (Returned u, w') -> fontAvailable fontName = true /\ w' = w.
Proof.
  unfold loadFontAsync. destruct (fontAvailable fontName); cbn; intros H; inversion H; auto.
Qed.

Lemma loadFontAsync_ok fontName w :
  fontAvailable fontName = true -> loadFontAsync fontName w = (Returned tt, w).
Proof. unfold loadFontAsync. intros ->. reflexivity. Qed.

Lemma sectionTitle_returned characters w title w' :
  sectionTitle characters w = (Returned title, w') ->
  isBoldTitle title /\ w' = w /\ fontAvailable InterBold = true.
Proof.
  unfold sectionTitle. intros H.
  apply bind_returned in H as (u & w1 & Hf & H).
  apply loadFontAsync_returned in Hf as [Hf ->].
  inversion H; subst. repeat split; auto.
Qed.

Lemma sectionTitle_ok characters w :
  fontAvailable InterBold = true ->
  exists title, sectionTitle characters w = (Returned title, w) /\ isBoldTitle title.
Proof.
  intros Hf. unfold sectionTitle.
  rewrite (bind_step _ _ _ _ _ (loadFontAsync_ok _ w Hf)). eexists. split; [reflexivity|].
  split; reflexivity.
Qed.

Lemma find_app_some {T} (p : T -> bool) l l' x :
  find p l = Some x -> find p (l ++ l') = Some x.
Proof.
  induction l as [|y l IH]; cbn; [discriminate|].
  destruct (p y); auto.
Qed.

Lemma find_app_none {T} (p : T -> bool) l l' :
  find p l = None -> find p (l ++ l') = find p l'.
Proof.
  induction l as [|y l IH]; cbn; auto.
  destruct (p y); [discriminate|auto].
Qed.

Lemma wellFormed_spec f : wellFormed f = true -> WellFormed f.
Proof.
  unfold wellFormed, WellFormed. intros H. apply Forall_forall. intros s Hs.
  rewrite forallb_forall in H. apply Nat.ltb_lt. now apply H.
Qed.

Lemma map_updateStyle_fresh sid k v ss :
  Forall (fun s => styleId s < sid) ss -> map (updateStyle sid k v) ss = ss.
Proof.
  induction 1 as [|s ss Hs _ IH]; cbn; [reflexivity|].
  rewrite IH. unfold updateStyle.
  destruct (Nat.eqb_spec (styleId s) sid); [lia|reflexivity].
Qed.

Lemma map_updateStyle_last sid k v ss kind ps :
  Forall (fun s => styleId s < sid) ss ->
  map (updateStyle sid k v) (ss ++ [{| styleId := sid; styleKind := kind; styleProps := ps |}])
  = ss ++ [{| styleId := sid; styleKind := kind; styleProps := setProp k v ps |}].
Proof.
  intros H. rewrite map_app, (map_updateStyle_fresh sid k v ss H). cbn.
  unfold updateStyle. cbn. rewrite Nat.eqb_refl. reflexivity.
Qed.

Lemma paintStyleFor_spec c w :
  WellFormed (figma w) ->
  match find (style_named (colorStyleName c)) (styles (figma w)) with
  | Some st => paintStyleFor c w = (Returned (styleId st), w)
  | None =>
      paintStyleFor c w =
        (Returned (nextStyleId (figma w)),
         {| figma := with_styles (figma w)
                       (styles (figma w) ++ [newPaintStyle (nextStyleId (figma w)) c])
                       (Datatypes.S (nextStyleId (figma w)));
            trace := trace w |})
  end.
Proof.
  intros Hwf. unfold paintStyleFor.
  erewrite bind_step by reflexivity.
  destruct (find _ _) as [st|] eqn:Hfind; [reflexivity|].
  erewrite bind_step by reflexivity.
  erewrite bind_step by reflexivity.
  erewrite bind_step by reflexivity.
  unfold ret. cbn [figma trace with_styles styles nextStyleId].
  rewrite map_updateStyle_last by exact Hwf.
  rewrite map_updateStyle_last by exact Hwf. reflexivity.
Qed.

Lemma extends_refl f : extends f f.
Proof. exists []. now rewrite app_nil_r. Qed.

Lemma extends_trans f g h : extends f g -> extends g h -> extends f h.
Proof. intros [a Ha] [b Hb]. exists (a ++ b). now rewrite Hb, Ha, app_assoc. Qed.

Lemma extends_find f f' nm st :
  extends f f' -> find (style_named nm) (styles f) = Some st ->
  find (style_named nm) (styles f') = Some st.
Proof. intros [a ->] H. now apply find_app_some. Qed.

Lemma find_none_count {T} (p : T -> bool) l :
  find p l = None <-> List.length (filter p l) = 0.
Proof.
  induction l as [|x l IH]; cbn; [tauto|].
  destruct (p x); cbn; [split; discriminate|exact IH].
Qed.

Lemma style_named_new sid c nm :
  style_named nm (newPaintStyle sid c) = (colorStyleName c =? nm)%string.
Proof. reflexivity. Qed.

Lemma colorSwatch_spec c w wrapper w' :
  WellFormed (figma w) ->
  colorSwatch c w = (Returned wrapper, w') ->
  WellFormed (figma w') /\ extends (figma w) (figma w') /\ trace w' = trace w /\
  swatchLinkedTo (figma w') c wrapper /\
  (forall nm, stylesNamed nm (figma w') =
     stylesNamed nm (figma w) +
     (if Nat.eqb (stylesNamed nm (figma w)) 0 && (colorStyleName c =? nm)%string
      then 1 else 0)) /\
  (stylesNamed (colorStyleName c) (figma w) = 0 ->
   exists sid, find (style_named (colorStyleName c)) (styles (figma w'))
               = Some (newPaintStyle sid c)).
Proof.
  intros Hwf H. unfold colorSwatch in H.
  apply bind_returned in H as (sid & w1 & Hsid & H).
  apply bind_returned in H as (u & w2 & Hfont & H).
  apply loadFontAsync_returned in Hfont as [_ ->].
  inversion H; subst wrapper w'; clear H.
  pose proof (paintStyleFor_spec c w Hwf) as Hspec.
  destruct (find _ _) as [st|] eqn:Hfind.
  - rewrite Hspec in Hsid. inversion Hsid; subst sid w1; clear Hsid.
    split; [exact Hwf|]. split; [apply extends_refl|]. split; [reflexivity|].
    split; [|split].
    + eexists _, _, st. do 3 (split; [reflexivity|]). split; [exact Hfind|reflexivity].
    + intros nm. destruct (String.eqb_spec (colorStyleName c) nm) as [<-|Hne].
      * assert (stylesNamed (colorStyleName c) (figma w) <> 0).
        { unfold stylesNamed. rewrite <- find_none_count. congruence. }
        destruct (Nat.eqb_spec (stylesNamed (colorStyleName c) (figma w)) 0); cbn; lia.
      * rewrite andb_false_r. lia.
    + intros H0. unfold stylesNamed in H0. apply find_none_count in H0. congruence.
  - rewrite Hspec in Hsid. inversion Hsid; subst sid w1; clear Hsid.
    cbn [figma trace with_styles styles nextStyleId].
    assert (Hnew : find (style_named (colorStyleName c))
                     (styles (figma w) ++ [newPaintStyle (nextStyleId (figma w)) c])
                   = Some (newPaintStyle (nextStyleId (figma w)) c)).
    { rewrite find_app_none by exact Hfind. cbn [find].
      rewrite style_named_new, String.eqb_refl. reflexivity. }
    split; [|split; [|split; [|split; [|split]]]].
    + unfold WellFormed in *. cbn [styles nextStyleId with_styles].
      apply Forall_app. split.
      * eapply Forall_impl; [|exact Hwf]. cbn. intros; lia.
      * constructor; [cbn; lia|constructor].
    + eexists. reflexivity.
    + reflexivity.
    + eexists _, _, _. do 3 (split; [reflexivity|]). split; [exact Hnew|reflexivity].
    + intros nm. unfold stylesNamed. cbn [styles with_styles].
      rewrite filter_app, length_app. cbn [filter]. rewrite style_named_new.
      apply find_none_count in Hfind.
      destruct (String.eqb_spec (colorStyleName c) nm) as [<-|Hne].
      * rewrite Hfind. cbn. lia.
      * rewrite andb_false_r. cbn. lia.
    + intros _. eexists. exact Hnew.
Qed.

Lemma count_step a (b1 b2 : bool) :
  a + (if Nat.eqb a 0 && b1 then 1 else 0)
  + (if Nat.eqb (a + (if Nat.eqb a 0 && b1 then 1 else 0)) 0 && b2 then 1 else 0)
  = a + (if Nat.eqb a 0 && (b1 || b2) then 1 else 0).
Proof. destruct a, b1, b2; cbn; lia. Qed.

Lemma swatchLinkedTo_extends f f' c wrapper :
  extends f f' -> swatchLinkedTo f c wrapper -> swatchLinkedTo f' c wrapper.
Proof.
  intros Hext (rect & label & st & H1 & H2 & H3 & H4 & H5).
  exists rect, label, st. repeat split; auto. eapply extends_find; eauto.
Qed.

Lemma colorLoop_spec colors : forall row w row' w',
  WellFormed (figma w) ->
  colorLoop colors row w = (Returned row', w') ->
  WellFormed (figma w') /\ extends (figma w) (figma w') /\ trace w' = trace w /\
  (exists wrappers,
     row' = mkNode (nodeType row) (props row) (children row ++ wrappers) /\
     Forall2 (swatchLinkedTo (figma w')) colors wrappers) /\
  (forall nm, stylesNamed nm (figma w') =
     stylesNamed nm (figma w) +
     (if Nat.eqb (stylesNamed nm (figma w)) 0
         && existsb (fun c => (colorStyleName c =? nm)%string) colors
      then 1 else 0)) /\
  (forall nm c0, stylesNamed nm (figma w) = 0 -> firstOfName nm colors = Some c0 ->
     exists sid, find (style_named nm) (styles (figma w')) = Some (newPaintStyle sid c0)).
Proof.
  induction colors as [|c cs IH]; intros row w row' w' Hwf H.
  - inversion H; subst. split; [exact Hwf|]. split; [apply extends_refl|].
    split; [reflexivity|]. split; [|split].
    + exists []. rewrite app_nil_r. destruct row'; split; [reflexivity|constructor].
    + intros nm. cbn. rewrite andb_false_r. lia.
    + intros nm c0 _ Hc. discriminate.
  - cbn [colorLoop] in H. apply bind_returned in H as (wr & w1 & Hsw & H).
    destruct (colorSwatch_spec c w wr w1 Hwf Hsw) as (Hwf1 & Hext1 & Htr1 & Hlink & Hcnt1 & Hfirst1).
    destruct (IH _ _ _ _ Hwf1 H) as (Hwf' & Hext' & Htr' & (wrs & -> & Hall) & Hcnt' & Hfirst').
    split; [exact Hwf'|]. split; [eapply extends_trans; eauto|].
    split; [congruence|]. split; [|split].
    + exists (wr :: wrs). split.
      * cbn. rewrite <- app_assoc. reflexivity.
      * constructor; [eapply swatchLinkedTo_extends; eauto|exact Hall].
    + intros nm. rewrite Hcnt', Hcnt1. cbn [existsb]. apply count_step.
    + intros nm c0 H0 Hc. unfold firstOfName in Hc. cbn [find] in Hc.
      fold (colorStyleName c) in Hc.
      destruct (String.eqb_spec (colorStyleName c) nm) as [<-|Hne].
      * inversion Hc; subst c0. destruct (Hfirst1 H0) as [sid Hsid].
        exists sid. eapply extends_find; eauto.
      * apply Hfirst'; [|exact Hc]. rewrite Hcnt1, H0.
        destruct (String.eqb_spec (colorStyleName c) nm); [congruence|].
        rewrite andb_false_r. reflexivity.
Qed.

(** *** Grouping *)

Lemma list_ascii_of_string_app a b :
  list_ascii_of_string (a ++ b)%string = list_ascii_of_string a ++ list_ascii_of_string b.
Proof. induction a as [|c a IH]; cbn; [reflexivity|now rewrite IH]. Qed.

(** Every grouping key holds a ['-'], so none is enumerated as an index
    and the groups are visited in the order they were created. *)
Lemma groupKey_not_index t : isIndexLike (groupKey t) = false.
Proof.
  unfold isIndexLike, groupKey. rewrite list_ascii_of_string_app.
  rewrite forallb_app. cbn. now rewrite andb_false_r.
Qed.

Lemma firstOccurrences_In k ks : In k (firstOccurrences ks) <-> In k ks.
Proof.
  induction ks as [|a ks IH]; cbn; [tauto|].
  rewrite filter_In, IH. destruct (String.eqb_spec k a); cbn; intuition congruence.
Qed.

Lemma firstOccurrences_NoDup ks : NoDup (firstOccurrences ks).
Proof.
  induction ks as [|a ks IH]; cbn; constructor.
  - rewrite filter_In, String.eqb_refl. cbn. intuition discriminate.
  - now apply NoDup_filter.
Qed.

Lemma firstOccurrences_snoc ks k :
  firstOccurrences (ks ++ [k]) =
  firstOccurrences ks ++ (if existsb (String.eqb k) ks then [] else [k]).
Proof.
  induction ks as [|a ks IH]; cbn; [reflexivity|].
  rewrite IH, filter_app. f_equal. f_equal.
  destruct (String.eqb_spec k a) as [->|Hne]; cbn.
  - destruct (existsb _ ks); cbn; [reflexivity|]. now rewrite String.eqb_refl.
  - destruct (existsb _ ks); cbn; [reflexivity|].
    destruct (String.eqb_spec k a); [congruence|reflexivity].
Qed.

Section Obj.
Context {V : Type}.
Implicit Types (o : list (string * V)).

Lemma obj_get_absent k o : ~ In k (map fst o) -> obj_get k o = None.
Proof.
  induction o as [|[k' v] o IH]; cbn; [reflexivity|]. intros H.
  destruct (String.eqb_spec k' k); [tauto|]. apply IH. tauto.
Qed.

Lemma obj_set_absent k v o : ~ In k (map fst o) -> obj_set k v o = o ++ [(k, v)].
Proof.
  induction o as [|[k' v'] o IH]; cbn; [reflexivity|]. intros H.
  destruct (String.eqb_spec k' k); [tauto|]. rewrite IH by tauto. reflexivity.
Qed.

Lemma obj_get_last k v o : ~ In k (map fst o) -> obj_get k (o ++ [(k, v)]) = Some v.
Proof.
  induction o as [|[k' v'] o IH]; cbn; intros H.
  - now rewrite String.eqb_refl.
  - destruct (String.eqb_spec k' k); [tauto|]. apply IH. tauto.
Qed.

Lemma obj_set_last k v v' o :
  ~ In k (map fst o) -> obj_set k v' (o ++ [(k, v)]) = o ++ [(k, v')].
Proof.
  induction o as [|[k' v0] o IH]; cbn; intros H.
  - now rewrite String.eqb_refl.
  - destruct (String.eqb_spec k' k); [tauto|]. rewrite IH by tauto. reflexivity.
Qed.

Lemma obj_get_tabulated (F : string -> V) k ks :
  In k ks -> obj_get k (map (fun k' => (k', F k')) ks) = Some (F k).
Proof.
  induction ks as [|a ks IH]; cbn; [tauto|]. intros H.
  destruct (String.eqb_spec a k) as [->|Hne]; [reflexivity|].
  apply IH. destruct H; congruence.
Qed.

Lemma obj_set_tabulated (F : string -> V) k v ks :
  NoDup ks -> In k ks ->
  obj_set k v (map (fun k' => (k', F k')) ks)
  = map (fun k' => (k', if (k' =? k)%string then v else F k')) ks.
Proof.
  induction 1 as [|a ks Ha Hnd IH]; cbn; [tauto|]. intros H.
  destruct (String.eqb_spec a k) as [->|Hne].
  - f_equal. apply map_ext_in. intros k' Hk'.
    destruct (String.eqb_spec k' k); [congruence|reflexivity].
  - f_equal. apply IH. destruct H; congruence.
Qed.
End Obj.

Lemma bucketOf_snoc k l t :
  bucketOf k (l ++ [t]) = bucketOf k l ++ (if (groupKey t =? k)%string then [t] else []).
Proof. unfold bucketOf. rewrite filter_app. reflexivity. Qed.

Lemma bucketOf_empty k l : ~ In k (map groupKey l) -> bucketOf k l = [].
Proof.
  induction l as [|t l IH]; cbn; [reflexivity|]. intros H.
  destruct (String.eqb_spec (groupKey t) k); [tauto|]. apply IH. tauto.
Qed.

Lemma existsb_eqb_In k ks : existsb (String.eqb k) ks = true <-> In k ks.
Proof.
  rewrite existsb_exists. split.
  - intros (x & Hx & Heq). apply String.eqb_eq in Heq. now subst.
  - intros H. exists k. split; [exact H|apply String.eqb_refl].
Qed.

Lemma addToGroup_grouped l t :
  addToGroup (groupedByKey l) t = groupedByKey (l ++ [t]).
Proof.
  unfold addToGroup, groupedByKey. rewrite map_app. cbn [map].
  rewrite firstOccurrences_snoc. set (k := groupKey t).
  destruct (existsb (String.eqb k) (map groupKey l)) eqn:Hex.
  - apply existsb_eqb_In in Hex.
    assert (Hin : In k (firstOccurrences (map groupKey l))) by now apply firstOccurrences_In.
    rewrite (obj_get_tabulated (fun k' => bucketOf k' l) k _ Hin).
    rewrite (obj_get_tabulated (fun k' => bucketOf k' l) k _ Hin).
    rewrite obj_set_tabulated by (auto using firstOccurrences_NoDup).
    rewrite app_nil_r. apply map_ext. intros k'. rewrite bucketOf_snoc. fold k.
    destruct (String.eqb_spec k' k) as [->|Hne].
    + now rewrite String.eqb_refl.
    + destruct (String.eqb_spec k k'); [congruence|]. now rewrite app_nil_r.
  - assert (Hnot : ~ In k (map groupKey l)).
    { intros H. apply existsb_eqb_In in H. congruence. }
    assert (Hnot' : ~ In k (map fst (map (fun k' => (k', bucketOf k' l))
                                      (firstOccurrences (map groupKey l))))).
    { rewrite map_map. cbn. rewrite map_id. now rewrite firstOccurrences_In. }
    rewrite (obj_get_absent _ _ Hnot').
    rewrite (obj_set_absent _ _ _ Hnot').
    rewrite (obj_get_last _ _ _ Hnot').
    rewrite (obj_set_last _ _ _ _ Hnot').
    rewrite map_app. cbn [map]. f_equal.
    + apply map_ext_in. intros k' Hk'. rewrite bucketOf_snoc. fold k.
      destruct (String.eqb_spec k k') as [<-|Hne]; [|now rewrite app_nil_r].
      apply (proj1 (firstOccurrences_In _ _)) in Hk'. contradiction.
    + rewrite bucketOf_snoc. fold k. rewrite String.eqb_refl.
      now rewrite (bucketOf_empty _ _ Hnot).
Qed.

Lemma groupTypography_grouped typography :
  groupTypography typography = groupedByKey typography.
Proof.
  unfold groupTypography.
  induction typography as [|t l IH] using rev_ind; [reflexivity|].
  rewrite fold_left_app. cbn [fold_left]. rewrite IH. apply addToGroup_grouped.
Qed.

Lemma textStyleFor_returned sample w sid w' :
  WellFormed (figma w) ->
  textStyleFor sample w = (Returned sid, w') ->
  match find (style_named (textStyleName sample)) (styles (figma w)) with
  | Some st => sid = styleId st /\ w' = w
  | None =>
      sid = nextStyleId (figma w) /\
      w' = {| figma := with_styles (figma w)
                         (styles (figma w) ++ [newTextStyle (nextStyleId (figma w)) sample])
                         (S (nextStyleId (figma w)));
              trace := trace w |}
  end.
Proof.
  intros Hwf H. unfold textStyleFor in H.
  erewrite bind_step in H by reflexivity.
  destruct (find _ _) as [st|] eqn:Hfind.
  - inversion H; auto.
  - erewrite bind_step in H by reflexivity.
    erewrite bind_step in H by reflexivity.
    apply bind_returned in H as (u & w1 & Hfont & H).
    apply loadFontAsync_returned in Hfont as [_ ->].
    erewrite bind_step in H by reflexivity.
    erewrite bind_step in H by reflexivity.
    inversion H; subst sid w'; clear H. split; [reflexivity|].
    cbn [figma trace with_styles styles nextStyleId].
    rewrite map_updateStyle_last by exact Hwf.
    rewrite map_updateStyle_last by exact Hwf.
    rewrite map_updateStyle_last by exact Hwf. reflexivity.
Qed.

Lemma textSample_spec sample w node w' :
  WellFormed (figma w) ->
  textSample sample w = (Returned node, w') ->
  WellFormed (figma w') /\ extends (figma w) (figma w') /\ trace w' = trace w /\
  sampleBoundTo (figma w') sample node /\
  (forall nm, stylesNamed nm (figma w') =
     stylesNamed nm (figma w) +
     (if Nat.eqb (stylesNamed nm (figma w)) 0 && (textStyleName sample =? nm)%string
      then 1 else 0)).
Proof.
  intros Hwf H. unfold textSample in H.
  apply bind_returned in H as (sid & w1 & Hsid & H).
  apply bind_returned in H as (u & w2 & Hfont & H).
  apply loadFontAsync_returned in Hfont as [_ ->].
  inversion H; subst node w'; clear H.
  pose proof (textStyleFor_returned _ _ _ _ Hwf Hsid) as Hspec.
  destruct (find _ _) as [st|] eqn:Hfind; destruct Hspec as [-> ->].
  - split; [exact Hwf|]. split; [apply extends_refl|]. split; [reflexivity|].
    split.
    + split; [reflexivity|]. split; [reflexivity|]. exists st. split; [exact Hfind|reflexivity].
    + intros nm. destruct (String.eqb_spec (textStyleName sample) nm) as [<-|Hne].
      * assert (stylesNamed (textStyleName sample) (figma w) <> 0).
        { unfold stylesNamed. rewrite <- find_none_count. congruence. }
        destruct (Nat.eqb_spec (stylesNamed (textStyleName sample) (figma w)) 0); cbn; lia.
      * rewrite andb_false_r. lia.
  - cbn [figma trace with_styles styles nextStyleId].
    assert (Hnew : find (style_named (textStyleName sample))
                     (styles (figma w) ++ [newTextStyle (nextStyleId (figma w)) sample])
                   = Some (newTextStyle (nextStyleId (figma w)) sample)).
    { rewrite find_app_none by exact Hfind. cbn [find].
      unfold style_named at 1. cbn [newTextStyle styleProps getProp].
      cbn. rewrite String.eqb_refl. reflexivity. }
    split; [|split; [|split; [|split]]].
    + unfold WellFormed in *. cbn [styles nextStyleId with_styles].
      apply Forall_app. split.
      * eapply Forall_impl; [|exact Hwf]. cbn. intros; lia.
      * constructor; [cbn; lia|constructor].
    + eexists. reflexivity.
    + reflexivity.
    + split; [reflexivity|]. split; [reflexivity|].
      eexists. split; [exact Hnew|reflexivity].
    + intros nm. unfold stylesNamed. cbn [styles with_styles].
      rewrite filter_app, length_app. cbn [filter].
      assert (Hn : style_named nm (newTextStyle (nextStyleId (figma w)) sample)
                   = (textStyleName sample =? nm)%string) by reflexivity.
      rewrite Hn. clear Hn. apply find_none_count in Hfind.
      destruct (String.eqb_spec (textStyleName sample) nm) as [<-|Hne].
      * rewrite Hfind. cbn. lia.
      * rewrite andb_false_r. cbn. lia.
Qed.

Lemma sampleBoundTo_extends f f' sample node :
  extends f f' -> sampleBoundTo f sample node -> sampleBoundTo f' sample node.
Proof.
  intros Hext (H1 & H2 & st & H3 & H4). split; [exact H1|]. split; [exact H2|].
  exists st. split; [eapply extends_find; eauto|exact H4].
Qed.

Lemma groupLoop_spec textGroups : forall sec w sec' w',
  WellFormed (figma w) ->
  groupLoop textGroups sec w = (Returned sec', w') ->
  WellFormed (figma w') /\ extends (figma w) (figma w') /\ trace w' = trace w /\
  (exists nodes,
     sec' = mkNode (nodeType sec) (props sec) (children sec ++ nodes) /\
     Forall2 (sampleBoundTo (figma w')) (samplesOf textGroups) nodes) /\
  (forall nm, stylesNamed nm (figma w') =
     stylesNamed nm (figma w) +
     (if Nat.eqb (stylesNamed nm (figma w)) 0
         && existsb (fun s => (textStyleName s =? nm)%string) (samplesOf textGroups)
      then 1 else 0)).
Proof.
  induction textGroups as [|[k bucket] gs IH]; intros sec w sec' w' Hwf H.
  - inversion H; subst. split; [exact Hwf|]. split; [apply extends_refl|].
    split; [reflexivity|]. split.
    + exists []. rewrite app_nil_r. destruct sec'; split; [reflexivity|constructor].
    + intros nm. cbn. rewrite andb_false_r. lia.
  - cbn [groupLoop] in H. destruct bucket as [|sample rest].
    + exact (IH _ _ _ _ Hwf H).
    + apply bind_returned in H as (node & w1 & Hs & H).
      destruct (textSample_spec _ _ _ _ Hwf Hs) as (Hwf1 & Hext1 & Htr1 & Hlink & Hcnt1).
      destruct (IH _ _ _ _ Hwf1 H) as (Hwf' & Hext' & Htr' & (nodes & -> & Hall) & Hcnt').
      split; [exact Hwf'|]. split; [eapply extends_trans; eauto|].
      split; [congruence|]. split.
      * exists (node :: nodes). split.
        -- cbn. rewrite <- app_assoc. reflexivity.
        -- cbn. constructor; [eapply sampleBoundTo_extends; eauto|exact Hall].
      * intros nm. rewrite Hcnt', Hcnt1. cbn [samplesOf flat_map snd app existsb].
        apply count_step.
Qed.

Lemma groupedByKey_nonempty typography :
  Forall (fun g => snd g <> []) (groupedByKey typography).
Proof.
  unfold groupedByKey. apply Forall_map, Forall_forall. intros k Hk. cbn.
  apply (proj1 (firstOccurrences_In _ _)) in Hk. apply in_map_iff in Hk as (t & <- & Ht).
  unfold bucketOf. intros Hnil.
  assert (Hin : In t (filter (fun t' => (groupKey t' =? groupKey t)%string) typography)).
  { apply filter_In. split; [exact Ht|apply String.eqb_refl]. }
  rewrite Hnil in Hin. exact Hin.
Qed.

Lemma samplesOf_Forall2 (R : TypographyData.t -> SceneNode -> Prop) textGroups :
  Forall (fun g => snd g <> []) textGroups ->
  forall nodes, Forall2 R (samplesOf textGroups) nodes ->
  Forall2 (fun g node => exists first rest, snd g = first :: rest /\ R first node)
    textGroups nodes.
Proof.
  induction 1 as [|[k bucket] gs Hne _ IH]; cbn; intros nodes HR.
  - inversion HR. constructor.
  - destruct bucket as [|first rest]; [now elim Hne|].
    cbn in HR. inversion HR; subst. constructor; [cbn; eauto|auto].
Qed.

Lemma groupKey_same_pair (a b : TypographyData.t) :
  TypographyData.fontSize a = TypographyData.fontSize b ->
  option_map family (TypographyData.fontName a)
    = option_map family (TypographyData.fontName b) ->
  groupKey a = groupKey b.
Proof.
  unfold groupKey. intros -> Hf. f_equal. f_equal.
  destruct (TypographyData.fontName a), (TypographyData.fontName b);
    cbn in Hf; congruence.
Qed.

Lemma groupKey_parts (t : TypographyData.t) :
  groupKey t = (sizePart t ++ "-" ++ familyPart t)%string.
Proof. reflexivity. Qed.

Lemma dashFree_split (s1 s2 f1 f2 : string) :
  dashFree s1 = true -> dashFree s2 = true ->
  (s1 ++ "-" ++ f1)%string = (s2 ++ "-" ++ f2)%string -> s1 = s2 /\ f1 = f2.
Proof.
  revert s2. induction s1 as [|c s1 IH]; intros [|d s2] H1 H2 Heq; cbn in *.
  - inversion Heq. auto.
  - inversion Heq; subst d. rewrite Ascii.eqb_refl in H2. discriminate.
  - inversion Heq; subst c. rewrite Ascii.eqb_refl in H1. discriminate.
  - inversion Heq; subst d.
    apply andb_true_iff in H1 as [_ H1]. apply andb_true_iff in H2 as [_ H2].
    destruct (IH s2 H1 H2 H3) as [-> ->]. auto.
Qed.

Lemma groupKey_pair (a b : TypographyData.t) :
  dashFree (sizePart a) = true -> dashFree (sizePart b) = true ->
  (groupKey a = groupKey b <-> sizePart a = sizePart b /\ familyPart a = familyPart b).
Proof.
  intros Ha Hb. rewrite !groupKey_parts. split.
  - now apply dashFree_split.
  - intros [-> ->]. reflexivity.
Qed.

Lemma samePair_key (a b : TypographyData.t) :
  dashFree (sizePart a) = true -> dashFree (sizePart b) = true ->
  (groupKey a =? groupKey b)%string = samePair a b.
Proof.
  intros Ha Hb. unfold samePair.
  destruct (String.eqb_spec (groupKey a) (groupKey b)) as [Heq|Hne].
  - apply (groupKey_pair a b Ha Hb) in Heq as [-> ->]. now rewrite !String.eqb_refl.
  - destruct (String.eqb_spec (sizePart a) (sizePart b)) as [Hs|]; [|reflexivity].
    destruct (String.eqb_spec (familyPart a) (familyPart b)) as [Hf|]; [|reflexivity].
    elim Hne. now apply (groupKey_pair a b Ha Hb).
Qed.

Lemma representatives_In t l : In t (representatives l) -> In t l.
Proof.
  revert t. induction l as [|x l IH]; cbn; [tauto|]. intros t [->|Hin]; [auto|].
  apply filter_In in Hin as [Hin _]. auto.
Qed.

Lemma filter_map_swap {A B} (f : A -> B) (p : B -> bool) l :
  filter p (map f l) = map f (filter (fun x => p (f x)) l).
Proof.
  induction l as [|x l IH]; cbn; [reflexivity|].
  destruct (p (f x)); cbn; now rewrite IH.
Qed.

Lemma firstOccurrences_representatives (l : list TypographyData.t) :
  Forall (fun t => dashFree (sizePart t) = true) l ->
  firstOccurrences (map groupKey l) = map groupKey (representatives l).
Proof.
  induction 1 as [|t l Ht Hl IH]; cbn [map firstOccurrences representatives];
    [reflexivity|].
  rewrite IH, filter_map_swap. f_equal. f_equal.
  apply filter_ext_in. intros t' Hin. apply representatives_In in Hin.
  rewrite Forall_forall in Hl. now rewrite (samePair_key t' t (Hl t' Hin) Ht).
Qed.

Lemma groupTypography_by_pair (typography : list TypographyData.t) :
  Forall (fun t => dashFree (sizePart t) = true) typography ->
  map snd (groupTypography typography) = groupedByPair typography.
Proof.
  intros Hall. rewrite groupTypography_grouped. unfold groupedByKey, groupedByPair.
  rewrite map_map. cbn [snd].
  rewrite (firstOccurrences_representatives _ Hall), map_map.
  apply map_ext_in. intros first Hin. apply representatives_In in Hin.
  unfold bucketOf. apply filter_ext_in. intros t Ht.
  rewrite Forall_forall in Hall. apply samePair_key; auto.
Qed.

Lemma name_eqb_eq a b : name_eqb a b = true <-> a = b.
Proof.
  destruct a as [s|], b as [t|]; cbn; try (split; congruence).
  rewrite String.eqb_eq. split; congruence.
Qed.

Lemma namedAlike_iff comps : namedAlike comps = true <-> firstTwoShareName comps.
Proof.
  unfold namedAlike, firstTwoShareName. split.
  - intros H. apply andb_true_iff in H as [_ H].
    destruct comps as [|c0 [|c1 rest]]; try discriminate.
    exists c0, c1, rest. split; [reflexivity|now apply name_eqb_eq].
  - intros (c0 & c1 & rest & -> & Hn). cbn. now apply name_eqb_eq.
Qed.

Lemma fallbackComponent_isFallback i c : isFallbackFor i c (fallbackComponent i c).
Proof.
  unfold isFallbackFor, fallbackComponent.
  destruct c as [id ty nm x y wd ht fills]; cbn.
  destruct fills; cbn; repeat split; try reflexivity.
  all: destruct nm as [s|]; cbn; try reflexivity.
  all: unfold str_or; destruct (s =? "")%string; reflexivity.
Qed.

Lemma individualLoop_builds comps : forall i section w,
  exists nodes evs f',
    individualLoop comps i section w
      = (Returned (mkNode (nodeType section) (props section) (children section ++ nodes)),
         {| figma := f'; trace := trace w ++ evs |})
    /\ IndividualBuild i comps (figma w) nodes evs f'.
Proof.
  induction comps as [|c cs IH]; intros i section w.
  - exists [], [], (figma w). cbn. rewrite !app_nil_r.
    destruct section, w; split; [reflexivity|constructor].
  - cbn [individualLoop]. unfold bind at 1. unfold tryCatch, bind at 1, callBuilder.
    destruct (createSystemComponent c (figma w)) as [[n|e] f1] eqn:Hb; cbn.
    + destruct (IH (S i) (appendChild section n)
                  {| figma := f1; trace := trace w ++ [CallCreateSystemComponent c] |})
        as (ns & evs & f2 & Hrun & Hbuild).
      exists (n :: ns), (CallCreateSystemComponent c :: evs), f2. split.
      * rewrite Hrun. cbn. rewrite <- !app_assoc. reflexivity.
      * eapply build_ok; eauto.
    + destruct (IH (S i) (appendChild section (fallbackComponent i c))
                  {| figma := f1;
                     trace := (trace w ++ [CallCreateSystemComponent c])
                              ++ [ConsoleError "Error creating component:" e] |})
        as (ns & evs & f2 & Hrun & Hbuild).
      exists (fallbackComponent i c :: ns),
             (CallCreateSystemComponent c :: ConsoleError "Error creating component:" e :: evs),
             f2.
      split.
      * unfold consoleError, emitEvent, modify, bind, ret. cbn. cbn in Hrun.
        rewrite Hrun. cbn. rewrite <- !app_assoc. reflexivity.
      * eapply build_fallback; eauto using fallbackComponent_isFallback.
Qed.

Lemma IndividualBuild_length i comps f nodes evs f' :
  IndividualBuild i comps f nodes evs f' -> List.length nodes = List.length comps.
Proof. induction 1; cbn; congruence. Qed.

Lemma IndividualBuild_calls i comps f nodes evs f' :
  IndividualBuild i comps f nodes evs f' ->
  builderCalls evs = map CallCreateSystemComponent comps.
Proof. induction 1; unfold builderCalls in *; cbn; congruence. Qed.

Lemma IndividualBuild_no_set i comps f nodes evs f' :
  IndividualBuild i comps f nodes evs f' ->
  forall cs, ~ In (CallCreateComponentSet cs) evs.
Proof.
  induction 1; cbn; intros cs' Hin.
  - exact Hin.
  - destruct Hin as [Hin|Hin]; [discriminate|]. eapply IHIndividualBuild; eauto.
  - destruct Hin as [Hin|[Hin|Hin]]; try discriminate. eapply IHIndividualBuild; eauto.
Qed.

Lemma buildComponentsSection_eq comps w :
  fontAvailable InterBold = true ->
  exists title,
    isBoldTitle title /\
    buildComponentsSection comps w =
      if namedAlike comps then
        match createComponentSet comps (figma w) with
        | (Returned componentSet, f1) =>
            (Returned (appendChild (componentsFrame title) componentSet),
             {| figma := f1; trace := trace w ++ [CallCreateComponentSet comps] |})
        | (Thrown e, f1) =>
            individualLoop comps 0 (componentsFrame title)
              {| figma := f1;
                 trace := trace w ++ [CallCreateComponentSet comps;
                                      ConsoleError "Error creating component variants:" e] |}
        end
      else individualLoop comps 0 (componentsFrame title) w.
Proof.
  intros Hf. destruct (sectionTitle_ok "UI Components" w Hf) as (title & Ht & Hbold).
  exists title. split; [exact Hbold|].
  unfold buildComponentsSection. rewrite (bind_step _ _ _ _ _ Ht).
  fold (componentsFrame title).
  destruct (namedAlike comps).
  - unfold bind at 1. unfold tryCatch, bind at 1, callBuilder.
    destruct (createComponentSet comps (figma w)) as [[cset|e] f1]; cbn.
    + reflexivity.
    + unfold consoleError, emitEvent, modify, bind, ret. cbn.
      rewrite <- app_assoc. reflexivity.
  - unfold bind at 1. cbn. reflexivity.
Qed.

Lemma buildColorSection_shape colors w section w' :
  buildColorSection colors w = (Returned section, w') -> isSection "Color Palette" section.
Proof.
  unfold buildColorSection. intros H.
  apply bind_returned in H as (title & w1 & Ht & H).
  apply sectionTitle_returned in Ht as (Hbold & -> & _).
  apply bind_returned in H as (row & w2 & _ & H).
  inversion H; subst. split; [reflexivity|]. split; [reflexivity|].
  exists title; eexists. split; [reflexivity|exact Hbold].
Qed.

Lemma groupLoop_appends textGroups : forall sec w sec' w',
  groupLoop textGroups sec w = (Returned sec', w') ->
  exists nodes, sec' = mkNode (nodeType sec) (props sec) (children sec ++ nodes).
Proof.
  induction textGroups as [|[k bucket] gs IH]; intros sec w sec' w' H.
  - inversion H; subst. exists []. rewrite app_nil_r. now destruct sec'.
  - cbn [groupLoop] in H. destruct bucket as [|sample rest]; [eauto|].
    apply bind_returned in H as (node & w1 & _ & H).
    apply IH in H as (nodes & ->). exists (node :: nodes).
    cbn. now rewrite <- app_assoc.
Qed.

Lemma buildTypographySection_shape typography w section w' :
  buildTypographySection typography w = (Returned section, w') ->
  isSection "Typography" section.
Proof.
  unfold buildTypographySection. intros H.
  apply bind_returned in H as (title & w1 & Ht & H).
  apply sectionTitle_returned in Ht as (Hbold & -> & _).
  apply groupLoop_appends in H as (nodes & ->).
  split; [reflexivity|]. split; [reflexivity|].
  exists title, nodes. split; [reflexivity|exact Hbold].
Qed.

Lemma buildComponentsSection_shape comps w section w' :
  buildComponentsSection comps w = (Returned section, w') ->
  isSection "Components" section.
Proof.
  intros H.
  assert (Hf : fontAvailable InterBold = true).
  { unfold buildComponentsSection in H.
    apply bind_returned in H as (title & w1 & Ht & _).
    now apply sectionTitle_returned in Ht. }
  destruct (buildComponentsSection_eq comps w Hf) as (title & Hbold & Heq).
  rewrite Heq in H. clear Heq.
  assert (Hloop : forall w0, individualLoop comps 0 (componentsFrame title) w0
                             = (Returned section, w') -> isSection "Components" section).
  { intros w0 Hrun.
    destruct (individualLoop_builds comps 0 (componentsFrame title) w0)
      as (nodes & evs & f' & Hrun' & _).
    rewrite Hrun' in Hrun. inversion Hrun; subst.
    split; [reflexivity|]. split; [reflexivity|].
    exists title, nodes. split; [reflexivity|exact Hbold]. }
  destruct (namedAlike comps); [|eauto].
  destruct (createComponentSet comps (figma w)) as [[cset|e] f1]; [|eauto].
  inversion H; subst. split; [reflexivity|]. split; [reflexivity|].
  exists title, [cset]. split; [reflexivity|exact Hbold].
Qed.

Lemma groups_nonEmpty (typography : list TypographyData.t) :
  Nat.ltb 0 (List.length (groupTypography typography)) = nonEmpty typography.
Proof.
  rewrite groupTypography_grouped. unfold groupedByKey, nonEmpty.
  rewrite length_map. destruct typography; reflexivity.
Qed.

Lemma processImageAnalysisResults_sections imageData w frame w' :
  processImageAnalysisResults imageData w = (Returned frame, w') ->
  exists palette typo comps,
    children frame = palette ++ typo ++ comps /\
    optionalSection (Nat.ltb 0 (List.length (colors imageData))) "Color Palette" palette /\
    optionalSection (Nat.ltb 0 (List.length (groupTypography (typography imageData))))
      "Typography" typo /\
    optionalSection (Nat.ltb 0 (List.length (components imageData))) "Components" comps.
Proof.
  unfold processImageAnalysisResults. intros H. rewrite groups_nonEmpty.
  fold (nonEmpty (colors imageData)). fold (nonEmpty (components imageData)).
  apply bind_returned in H as (pf1 & w1 & H1 & H).
  apply bind_returned in H as (pf2 & w2 & H2 & H).
  apply bind_returned in H as (pf3 & w3 & H3 & H).
  apply bind_returned in H as (u & w4 & _ & H).
  inversion H; subst frame w4; clear H.
  assert (E1 : exists palette, pf1 = mkNode (nodeType newParentFrame) (props newParentFrame)
                                       (children newParentFrame ++ palette)
               /\ optionalSection (nonEmpty (colors imageData)) "Color Palette" palette).
  { destruct (nonEmpty (colors imageData)).
    - apply bind_returned in H1 as (sec & w0 & Hsec & H1). inversion H1; subst.
      exists [sec]. split; [reflexivity|]. exists sec. split; [reflexivity|].
      eapply buildColorSection_shape; eauto.
    - inversion H1; subst. exists []. split; reflexivity. }
  destruct E1 as (palette & -> & Hp).
  assert (E2 : exists typo, pf2 = mkNode (nodeType newParentFrame) (props newParentFrame)
                                    ((children newParentFrame ++ palette) ++ typo)
               /\ optionalSection (nonEmpty (typography imageData)) "Typography" typo).
  { destruct (nonEmpty (typography imageData)).
    - apply bind_returned in H2 as (sec & w0 & Hsec & H2). inversion H2; subst.
      exists [sec]. split; [reflexivity|]. exists sec. split; [reflexivity|].
      eapply buildTypographySection_shape; eauto.
    - inversion H2; subst. exists []. split; [now rewrite app_nil_r|reflexivity]. }
  destruct E2 as (typo & -> & Ht).
  assert (E3 : exists comps, pf3 = mkNode (nodeType newParentFrame) (props newParentFrame)
                                     (((children newParentFrame ++ palette) ++ typo) ++ comps)
               /\ optionalSection (nonEmpty (components imageData)) "Components" comps).
  { destruct (nonEmpty (components imageData)).
    - apply bind_returned in H3 as (sec & w0 & Hsec & H3). inversion H3; subst.
      exists [sec]. split; [reflexivity|]. exists sec. split; [reflexivity|].
      eapply buildComponentsSection_shape; eauto.
    - inversion H3; subst. exists []. split; [now rewrite app_nil_r|reflexivity]. }
  destruct E3 as (comps & -> & Hc).
  exists palette, typo, comps. split; [|auto].
  cbn. now rewrite <- app_assoc.
Qed.


Lemma runTimers_closed due : forall f,
  closed (fold_left (fun f (t : nat * TimerAction) => runTimer (snd t) f) due f)
  = closed f || negb (Nat.eqb (List.length due) 0).
Proof.
  induction due as [|[d a] due IH]; intros f; cbn.
  - now rewrite orb_false_r.
  - rewrite IH. destruct a. cbn. now rewrite orb_true_r.
Qed.

Lemma elapse_fires ms f delay :
  In (delay, ClosePluginAction) (timers f) -> delay <= ms -> closed (elapse ms f) = true.
Proof.
  intros Hin Hle. unfold elapse. rewrite runTimers_closed. cbn.
  assert (Hdue : In (delay, ClosePluginAction)
                   (filter (fun t => Nat.leb (fst t) ms) (timers f))).
  { apply filter_In. split; [exact Hin|]. cbn. now apply Nat.leb_le. }
  destruct (filter _ (timers f)); [contradiction|]. cbn. now rewrite orb_true_r.
Qed.

Lemma elapse_waits ms f delay action :
  In (delay, action) (timers f) -> ms < delay ->
  In (delay - ms, action) (timers (elapse ms f)).
Proof.
  intros Hin Hlt. unfold elapse.
  assert (Hkeep : forall due f0,
             timers (fold_left (fun f (t : nat * TimerAction) => runTimer (snd t) f) due f0) = timers f0).
  { induction due as [|[d a] due IH]; intros f0; cbn; [reflexivity|].
    rewrite IH. now destruct a. }
  rewrite Hkeep. cbn.
  apply in_map_iff. exists (delay, action). split; [reflexivity|].
  apply filter_In. split; [exact Hin|]. cbn.
  destruct (Nat.leb_spec delay ms); [lia|reflexivity].
Qed.

(** The run returns whenever the host can load the fonts it asks for. *)

Section AllFonts.
Hypothesis fonts : forall f, fontAvailable f = true.

Lemma paintStyleFor_total c w : exists sid w', paintStyleFor c w = (Returned sid, w').
Proof.
  unfold paintStyleFor. erewrite bind_step by reflexivity.
  destruct (find _ _); [eexists _, _; reflexivity|].
  repeat (erewrite bind_step by reflexivity). eexists _, _; reflexivity.
Qed.

Lemma colorSwatch_total c w : exists wrapper w', colorSwatch c w = (Returned wrapper, w').
Proof.
  unfold colorSwatch. destruct (paintStyleFor_total c w) as (sid & w1 & Hs).
  rewrite (bind_step _ _ _ _ _ Hs).
  rewrite (bind_step _ _ _ _ _ (loadFontAsync_ok _ w1 (fonts _))).
  eexists _, _; reflexivity.
Qed.

Lemma colorLoop_total colors : forall row w,
  exists row' w', colorLoop colors row w = (Returned row', w').
Proof.
  induction colors as [|c cs IH]; intros row w; cbn [colorLoop].
  - eexists _, _; reflexivity.
  - destruct (colorSwatch_total c w) as (wr & w1 & Hs).
    rewrite (bind_step _ _ _ _ _ Hs). apply IH.
Qed.

Lemma buildColorSection_total colors w :
  exists section w', buildColorSection colors w = (Returned section, w').
Proof.
  unfold buildColorSection.
  destruct (sectionTitle_ok "Color Styles" w (fonts _)) as (title & Ht & _).
  rewrite (bind_step _ _ _ _ _ Ht).
  destruct (colorLoop_total colors (autoLayoutFrame "Colors" "HORIZONTAL" 12) w)
    as (row & w1 & Hr).
  rewrite (bind_step _ _ _ _ _ Hr). eexists _, _; reflexivity.
Qed.

Lemma textStyleFor_total sample w : exists sid w', textStyleFor sample w = (Returned sid, w').
Proof.
  unfold textStyleFor. erewrite bind_step by reflexivity.
  destruct (find _ _); [eexists _, _; reflexivity|].
  erewrite bind_step by reflexivity. erewrite bind_step by reflexivity.
  erewrite bind_step by (apply loadFontAsync_ok, fonts).
  repeat (erewrite bind_step by reflexivity). eexists _, _; reflexivity.
Qed.

Lemma textSample_total sample w : exists node w', textSample sample w = (Returned node, w').
Proof.
  unfold textSample. destruct (textStyleFor_total sample w) as (sid & w1 & Hs).
  rewrite (bind_step _ _ _ _ _ Hs).
  rewrite (bind_step _ _ _ _ _ (loadFontAsync_ok _ w1 (fonts _))).
  eexists _, _; reflexivity.
Qed.

Lemma groupLoop_total textGroups : forall sec w,
  exists sec' w', groupLoop textGroups sec w = (Returned sec', w').
Proof.
  induction textGroups as [|[k bucket] gs IH]; intros sec w; cbn [groupLoop].
  - eexists _, _; reflexivity.
  - destruct bucket as [|sample rest]; [apply IH|].
    destruct (textSample_total sample w) as (node & w1 & Hs).
    rewrite (bind_step _ _ _ _ _ Hs). apply IH.
Qed.

Lemma buildTypographySection_total typography w :
  exists section w', buildTypographySection typography w = (Returned section, w').
Proof.
  unfold buildTypographySection.
  destruct (sectionTitle_ok "Text Styles" w (fonts _)) as (title & Ht & _).
  rewrite (bind_step _ _ _ _ _ Ht). apply groupLoop_total.
Qed.

Lemma buildComponentsSection_total comps w :
  exists section w', buildComponentsSection comps w = (Returned section, w').
Proof.
  destruct (buildComponentsSection_eq comps w (fonts _)) as (title & _ & ->).
  destruct (namedAlike comps).
  - destruct (createComponentSet comps (figma w)) as [[cset|e] f1].
    + eexists _, _; reflexivity.
    + destruct (individualLoop_builds comps 0 (componentsFrame title)
                  {| figma := f1;
                     trace := trace w ++ [CallCreateComponentSet comps;
                                          ConsoleError "Error creating component variants:" e] |})
        as (nodes & evs & f' & -> & _).
      eexists _, _; reflexivity.
  - destruct (individualLoop_builds comps 0 (componentsFrame title) w)
      as (nodes & evs & f' & -> & _).
    eexists _, _; reflexivity.
Qed.

Lemma processImageAnalysisResults_total imageData w :
  exists frame w', processImageAnalysisResults imageData w = (Returned frame, w').
Proof.
  unfold processImageAnalysisResults.
  assert (S1 : exists pf w1,
             (if nonEmpty (colors imageData)
              then bind (buildColorSection (colors imageData))
                     (fun colorSection => ret (appendChild newParentFrame colorSection))
              else ret newParentFrame) w = (Returned pf, w1)).
  { destruct (nonEmpty (colors imageData)); [|eexists _, _; reflexivity].
    destruct (buildColorSection_total (colors imageData) w) as (sec & w1 & Hs).
    rewrite (bind_step _ _ _ _ _ Hs). eexists _, _; reflexivity. }
  destruct S1 as (pf1 & w1 & H1). rewrite (bind_step _ _ _ _ _ H1).
  assert (S2 : exists pf w2,
             (if nonEmpty (typography imageData)
              then bind (buildTypographySection (typography imageData))
                     (fun typoSection => ret (appendChild pf1 typoSection))
              else ret pf1) w1 = (Returned pf, w2)).
  { destruct (nonEmpty (typography imageData)); [|eexists _, _; reflexivity].
    destruct (buildTypographySection_total (typography imageData) w1) as (sec & w2 & Hs).
    rewrite (bind_step _ _ _ _ _ Hs). eexists _, _; reflexivity. }
  destruct S2 as (pf2 & w2 & H2). rewrite (bind_step _ _ _ _ _ H2).
  assert (S3 : exists pf w3,
             (if nonEmpty (components imageData)
              then bind (buildComponentsSection (components imageData))
                     (fun componentsSection => ret (appendChild pf2 componentsSection))
              else ret pf2) w2 = (Returned pf, w3)).
  { destruct (nonEmpty (components imageData)); [|eexists _, _; reflexivity].
    destruct (buildComponentsSection_total (components imageData) w2) as (sec & w3 & Hs).
    rewrite (bind_step _ _ _ _ _ Hs). eexists _, _; reflexivity. }
  destruct S3 as (pf3 & w3 & H3). rewrite (bind_step _ _ _ _ _ H3).
  erewrite bind_step by reflexivity. eexists _, _; reflexivity.
Qed.

End AllFonts.

(** *** The claims about the controller *)

(** C1. The sections follow the inputs.  Whenever the run returns the
    parent frame, the frame's children are, in this order, the
    [Color Palette] section exactly when there is at least one colour, the
    [Typography] section exactly when there is at least one typography
    group, and the [Components] section exactly when there is at least one
    component; every section present is a frame whose first child is a
    text node in Inter Bold.  With every font loadable the run does return
    the frame. *)
Theorem sections_follow_the_inputs imageData w :
  (forall frame w',
     processImageAnalysisResults imageData w = (Returned frame, w') ->
     exists palette typo comps,
       children frame = palette ++ typo ++ comps /\
       optionalSection (Nat.ltb 0 (List.length (colors imageData))) "Color Palette" palette /\
       optionalSection (Nat.ltb 0 (List.length (groupTypography (typography imageData))))
         "Typography" typo /\
       optionalSection (Nat.ltb 0 (List.length (components imageData))) "Components" comps)
  /\
  ((forall f, fontAvailable f = true) ->
   exists frame w', processImageAnalysisResults imageData w = (Returned frame, w')).
Proof.
  split.
  - intros frame w'. apply processImageAnalysisResults_sections.
  - intros fonts. now apply processImageAnalysisResults_total.
Qed.

(** C2. The individual build keeps every element.  When the first two
    components are not named alike, the components section is built (given
    its title font) and its children are the title followed by exactly one
    node per component, in order: the builder's node for an element it
    built, and for an element on which it threw a fallback component that
    carries the element's width and height, its name (or [Component i+1]
    for an absent or empty name) and its fills when it has some; the throw
    is logged and the batch goes on. *)
Theorem individual_build_keeps_every_element comps w :
  fontAvailable InterBold = true ->
  namedAlike comps = false ->
  exists section title nodes evs f',
    buildComponentsSection comps w
      = (Returned section, {| figma := f'; trace := trace w ++ evs |}) /\
    children section = title :: nodes /\
    isBoldTitle title /\
    IndividualBuild 0 comps (figma w) nodes evs f' /\
    List.length nodes = List.length comps.
Proof.
  intros Hf Hna. destruct (buildComponentsSection_eq comps w Hf) as (title & Hbold & Heq).
  rewrite Hna in Heq.
  destruct (individualLoop_builds comps 0 (componentsFrame title) w)
    as (nodes & evs & f' & Hrun & Hbuild).
  eexists _, title, nodes, evs, f'. split; [rewrite Heq; exact Hrun|].
  split; [reflexivity|]. split; [exact Hbold|]. split; [exact Hbuild|].
  eapply IndividualBuild_length; eauto.
Qed.

(** C3. The variant path is taken exactly when the first two components
    share a name, and the list is then the builder's.  The components
    stage (given its title font) returns its section, and it calls
    [createComponentSet] if and only if the list has at least two
    elements and the first two have equal names; the call is then the
    first thing the stage does and it is handed the entire list.  When
    that call returns a set, the section holds the title and that very
    set, no other call is made and the document is the one the call
    left; when it throws, the throw is logged and the nodes are those of
    the individual build from the document the call left.  Otherwise the
    calls to the builder are one [createSystemComponent] per component,
    in order, and the section holds the title and the nodes of that
    individual build, every node being what [createSystemComponent]
    returned for its component or a fallback where it threw. *)
Theorem variant_path_iff_first_two_share_name comps w :
  fontAvailable InterBold = true ->
  exists section title evs f',
    buildComponentsSection comps w
      = (Returned section, {| figma := f'; trace := trace w ++ evs |}) /\
    isBoldTitle title /\
    (firstTwoShareName comps -> exists rest, evs = CallCreateComponentSet comps :: rest) /\
    (~ firstTwoShareName comps -> builderCalls evs = map CallCreateSystemComponent comps) /\
    (forall cs, In (CallCreateComponentSet cs) evs -> firstTwoShareName comps /\ cs = comps) /\
    (firstTwoShareName comps ->
     match createComponentSet comps (figma w) with
     | (Returned componentSet, f1) =>
         children section = [title; componentSet] /\
         evs = [CallCreateComponentSet comps] /\
         f' = f1
     | (Thrown e, f1) =>
         exists nodes rest,
           children section = title :: nodes /\
           evs = CallCreateComponentSet comps
                 :: ConsoleError "Error creating component variants:" e :: rest /\
           IndividualBuild 0 comps f1 nodes rest f'
     end) /\
    (~ firstTwoShareName comps ->
     exists nodes,
       children section = title :: nodes /\
       IndividualBuild 0 comps (figma w) nodes evs f').
Proof.
  intros Hf. destruct (buildComponentsSection_eq comps w Hf) as (title & Hbold & Heq).
  rewrite Heq. clear Heq.
  destruct (namedAlike comps) eqn:Hna.
  - assert (Hshare : firstTwoShareName comps) by now apply namedAlike_iff.
    destruct (createComponentSet comps (figma w)) as [[cset|e] f1].
    + eexists _, title, [CallCreateComponentSet comps], f1. split; [reflexivity|].
      split; [exact Hbold|]. split; [eauto|]. split; [tauto|]. split.
      * intros cs [Hin|[]]. inversion Hin; subst. split; [assumption|reflexivity].
      * split; [intros _; repeat split|tauto].
    + destruct (individualLoop_builds comps 0 (componentsFrame title)
                  {| figma := f1;
                     trace := trace w ++ [CallCreateComponentSet comps;
                                          ConsoleError "Error creating component variants:" e] |})
        as (nodes & evs & f' & Hrun & Hbuild).
      eexists _, title,
        (CallCreateComponentSet comps
         :: ConsoleError "Error creating component variants:" e :: evs), f'.
      split; [rewrite Hrun; cbn; rewrite <- app_assoc; reflexivity|].
      split; [exact Hbold|]. split; [eauto|]. split; [tauto|]. split.
      * intros cs [Hin|[Hin|Hin]];
          [inversion Hin; subst; split; [assumption|reflexivity]|discriminate|].
        exfalso. eapply IndividualBuild_no_set; eauto.
      * split; [intros _; exists nodes, evs; repeat split; exact Hbuild|tauto].
  - assert (Hshare : ~ firstTwoShareName comps).
    { intros H. apply namedAlike_iff in H. congruence. }
    destruct (individualLoop_builds comps 0 (componentsFrame title) w)
      as (nodes & evs & f' & Hrun & Hbuild).
    eexists _, title, evs, f'. split; [exact Hrun|]. split; [exact Hbold|].
    split; [tauto|].
    split; [intros _; eapply IndividualBuild_calls; eauto|]. split.
    + intros cs Hin. exfalso. eapply IndividualBuild_no_set; eauto.
    + split; [tauto|]. intros _. exists nodes. split; [reflexivity|exact Hbuild].
Qed.

Lemma buildComponentsSection_falls_back comps w e f1 :
  fontAvailable InterBold = true ->
  namedAlike comps = true ->
  createComponentSet comps (figma w) = (Thrown e, f1) ->
  exists section title nodes evs f',
    buildComponentsSection comps w
      = (Returned section,
         {| figma := f';
            trace := trace w ++ CallCreateComponentSet comps
                     :: ConsoleError "Error creating component variants:" e :: evs |}) /\
    children section = title :: nodes /\
    isBoldTitle title /\
    IndividualBuild 0 comps f1 nodes evs f' /\
    List.length nodes = List.length comps.
Proof.
  intros Hf Hshare Hset.
  destruct (buildComponentsSection_eq comps w Hf) as (title & Hbold & Heq).
  rewrite Hshare, Hset in Heq.
  destruct (individualLoop_builds comps 0 (componentsFrame title)
              {| figma := f1;
                 trace := trace w ++ [CallCreateComponentSet comps;
                                      ConsoleError "Error creating component variants:" e] |})
    as (nodes & evs & f' & Hrun & Hbuild).
  eexists _, title, nodes, evs, f'.
  split; [rewrite Heq, Hrun; cbn; rewrite <- app_assoc; reflexivity|].
  split; [reflexivity|]. split; [exact Hbold|]. split; [exact Hbuild|].
  eapply IndividualBuild_length; eauto.
Qed.

Lemma Forall2_combine_In {A B} (R : A -> B -> Prop) l l' a b :
  Forall2 R l l' -> In (a, b) (combine l l') -> R a b.
Proof.
  induction 1 as [|x y l l' Hxy _ IH]; cbn; [tauto|].
  intros [Heq|Hin]; [inversion Heq; subst; exact Hxy|auto].
Qed.

Lemma swatches_share_style f c1 c2 wrapper1 wrapper2 :
  ColorData.name c1 = ColorData.name c2 ->
  swatchLinkedTo f c1 wrapper1 -> swatchLinkedTo f c2 wrapper2 ->
  shareStyle wrapper1 wrapper2.
Proof.
  intros Hname (r1 & l1 & st1 & Hc1 & _ & _ & Hf1 & Hid1)
               (r2 & l2 & st2 & Hc2 & _ & _ & Hf2 & Hid2).
  exists r1, l1, r2, l2. split; [exact Hc1|]. split; [exact Hc2|].
  unfold colorStyleName in Hf1, Hf2. rewrite Hname in Hf1.
  rewrite Hf1 in Hf2. inversion Hf2; subst st2. congruence.
Qed.

(** C5. Palette styles are keyed by name.  In a document whose style ids
    are well formed, when the palette section is built: every swatch is a
    rectangle filled with its colour's own solid paint and linked to the
    style the document files under the name [Color/<name>], written out
    here letter by letter; for every style name the document gains
    exactly one style if it had none of that name and some colour's
    [Color/<name>] is that name, and gains none otherwise, so that a
    colour whose name had at most one style ends with exactly one; a
    style created by the run is named [Color/<name>] and carries the
    paint of the first colour of that name; a style found under a name
    before the run is still the one found after it, so an existing style
    is the one reused; and two colours of one name end up linked to one
    and the same style, each swatch keeping its own paint.  With every
    font loadable the section is built. *)
Theorem paint_styles_keyed_by_name colors w :
  wellFormed (figma w) = true ->
  (forall section w',
     buildColorSection colors w = (Returned section, w') ->
     exists title colorRow,
       children section = [title; colorRow] /\
       Forall2 (swatchLinkedTo (figma w')) colors (children colorRow) /\
       (forall nm, stylesNamed nm (figma w') =
          stylesNamed nm (figma w) +
          (if Nat.eqb (stylesNamed nm (figma w)) 0
              && existsb (fun c => ("Color/" ++ ColorData.name c =? nm)%string) colors
           then 1 else 0)) /\
       (forall c, In c colors ->
          stylesNamed ("Color/" ++ ColorData.name c) (figma w) <= 1 ->
          stylesNamed ("Color/" ++ ColorData.name c) (figma w') = 1) /\
       (forall nm st, find (style_named nm) (styles (figma w)) = Some st ->
                      find (style_named nm) (styles (figma w')) = Some st) /\
       (forall nm c0, stylesNamed nm (figma w) = 0 -> firstOfName nm colors = Some c0 ->
          exists sid,
            find (style_named nm) (styles (figma w')) = Some (newPaintStyle sid c0)) /\
       (forall c1 c2 wrapper1 wrapper2,
          In (c1, wrapper1) (combine colors (children colorRow)) ->
          In (c2, wrapper2) (combine colors (children colorRow)) ->
          ColorData.name c1 = ColorData.name c2 ->
          shareStyle wrapper1 wrapper2)) /\
  ((forall f, fontAvailable f = true) ->
   exists section w', buildColorSection colors w = (Returned section, w')).
Proof.
  intros Hwf. apply wellFormed_spec in Hwf.
  split; [|intros fonts; now apply buildColorSection_total].
  intros section w' H. unfold buildColorSection in H.
  apply bind_returned in H as (title & w1 & Ht & H).
  apply sectionTitle_returned in Ht as (_ & -> & _).
  apply bind_returned in H as (row & w2 & Hloop & H).
  inversion H; subst section w2; clear H.
  destruct (colorLoop_spec _ _ _ _ _ Hwf Hloop)
    as (_ & Hext & _ & (wrs & -> & Hall) & Hcnt & Hfirst).
  exists title; eexists. split; [reflexivity|]. split; [exact Hall|].
  split; [exact Hcnt|].
  split; [|split; [intros nm st; now apply extends_find|split; [exact Hfirst|]]].
  - intros c Hc Hle. fold (colorStyleName c) in Hle |- *.
    rewrite (Hcnt (colorStyleName c)).
    assert (Hex : existsb (fun c' => (colorStyleName c' =? colorStyleName c)%string) colors
                  = true).
    { apply existsb_exists. exists c. split; [exact Hc|apply String.eqb_refl]. }
    rewrite Hex.
    destruct (stylesNamed (colorStyleName c) (figma w)) as [|[|n]];
      cbn; [reflexivity|reflexivity|lia].
  - intros c1 c2 wr1 wr2 H1 H2 Hname. cbn [children app] in H1, H2.
    eapply swatches_share_style; [exact Hname| |];
      eapply Forall2_combine_In; eauto.
Qed.

(** C8. Typography is grouped by pair and sampled once per group.  The
    groups the code builds are the entries filed by key, one group per
    distinct key in order of first occurrence; two entries with the same
    font size and font family have the same key; and, for entries whose
    rendered size holds no [-], two entries have the same key exactly
    when they have the same pair of rendered size and family ([unknown]
    standing for an absent or falsy one), so that the groups are the
    groups by pair (fontSize, fontFamily) as the specification words
    them.  In a document whose style ids are well formed, when the
    typography section is built its children are the title followed by
    exactly one sample text node per group, the node of a group being
    bound to the style the document files under the name
    [Text/<family>-<style>/<size>px] of the group's first element, written
    out here from the element's font (Inter Regular when it has none) and
    size (16 when it has none); a style found under a name before the run
    is still the one found after it, and for every style name the
    document gains exactly one style if it had none of that name and some
    group's name is that name, and gains none otherwise.  With every font
    loadable the section is built. *)
Theorem typography_one_sample_per_group typography w :
  wellFormed (figma w) = true ->
  groupTypography typography = groupedByKey typography /\
  (forall a b,
     TypographyData.fontSize a = TypographyData.fontSize b ->
     option_map family (TypographyData.fontName a)
       = option_map family (TypographyData.fontName b) ->
     groupKey a = groupKey b) /\
  (forall a b,
     dashFree (sizePart a) = true -> dashFree (sizePart b) = true ->
     (groupKey a = groupKey b <->
      sizePart a = sizePart b /\ familyPart a = familyPart b)) /\
  (Forall (fun t => dashFree (sizePart t) = true) typography ->
   map snd (groupTypography typography) = groupedByPair typography) /\
  (forall section w',
     buildTypographySection typography w = (Returned section, w') ->
     exists title samples,
       children section = title :: samples /\
       isBoldTitle title /\
       Forall2 (fun g node => exists first rest,
                  snd g = first :: rest /\ sampleBoundTo (figma w') first node)
         (groupTypography typography) samples /\
       (forall nm st, find (style_named nm) (styles (figma w)) = Some st ->
                      find (style_named nm) (styles (figma w')) = Some st) /\
       (forall nm, stylesNamed nm (figma w') =
          stylesNamed nm (figma w) +
          (if Nat.eqb (stylesNamed nm (figma w)) 0
              && existsb (fun s => (styleNameOfFirst s =? nm)%string)
                   (samplesOf (groupTypography typography))
           then 1 else 0))) /\
  ((forall f, fontAvailable f = true) ->
   exists section w', buildTypographySection typography w = (Returned section, w')).
Proof.
  intros Hwf. apply wellFormed_spec in Hwf.
  split; [apply groupTypography_grouped|]. split; [exact groupKey_same_pair|].
  split; [exact groupKey_pair|]. split; [apply groupTypography_by_pair|].
  split; [|intros fonts; now apply buildTypographySection_total].
  intros section w' H. unfold buildTypographySection in H.
  apply bind_returned in H as (title & w1 & Ht & H).
  apply sectionTitle_returned in Ht as (Htitle & -> & _).
  destruct (groupLoop_spec _ _ _ _ _ Hwf H) as (_ & Hext & _ & (nodes & -> & Hall) & Hcnt).
  exists title, nodes. split; [reflexivity|]. split; [exact Htitle|]. split; [|split].
  - apply samplesOf_Forall2; [|exact Hall].
    rewrite groupTypography_grouped. apply groupedByKey_nonempty.
  - intros nm st. now apply extends_find.
  - exact Hcnt.
Qed.

(** C10, as the code has it.  The [CLOSE_PLUGIN] message calls
    [figma.closePlugin] at once and leaves the timers as they were.  The
    [IMAGE_ANALYSIS_COMPLETE] handler, whether the construction returned
    or threw, reports the outcome to the panel, tears nothing down itself
    and leaves one more timer, due in 2000 ms: the timer is still pending
    at any earlier moment and has closed the plugin once 2000 ms have
    passed. *)
Theorem teardown_timing :
  (forall w,
     exists w',
       handler CLOSE_PLUGIN w = (Returned tt, w') /\
       closed (figma w') = true /\
       timers (figma w') = timers (figma w)) /\
  (forall imageData w,
     let (out, w1) := processImageAnalysisResults imageData w in
     exists w',
       handler (IMAGE_ANALYSIS_COMPLETE imageData) w = (Returned tt, w') /\
       closed (figma w') = closed (figma w1) /\
       timers (figma w') = timers (figma w1) ++ [(2000, ClosePluginAction)] /\
       uiMessages (figma w') =
         uiMessages (figma w1) ++
         [match out with
          | Returned _ => CREATION_COMPLETE
          | Thrown e => CREATION_ERROR ("Error creating components: " ++ message e)
          end] /\
       (forall ms, ms < 2000 ->
          In (2000 - ms, ClosePluginAction) (timers (elapse ms (figma w')))) /\
       closed (elapse 2000 (figma w')) = true).
Proof.
  split.
  - intros w. eexists. split; [reflexivity|]. split; reflexivity.
  - intros imageData w.
    destruct (processImageAnalysisResults imageData w) as [out w1] eqn:Hrun.
    assert (Hdone : exists w',
      handler (IMAGE_ANALYSIS_COMPLETE imageData) w = (Returned tt, w') /\
      closed (figma w') = closed (figma w1) /\
      timers (figma w') = timers (figma w1) ++ [(2000, ClosePluginAction)] /\
      uiMessages (figma w') =
        uiMessages (figma w1) ++
        [match out with
         | Returned _ => CREATION_COMPLETE
         | Thrown e => CREATION_ERROR ("Error creating components: " ++ message e)
         end]).
    { cbn [handler].
      unfold onImageAnalysisComplete, tryFinally, tryCatch.
      destruct out as [frame|e].
      - rewrite (bind_step _ _ _ _ _ Hrun). cbn.
        eexists. split; [reflexivity|]. repeat split.
      - rewrite (bind_thrown _ _ _ _ _ Hrun). cbn.
        eexists. split; [reflexivity|]. repeat split. }
    destruct Hdone as (w' & Hd & Hc & Ht & Hm).
    exists w'. split; [exact Hd|]. split; [exact Hc|]. split; [exact Ht|].
    split; [exact Hm|]. split.
    + intros ms Hms. apply elapse_waits; [|exact Hms].
      rewrite Ht. apply in_or_app. right. now left.
    + apply elapse_fires with (delay := 2000); [|lia].
      rewrite Ht. apply in_or_app. right. now left.
Qed.
End ControllerProofs.

(** ** The panel *)

Section PanelProofs.
Import Panel.
Context {NUM : JsNumber} {SVC : Services}.

Lemma call_returned {A} (out : Outcome A) a (w : World) :
  out = Returned a -> call out w = (Returned a, w).
Proof. intros ->. reflexivity. Qed.

Lemma call_thrown {A} (out : Outcome A) e (w : World) :
  out = Thrown e -> call out w = (Thrown e, w).
Proof. intros ->. reflexivity. Qed.

Lemma member_missing v k :
  hasField v k = false ->
  member v k = Returned VUndefined \/ exists e, member v k = Thrown e.
Proof.
  destruct v; cbn; eauto. destruct (obj_get k fields); cbn; [discriminate|eauto].
Qed.

Lemma member_field v k :
  truthy v = true -> member v k = Returned (field v k).
Proof. destruct v; cbn; try discriminate; reflexivity. Qed.

Lemma field_missing v k : hasField v k = false -> field v k = VUndefined.
Proof.
  destruct v; cbn; auto. destruct (obj_get k fields); cbn; [discriminate|auto].
Qed.

Lemma setError_only msg w w' :
  state w' = setError (Some msg) (state w) -> emitted w' = emitted w ->
  onlyErrorSet msg w w'.
Proof. intros Hs He. unfold onlyErrorSet. rewrite Hs. auto. Qed.

Lemma isComponentData_rejects v w :
  lacksTopLevel v \/ lacksAnalysisData v ->
  isComponentData v w = (Returned false, w).
Proof.
  intros H. unfold isComponentData.
  destruct (truthy v) eqn:Hv; [|reflexivity].
  erewrite bind_step by (apply call_returned, member_field, Hv).
  destruct (truthy (field v "version")) eqn:Hver; [|reflexivity].
  erewrite bind_step by (apply call_returned, member_field, Hv).
  destruct (truthy (field v "imageAnalysis")) eqn:Hia; [|reflexivity].
  destruct H as [[H|H]|(Hc & Ht & Hk)].
  - rewrite (field_missing _ _ H) in Hver. discriminate.
  - rewrite (field_missing _ _ H) in Hia. discriminate.
  - erewrite bind_step by (apply call_returned, member_field, Hia).
    rewrite (field_missing _ _ Hc). cbn [truthy].
    erewrite bind_step by (apply call_returned, member_field, Hia).
    rewrite (field_missing _ _ Ht). cbn [truthy].
    erewrite bind_step by (apply call_returned, member_field, Hia).
    rewrite (field_missing _ _ Hk). reflexivity.
Qed.

Lemma sameButDraws_refl w : sameButDraws w w.
Proof. repeat split. Qed.

Lemma sameButDraws_trans a b c : sameButDraws a b -> sameButDraws b c -> sameButDraws a c.
Proof. unfold sameButDraws. intuition congruence. Qed.

Lemma quiet_ret {A} (a : A) : quiet (ret a).
Proof. intros w out w' H. inversion H. apply sameButDraws_refl. Qed.

Lemma quiet_throw {A} e : quiet (@throw World A e).
Proof. intros w out w' H. inversion H. apply sameButDraws_refl. Qed.

Lemma quiet_call {A} (o : Outcome A) : quiet (call o).
Proof. intros w out w' H. inversion H. apply sameButDraws_refl. Qed.

Lemma quiet_bind {A B} (m : M World A) (k : A -> M World B) :
  quiet m -> (forall a, quiet (k a)) -> quiet (bind m k).
Proof.
  intros Hm Hk w out w' H. unfold bind in H.
  destruct (m w) as [[a|e] w1] eqn:Hmw.
  - eapply sameButDraws_trans; [eapply Hm; eauto|eapply Hk; eauto].
  - inversion H; subst. eapply Hm; eauto.
Qed.

Lemma quiet_mathRandomId : quiet mathRandomId.
Proof. intros w out w' H. inversion H. repeat split. Qed.

Ltac quiet_steps :=
  repeat first
    [ apply quiet_ret | apply quiet_throw | apply quiet_call | apply quiet_mathRandomId
    | apply quiet_bind; [|intros ?] ].

Lemma quiet_remapColor v : quiet (remapColor v).
Proof. unfold remapColor. quiet_steps. Qed.

Lemma quiet_remapText v : quiet (remapText v).
Proof. unfold remapText. quiet_steps. Qed.

Lemma quiet_remapComponent v : quiet (remapComponent v).
Proof.
  unfold remapComponent. apply quiet_bind; [quiet_steps|intros idv].
  apply quiet_bind; [destruct (truthy idv); quiet_steps|intros ?]. quiet_steps.
Qed.

Lemma quiet_mapItems f items : (forall v, quiet (f v)) -> quiet (mapItems f items).
Proof. intros Hf. induction items as [|x rest IH]; cbn [mapItems]; quiet_steps; auto. Qed.

Lemma quiet_arrayMap owner key xs f : (forall v, quiet (f v)) -> quiet (arrayMap owner key xs f).
Proof.
  intros Hf. destruct xs; cbn [arrayMap]; quiet_steps. now apply quiet_mapItems.
Qed.

Lemma quiet_primaryAnalysis s : quiet (primaryAnalysis s).
Proof.
  unfold primaryAnalysis. destruct (importMethod s).
  - destruct (imageFile s) as [file|]; [|quiet_steps].
    apply quiet_bind; [|intros ?; quiet_steps].
    unfold fileToBase64. destruct (asDataURL file); quiet_steps.
  - unfold remapImported.
    repeat first
      [ apply quiet_ret | apply quiet_call
      | apply quiet_arrayMap; auto using quiet_remapColor, quiet_remapText, quiet_remapComponent
      | apply quiet_bind; [|intros ?] ].
Qed.

Lemma enrich_thrown analysisResult e w :
  findSimilarComponents analysisResult = Thrown e ->
  enrich analysisResult w
  = (Returned tt,
     {| state := state w;
        console := console w ++ [ConsoleWarn "Figma API error (non-critical):" e];
        emitted := emitted w; randomDraws := randomDraws w |}).
Proof.
  intros H. unfold enrich, tryCatch.
  erewrite bind_thrown by (apply call_thrown; exact H). reflexivity.
Qed.

(** What the remapping asks of the imported data: the three arrays. *)
Lemma call_inv {A} (out : Outcome A) a (w w' : World) :
  call out w = (Returned a, w') -> out = Returned a /\ w' = w.
Proof. unfold call. intros H. inversion H. auto. Qed.

Lemma arrayMap_returned owner key xs f w ys w' :
  arrayMap owner key xs f w = (Returned ys, w') -> exists items, xs = VArr items.
Proof. destruct xs; cbn; try discriminate. eauto. Qed.

Lemma remapImported_needs_arrays imported w out w' :
  remapImported imported w = (Returned out, w') ->
  exists jsonData cs ts ks,
    member imported "imageAnalysis" = Returned jsonData /\
    member jsonData "colors" = Returned (VArr cs) /\
    member jsonData "typography" = Returned (VArr ts) /\
    member jsonData "components" = Returned (VArr ks).
Proof.
  unfold remapImported. intros H.
  apply bind_returned in H as (jsonData & w1 & Hia & H). apply call_inv in Hia as [Hia ->].
  apply bind_returned in H as (cs & w2 & Hcs & H). apply call_inv in Hcs as [Hcs ->].
  apply bind_returned in H as (cs' & w3 & Hmap1 & H).
  apply arrayMap_returned in Hmap1 as [items1 ->].
  apply bind_returned in H as (ts & w4 & Hts & H). apply call_inv in Hts as [Hts ->].
  apply bind_returned in H as (ts' & w5 & Hmap2 & H).
  apply arrayMap_returned in Hmap2 as [items2 ->].
  apply bind_returned in H as (ks & w6 & Hks & H). apply call_inv in Hks as [Hks ->].
  apply bind_returned in H as (ks' & w7 & Hmap3 & H).
  apply arrayMap_returned in Hmap3 as [items3 ->].
  exists jsonData, items1, items2, items3. auto.
Qed.

(** *** The claims about the panel *)

(** C6. An invalid payload sets the error and nothing else.  Uploading a
    [.json] file whose content parses to a payload without top-level
    [version] or [imageAnalysis] sets a non-empty error message; pasting or
    reading from the clipboard a text that parses to such a payload, or to
    one whose [imageAnalysis] has none of [colors], [typography],
    [components], sets [The clipboard data is not in the expected format];
    a clipboard text that fails to parse sets
    [No valid component data found in clipboard].  In all three cases no
    other state cell moves: [importedJsonData] and [importMethod] keep
    their values. *)
Theorem invalid_payload_sets_error_only w text :
  (forall file others v,
     endsWith (toLowerCase (fileName file)) ".json" = true ->
     asText file = Some text -> text <> "" ->
     JSON_parse text = Returned v -> lacksTopLevel v ->
     exists msg w', msg <> "" /\
       handleFileChange (file :: others) w = (Returned tt, w') /\ onlyErrorSet msg w w') /\
  (forall v,
     noText text = false -> JSON_parse text = Returned v ->
     lacksTopLevel v \/ lacksAnalysisData v ->
     exists w',
       processClipboardText text w = (Returned tt, w') /\
       onlyErrorSet "The clipboard data is not in the expected format" w w') /\
  (forall e,
     noText text = false -> JSON_parse text = Thrown e ->
     exists w',
       processClipboardText text w = (Returned tt, w') /\
       onlyErrorSet "No valid component data found in clipboard" w w').
Proof.
  split; [|split].
  - intros file others v Hjson Hfile Hne Hparse Hlack.
    unfold handleFileChange. rewrite Hjson.
    unfold handleJsonFileImport. rewrite Hfile. unfold onJsonFileLoaded.
    destruct (String.eqb_spec text ""); [contradiction|]. cbn [negb].
    unfold tryCatch.
    erewrite bind_step by (apply call_returned; exact Hparse).
    destruct (member v "version") as [ver|e] eqn:Hver.
    + erewrite bind_step by (apply call_returned; reflexivity).
      assert (Hvalid :
        (if truthy ver
         then bind (call (member v "imageAnalysis"))
                (fun imageAnalysis => ret (truthy imageAnalysis))
         else ret false) w = (Returned false, w)).
      { destruct Hlack as [H|H].
        - destruct (member_missing _ _ H) as [Hm|[e Hm]]; rewrite Hm in Hver; inversion Hver.
          subst ver. reflexivity.
        - destruct (truthy ver); [|reflexivity].
          destruct (member_missing _ _ H) as [Hm|[e Hm]].
          + erewrite bind_step by (apply call_returned; exact Hm). reflexivity.
          + destruct v; cbn in Hm, Hver; inversion Hm; inversion Hver. }
      erewrite bind_step by exact Hvalid. cbn.
      eexists _, _. split; [|split; [reflexivity|apply setError_only; reflexivity]].
      discriminate.
    + erewrite bind_thrown by (apply call_thrown; reflexivity). cbn.
      eexists _, _. split; [|split; [reflexivity|apply setError_only; reflexivity]].
      cbn. discriminate.
  - intros v Hnt Hparse Hlack. unfold processClipboardText. rewrite Hnt.
    unfold tryCatch.
    erewrite bind_step by (apply call_returned; exact Hparse).
    erewrite bind_step by (apply isComponentData_rejects; exact Hlack). cbn.
    eexists. split; [reflexivity|]. apply setError_only; reflexivity.
  - intros e Hnt Hparse. unfold processClipboardText. rewrite Hnt.
    unfold tryCatch.
    erewrite bind_thrown by (apply call_thrown; exact Hparse). cbn.
    eexists. split; [reflexivity|]. apply setError_only; reflexivity.
Qed.

(** C7, at the failing input.  A payload with [version] and an
    [imageAnalysis] holding only [colors] passes the clipboard validation,
    yet the remapping throws on it, reading [map] of the absent
    [typography]; [analyzeImage] ends with an error message and sends
    nothing to the controller. *)
Theorem accepted_payload_breaks_remap w :
  isComponentData colorsOnlyPayload w = (Returned true, w) /\
  remapImported colorsOnlyPayload w
    = (Thrown (Error "Cannot read properties of undefined (reading 'map')"), w) /\
  exists w',
    analyzeImage (withImported colorsOnlyPayload w) = (Returned tt, w') /\
    error (state w')
      = Some "Error analyzing image: Cannot read properties of undefined (reading 'map')" /\
    emitted w' = emitted w.
Proof.
  split; [reflexivity|]. split; [reflexivity|].
  eexists. split; [reflexivity|]. split; reflexivity.
Qed.

(** C9. A failed enrichment is not fatal.  When the guards of
    [analyzeImage] let the run through, the primary analysis returns
    [analysisResult] and [findSimilarComponents] throws on it, the run
    returns, the throw is logged as a warning and nothing else is logged,
    [IMAGE_ANALYSIS_COMPLETE] is emitted carrying that very
    [analysisResult], no error is shown and the processing flag is
    cleared. *)
Theorem enrichment_failure_is_not_fatal w analysisResult w1 e :
  ready (state w) = true ->
  primaryAnalysis (state w) (started w) = (Returned analysisResult, w1) ->
  findSimilarComponents analysisResult = Thrown e ->
  exists w',
    analyzeImage w = (Returned tt, w') /\
    emitted w' = emitted w ++ [EmitImageAnalysisComplete analysisResult] /\
    console w' = console w ++ [ConsoleWarn "Figma API error (non-critical):" e] /\
    error (state w') = None /\
    statusMessage (state w') = "Image analyzed successfully!" /\
    isProcessing (state w') = false.
Proof.
  intros Hready Hprimary Hfail.
  destruct (quiet_primaryAnalysis _ _ _ _ Hprimary) as (Hs & Hc & He).
  unfold analyzeImage. erewrite bind_step by reflexivity.
  assert (Hmain :
    forall k, (match importMethod (state w), isSome (imageFile (state w)),
                     truthy (importedJsonData (state w)) with
               | image, false, _ => update (setError (Some "Please select an image first."))
               | json, _, false => update (setError (Some "Please import a JSON file first."))
               | _, _, _ => k
               end) = k).
  { intros k. unfold ready in Hready.
    destruct (importMethod (state w)); rewrite Hready; [reflexivity|].
    destruct (isSome (imageFile (state w))); reflexivity. }
  rewrite Hmain. clear Hmain.
  erewrite bind_step by reflexivity. erewrite bind_step by reflexivity.
  unfold tryFinally, tryCatch.
  change {| state := setError None (state {| state := setIsProcessing true (state w);
                                             console := console w; emitted := emitted w;
                                             randomDraws := randomDraws w |});
            console := _; emitted := _; randomDraws := _ |} with (started w).
  erewrite bind_step by exact Hprimary.
  erewrite bind_step by (apply enrich_thrown; exact Hfail).
  cbn. eexists. split; [reflexivity|]. cbn. rewrite Hs, Hc, He. cbn. repeat split.
Qed.
End PanelProofs.

(** ** The theorems at work on the sample collaborators *)

Lemma sections_follow_the_inputs_witness :
  exists frame w',
    @processImageAnalysisResults Sample.Rational Sample.fragile
      Sample.analysis Sample.emptyWorld = (Returned frame, w') /\
    exists palette typo comps,
      children frame = palette ++ typo ++ comps /\
      optionalSection true "Color Palette" palette /\
      optionalSection true "Typography" typo /\
      optionalSection true "Components" comps.
Proof.
  destruct (proj2 (@sections_follow_the_inputs Sample.Rational Sample.fragile
                     Sample.analysis Sample.emptyWorld) (fun _ => eq_refl))
    as (frame & w' & Hrun).
  exists frame, w'. split; [exact Hrun|].
  exact (proj1 (@sections_follow_the_inputs Sample.Rational Sample.fragile
                  Sample.analysis Sample.emptyWorld) frame w' Hrun).
Defined.

Lemma individual_build_keeps_every_element_witness :
  exists section title nodes evs f',
    @buildComponentsSection Sample.Rational Sample.fragile Sample.batch5 Sample.emptyWorld
      = (Returned section, {| figma := f'; trace := trace Sample.emptyWorld ++ evs |}) /\
    children section = title :: nodes /\
    isBoldTitle title /\
    @IndividualBuild Sample.Rational Sample.fragile 0 Sample.batch5
      (figma Sample.emptyWorld) nodes evs f' /\
    List.length nodes = 5.
Proof.
  apply (@individual_build_keeps_every_element Sample.Rational Sample.fragile
           Sample.batch5 Sample.emptyWorld); reflexivity.
Defined.

Lemma variant_path_iff_first_two_share_name_witness :
  exists section title evs f',
    @buildComponentsSection Sample.Rational Sample.sturdy Sample.variants Sample.emptyWorld
      = (Returned section, {| figma := f'; trace := trace Sample.emptyWorld ++ evs |}) /\
    isBoldTitle title /\
    (firstTwoShareName Sample.variants ->
     exists rest, evs = CallCreateComponentSet Sample.variants :: rest) /\
    (~ firstTwoShareName Sample.variants ->
     builderCalls evs = map CallCreateSystemComponent Sample.variants) /\
    (forall cs, In (CallCreateComponentSet cs) evs ->
                firstTwoShareName Sample.variants /\ cs = Sample.variants) /\
    (firstTwoShareName Sample.variants ->
     children section
       = [title; assign "name" (PStr "Variants") (createNode COMPONENT_SET)] /\
     evs = [CallCreateComponentSet Sample.variants] /\
     f' = emptyFigma) /\
    (~ firstTwoShareName Sample.variants ->
     exists nodes,
       children section = title :: nodes /\
       @IndividualBuild Sample.Rational Sample.sturdy 0 Sample.variants
         (figma Sample.emptyWorld) nodes evs f').
Proof.
  exact (@variant_path_iff_first_two_share_name Sample.Rational Sample.sturdy
           Sample.variants Sample.emptyWorld eq_refl).
Defined.

Lemma paint_styles_keyed_by_name_witness :
  exists section w',
    @buildColorSection Sample.Rational Sample.fragile Sample.palette Sample.emptyWorld
      = (Returned section, w') /\
    exists title colorRow,
      children section = [title; colorRow] /\
      Forall2 (swatchLinkedTo (figma w')) Sample.palette (children colorRow) /\
      stylesNamed "Color/brand" (figma w') = 1 /\
      (exists sid, find (style_named "Color/brand") (styles (figma w'))
                   = Some (newPaintStyle sid (Sample.color "brand" 1 0 0))) /\
      (forall wrapper1 wrapper2,
         In (Sample.color "brand" 1 0 0, wrapper1) (combine Sample.palette (children colorRow)) ->
         In (Sample.color "brand" 0 0 1, wrapper2) (combine Sample.palette (children colorRow)) ->
         shareStyle wrapper1 wrapper2).
Proof.
  pose proof (@paint_styles_keyed_by_name Sample.Rational Sample.fragile
                Sample.palette Sample.emptyWorld eq_refl) as [Hprops Htotal].
  destruct (Htotal (fun _ => eq_refl)) as (section & w' & Hrun).
  destruct (Hprops section w' Hrun)
    as (title & row & Hc & Hall & Hcnt & _ & _ & Hfirst & Hshare).
  exists section, w'. split; [exact Hrun|]. exists title, row.
  split; [exact Hc|]. split; [exact Hall|]. split; [exact (Hcnt "Color/brand")|].
  split; [exact (Hfirst "Color/brand" (Sample.color "brand" 1 0 0) eq_refl eq_refl)|].
  intros wrapper1 wrapper2 H1 H2. exact (Hshare _ _ _ _ H1 H2 eq_refl).
Defined.

Lemma typography_one_sample_per_group_witness :
  map fst (@groupTypography Sample.Rational Sample.texts) = ["16-Inter"; "12-unknown"]%string /\
  map snd (@groupTypography Sample.Rational Sample.texts) = groupedByPair Sample.texts /\
  (groupKey (Sample.textEntry "Title" (Some InterBold) (Some 16%Q))
   = groupKey (Sample.textEntry "Body" (Some InterRegular) (Some 16%Q)) <->
   "16"%string = "16"%string /\ "Inter"%string = "Inter"%string) /\
  exists section w',
    @buildTypographySection Sample.Rational Sample.fragile Sample.texts Sample.emptyWorld
      = (Returned section, w') /\
    exists title samples,
      children section = title :: samples /\
      isBoldTitle title /\
      Forall2 (fun g node => exists first rest,
                 snd g = first :: rest /\ sampleBoundTo (figma w') first node)
        (groupTypography Sample.texts) samples /\
      stylesNamed "Text/Inter-Bold/16px" (figma w') = 1.
Proof.
  pose proof (@typography_one_sample_per_group Sample.Rational Sample.fragile
                Sample.texts Sample.emptyWorld eq_refl)
    as (Hgroups & _ & Hkey & Hpair & Hprops & Htotal).
  split; [reflexivity|].
  split; [apply Hpair; repeat constructor|].
  split; [exact (Hkey (Sample.textEntry "Title" (Some InterBold) (Some 16%Q))
                   (Sample.textEntry "Body" (Some InterRegular) (Some 16%Q))
                   eq_refl eq_refl)|].
  destruct (Htotal (fun _ => eq_refl)) as (section & w' & Hrun).
  destruct (Hprops section w' Hrun) as (title & samples & Hc & Hb & Hall & _ & Hcnt).
  exists section, w'. split; [exact Hrun|]. exists title, samples.
  split; [exact Hc|]. split; [exact Hb|]. split; [exact Hall|].
  exact (Hcnt "Text/Inter-Bold/16px"%string).
Defined.

Lemma teardown_timing_witness :
  exists w',
    @handler Sample.Rational Sample.fragile (IMAGE_ANALYSIS_COMPLETE Sample.analysis)
      Sample.emptyWorld = (Returned tt, w') /\
    In (1500, ClosePluginAction) (timers (elapse 500 (figma w'))) /\
    closed (elapse 2000 (figma w')) = true.
Proof.
  pose proof (proj2 (@teardown_timing Sample.Rational Sample.fragile)
                Sample.analysis Sample.emptyWorld) as H.
  destruct (@processImageAnalysisResults Sample.Rational Sample.fragile
              Sample.analysis Sample.emptyWorld) as [out w1].
  destruct H as (w' & Hd & _ & _ & _ & Hwait & Hfire).
  exists w'. split; [exact Hd|]. split; [|exact Hfire].
  apply (Hwait 500). lia.
Defined.

(** C10, as the claim words it, fails for [CLOSE_PLUGIN]: the plugin is
    closed at once and no timer is left behind. *)
Lemma close_plugin_tears_down_at_once :
  exists w',
    @handler Sample.Rational Sample.sturdy CLOSE_PLUGIN Sample.emptyWorld
      = (Returned tt, w') /\
    closed (figma w') = true /\
    timers (figma w') = [] /\
    ~ closesAfterDelay (figma Sample.emptyWorld) (figma w').
Proof.
  eexists. split; [reflexivity|]. split; [reflexivity|]. split; [reflexivity|].
  intros (delay & _ & Hclosed & _). discriminate Hclosed.
Qed.

Lemma invalid_payload_sets_error_only_witness :
  (exists msg w', msg <> ""%string /\
     @Panel.handleFileChange Sample.Rational Sample.services
       [Sample.jsonFile Sample.versionOnlyText] Sample.panel = (Returned tt, w') /\
     Panel.onlyErrorSet msg Sample.panel w') /\
  (exists w',
     @Panel.processClipboardText Sample.Rational Sample.services
       Sample.versionOnlyText Sample.panel = (Returned tt, w') /\
     Panel.onlyErrorSet "The clipboard data is not in the expected format" Sample.panel w') /\
  (exists w',
     @Panel.processClipboardText Sample.Rational Sample.services
       Sample.notJson Sample.panel = (Returned tt, w') /\
     Panel.onlyErrorSet "No valid component data found in clipboard" Sample.panel w').
Proof.
  split; [|split].
  - apply (proj1 (@invalid_payload_sets_error_only Sample.Rational Sample.services
                    Sample.panel Sample.versionOnlyText)
             (Sample.jsonFile Sample.versionOnlyText) []
             (VObj [("version"%string, VStr "1.0")]));
      [reflexivity|reflexivity|discriminate|reflexivity|right; reflexivity].
  - apply (proj1 (proj2 (@invalid_payload_sets_error_only Sample.Rational Sample.services
                           Sample.panel Sample.versionOnlyText))
             (VObj [("version"%string, VStr "1.0")]));
      [reflexivity|reflexivity|left; right; reflexivity].
  - apply (proj2 (proj2 (@invalid_payload_sets_error_only Sample.Rational Sample.services
                           Sample.panel Sample.notJson))
             (Error "Unexpected token")); reflexivity.
Defined.

Lemma enrichment_failure_is_not_fatal_witness :
  exists w',
    @Panel.analyzeImage Sample.Rational Sample.services Sample.panelWithImage
      = (Returned tt, w') /\
    Panel.emitted w' = [Panel.EmitImageAnalysisComplete Sample.emptyResult] /\
    Panel.console w'
      = [Panel.ConsoleWarn "Figma API error (non-critical):" (Error "403 Forbidden")] /\
    Panel.error (Panel.state w') = None /\
    Panel.statusMessage (Panel.state w') = "Image analyzed successfully!"%string /\
    Panel.isProcessing (Panel.state w') = false.
Proof.
  apply (@enrichment_failure_is_not_fatal Sample.Rational Sample.services
           Sample.panelWithImage Sample.emptyResult
           (Panel.started Sample.panelWithImage) (Error "403 Forbidden"));
    reflexivity.
Defined.

(** ** Worked examples *)

(** One refused element in a batch of five: six children, the fourth a
    fallback of the element's size, the others as the builder made them. *)
Example batch5_one_failure :
  match @buildComponentsSection Sample.Rational Sample.fragile
          Sample.batch5 Sample.emptyWorld with
  | (Returned section, w') =>
      map nodeType (children section)
        = [TEXT; COMPONENT; COMPONENT; COMPONENT; COMPONENT; COMPONENT] /\
      map (prop "width") (children section)
        = [None; None; None; Some (PNum (120%Q : @number Sample.Rational)); None; None] /\
      map (prop "name") (tl (children section))
        = map (fun nm => Some (PStr nm))
            ["Header"; "Card"; "Broken"; "Footer"; "Badge"]%string /\
      trace w'
        = [CallCreateSystemComponent (Sample.component "Header");
           CallCreateSystemComponent (Sample.component "Card");
           CallCreateSystemComponent (Sample.component "Broken");
           ConsoleError "Error creating component:" (Error "unsupported element");
           CallCreateSystemComponent (Sample.component "Footer");
           CallCreateSystemComponent (Sample.component "Badge")]
  | _ => False
  end.
Proof. vm_compute. repeat split. Qed.

(** [Btn], [Btn], [Card]: the three of them go to the variant-set builder. *)
Example variants_go_to_the_set_builder :
  match @buildComponentsSection Sample.Rational Sample.sturdy
          Sample.variants Sample.emptyWorld with
  | (Returned section, w') =>
      trace w' = [CallCreateComponentSet Sample.variants] /\
      map nodeType (children section) = [TEXT; COMPONENT_SET]
  | _ => False
  end.
Proof. vm_compute. repeat split. Qed.

(** Two colours named [brand]: one style, carrying the first one's red. *)
Example same_name_one_style :
  match @buildColorSection Sample.Rational Sample.fragile
          Sample.palette Sample.emptyWorld with
  | (Returned _, w') =>
      styles (figma w')
        = [newPaintStyle 0 (Sample.color "brand" 1 0 0);
           newPaintStyle 1 (Sample.color "accent" 0 1 0)]
  | _ => False
  end.
Proof. vm_compute. reflexivity. Qed.

(** The clipboard text [not json]. *)
Example not_json_is_rejected :
  match @Panel.processClipboardText Sample.Rational Sample.services
          Sample.notJson Sample.panel with
  | (Returned _, w') =>
      Panel.error (Panel.state w') = Some "No valid component data found in clipboard"%string /\
      Panel.importedJsonData (Panel.state w') = VNull /\
      Panel.importMethod (Panel.state w') = Panel.image
  | _ => False
  end.
Proof. vm_compute. repeat split. Qed.

(** The colours-only payload, from the clipboard to [analyzeImage]. *)
Example colors_only_payload_is_accepted_then_fails :
  match @Panel.processClipboardText Sample.Rational Sample.services
          Sample.colorsOnlyText Sample.panel with
  | (Returned _, w1) =>
      Panel.importMethod (Panel.state w1) = Panel.json /\
      match @Panel.analyzeImage Sample.Rational Sample.services w1 with
      | (Returned _, w2) =>
          Panel.error (Panel.state w2)
            = Some ("Error analyzing image: "
                    ++ "Cannot read properties of undefined (reading 'map')")%string /\
          Panel.emitted w2 = []
      | _ => False
      end
  | _ => False
  end.
Proof. vm_compute. repeat split. Qed.

(** * Further properties *)

(** ** The panel's intake *)

Section IntakeProofs.
Import Panel Browser.
Context {NUM : JsNumber} {SVC : Services}.

Lemma truthy_notNullish v : truthy v = true -> notNullish v = true.
Proof. destruct v; cbn; congruence. Qed.

Lemma member_notNullish v k : notNullish v = true -> member v k = Returned (field v k).
Proof. destruct v; cbn; try discriminate; reflexivity. Qed.

Lemma member_nullish v k : notNullish v = false -> exists e, member v k = Thrown e.
Proof. destruct v; cbn; try discriminate; eauto. Qed.

Lemma field_nullish v k : notNullish v = false -> field v k = VUndefined.
Proof. destruct v; cbn; try discriminate; reflexivity. Qed.

Lemma isComponentData_eq v w :
  isComponentData v w = (Returned (acceptedByClipboard v), w).
Proof.
  unfold isComponentData, acceptedByClipboard.
  destruct (truthy v) eqn:Hv; [|reflexivity]. cbn [andb].
  erewrite bind_step by (apply call_returned, member_field, Hv).
  destruct (truthy (field v "version")); [|reflexivity]. cbn [andb].
  erewrite bind_step by (apply call_returned, member_field, Hv).
  destruct (truthy (field v "imageAnalysis")) eqn:Hia; [|reflexivity]. cbn [andb].
  erewrite bind_step by (apply call_returned, member_field, Hia).
  destruct (truthy (field (field v "imageAnalysis") "colors")); [reflexivity|].
  erewrite bind_step by (apply call_returned, member_field, Hia).
  destruct (truthy (field (field v "imageAnalysis") "typography")); [reflexivity|].
  erewrite bind_step by (apply call_returned, member_field, Hia).
  reflexivity.
Qed.

Lemma showOriginalImage_eq v w :
  notNullish v = true -> truthy (field v "imageAnalysis") = true ->
  showOriginalImage v w
  = (Returned tt,
     {| state := setImagePreview (previewAfter v (imagePreview (state w))) (state w);
        console := console w; emitted := emitted w; randomDraws := randomDraws w |}).
Proof.
  intros Hv Hia. unfold showOriginalImage, previewAfter.
  erewrite bind_step by (apply call_returned, member_notNullish, Hv).
  erewrite bind_step by (apply call_returned, member_field, Hia).
  destruct (truthy (field (field v "imageAnalysis") "originalImage")); [reflexivity|].
  destruct w as [[] ? ? ?]. reflexivity.
Qed.

Lemma acceptedByClipboard_parts v :
  acceptedByClipboard v = true ->
  notNullish v = true /\ truthy (field v "version") = true
  /\ truthy (field v "imageAnalysis") = true.
Proof.
  unfold acceptedByClipboard. intros H.
  apply andb_true_iff in H as [H _]. apply andb_true_iff in H as [H Hia].
  apply andb_true_iff in H as [Hv Hver]. auto using truthy_notNullish.
Qed.

Lemma processClipboardText_accepts w text v :
  noText text = false ->
  JSON_parse text = Returned v ->
  acceptedByClipboard v = true ->
  processClipboardText text w
  = (Returned tt,
     {| state := takenIn v detectedStatus (Some ""%string) (state w);
        console := console w; emitted := emitted w; randomDraws := randomDraws w |}).
Proof.
  intros Hnt Hparse Hacc.
  destruct (acceptedByClipboard_parts v Hacc) as (Hv & _ & Hia).
  unfold processClipboardText. rewrite Hnt. unfold tryCatch.
  erewrite bind_step by (apply call_returned; exact Hparse).
  erewrite bind_step by apply isComponentData_eq. rewrite Hacc.
  do 4 (erewrite bind_step by reflexivity).
  rewrite (showOriginalImage_eq v _ Hv Hia). reflexivity.
Qed.

(** X1. The clipboard intake decides on truthiness.  For a text that is
    not blank and parses to [v], the intake returns and sends nothing to
    the controller; if [v], its [version], its [imageAnalysis] and one of
    that object's [colors], [typography], [components] are all truthy,
    [v] is stored, the method becomes [json], the error becomes the empty
    string and the preview follows [originalImage]; in every other case
    only the error cell moves. *)
Theorem clipboard_intake_decides_on_truthiness w text v :
  noText text = false ->
  JSON_parse text = Returned v ->
  exists w',
    processClipboardText text w = (Returned tt, w') /\
    emitted w' = emitted w /\
    state w' =
      if acceptedByClipboard v
      then takenIn v detectedStatus (Some ""%string) (state w)
      else setError (Some "The clipboard data is not in the expected format"%string)
             (state w).
Proof.
  intros Hnt Hparse.
  destruct (acceptedByClipboard v) eqn:Hacc.
  - rewrite (processClipboardText_accepts w text v Hnt Hparse Hacc).
    eexists. split; [reflexivity|]. split; reflexivity.
  - unfold processClipboardText. rewrite Hnt. unfold tryCatch.
    erewrite bind_step by (apply call_returned; exact Hparse).
    erewrite bind_step by apply isComponentData_eq. rewrite Hacc.
    cbn. eexists. split; [reflexivity|]. split; reflexivity.
Qed.

(** X2. The file import decides on [version] and [imageAnalysis] alone.
    For a file whose text is not empty and parses to [v], the import
    returns and sends nothing to the controller; if [v.version] and
    [v.imageAnalysis] are truthy, [v] is stored, the method becomes
    [json] and the preview follows [originalImage], while the error cell
    keeps whatever it held; otherwise only the error cell moves, to a
    non-empty message. *)
Theorem file_import_decides_on_two_fields w file text v :
  asText file = Some text ->
  text <> ""%string ->
  JSON_parse text = Returned v ->
  exists w',
    handleJsonFileImport file w = (Returned tt, w') /\
    emitted w' = emitted w /\
    if acceptedByFile v
    then state w' = takenIn v loadedStatus (error (state w)) (state w)
    else exists msg, msg <> ""%string /\ state w' = setError (Some msg) (state w).
Proof.
  intros Hfile Hne Hparse. unfold handleJsonFileImport. rewrite Hfile.
  unfold onJsonFileLoaded. destruct (String.eqb_spec text ""); [contradiction|].
  cbn [negb]. unfold tryCatch.
  erewrite bind_step by (apply call_returned; exact Hparse).
  destruct (notNullish v) eqn:Hv.
  - erewrite bind_step by (apply call_returned, member_notNullish, Hv).
    unfold acceptedByFile.
    destruct (truthy (field v "version")) eqn:Hver; cbn [andb].
    + erewrite (bind_step (bind _ _))
        by (erewrite bind_step by (apply call_returned, member_notNullish, Hv);
            reflexivity).
      destruct (truthy (field v "imageAnalysis")) eqn:Hia.
      * do 3 (erewrite bind_step by reflexivity).
        rewrite (showOriginalImage_eq v _ Hv Hia). cbn.
        eexists. split; [reflexivity|]. split; reflexivity.
      * cbn. eexists. split; [reflexivity|]. split; [reflexivity|].
        eexists. split; [|reflexivity]. discriminate.
    + erewrite bind_step by reflexivity. cbn.
      eexists. split; [reflexivity|]. split; [reflexivity|].
      eexists. split; [|reflexivity]. discriminate.
  - destruct (member_nullish v "version" Hv) as [e He].
    erewrite bind_thrown by (apply call_thrown; exact He). cbn.
    assert (Hrej : acceptedByFile v = false).
    { unfold acceptedByFile. now rewrite (field_nullish v "version" Hv). }
    rewrite Hrej. eexists. split; [reflexivity|]. split; [reflexivity|].
    eexists. split; [|reflexivity]. cbn. discriminate.
Qed.

Lemma noText_nonempty text : noText text = false -> text <> ""%string.
Proof. intros H ->. discriminate H. Qed.

(** X3. What the clipboard intake accepts, the file import accepts too.
    A text that the clipboard intake takes in as component data is taken
    in by the file import as well when it arrives as the content of a
    [.json] file, and both store the same payload under method [json]. *)
Theorem clipboard_acceptance_implies_file_acceptance w w0 file text v :
  noText text = false ->
  asText file = Some text ->
  JSON_parse text = Returned v ->
  acceptedByClipboard v = true ->
  exists w1 w2,
    processClipboardText text w = (Returned tt, w1) /\
    handleJsonFileImport file w0 = (Returned tt, w2) /\
    importedJsonData (state w1) = v /\ importMethod (state w1) = json /\
    importedJsonData (state w2) = v /\ importMethod (state w2) = json.
Proof.
  intros Hnt Hfile Hparse Hacc.
  destruct (acceptedByClipboard_parts v Hacc) as (Hv & Hver & Hia).
  eexists _, _. split; [|split].
  - apply (processClipboardText_accepts w text v Hnt Hparse Hacc).
  - unfold handleJsonFileImport. rewrite Hfile. unfold onJsonFileLoaded.
    destruct (String.eqb_spec text "") as [Heq|_];
      [exfalso; exact (noText_nonempty text Hnt Heq)|].
    cbn [negb]. unfold tryCatch.
    erewrite bind_step by (apply call_returned; exact Hparse).
    erewrite bind_step by (apply call_returned, member_notNullish, Hv).
    rewrite Hver.
    erewrite (bind_step (bind _ _))
      by (erewrite bind_step by (apply call_returned, member_notNullish, Hv);
          reflexivity).
    rewrite Hia. do 3 (erewrite bind_step by reflexivity).
    rewrite (showOriginalImage_eq v _ Hv Hia). reflexivity.
  - cbn. repeat split.
Qed.

Lemma trimEnd_empty s : trimEnd s = ""%string <-> whitespaceOnly s = true.
Proof.
  unfold whitespaceOnly. induction s as [|c s IH]; cbn; [tauto|].
  destruct (trimEnd s) eqn:Ht.
  - destruct (is_ws c); cbn.
    + split; [intros _; now apply IH|reflexivity].
    + split; discriminate.
  - destruct (is_ws c); cbn; (split; [discriminate|]).
    + intros H. apply IH in H. discriminate.
    + discriminate.
Qed.

Lemma trimStart_whitespaceOnly s : whitespaceOnly (trimStart s) = whitespaceOnly s.
Proof.
  unfold whitespaceOnly. induction s as [|c s IH]; cbn; [reflexivity|].
  destruct (is_ws c) eqn:Hc; cbn; [exact IH|]. now rewrite Hc.
Qed.

Lemma noText_whitespaceOnly text : noText text = whitespaceOnly text.
Proof.
  unfold noText. destruct (String.eqb_spec text "") as [->|Hne]; [reflexivity|].
  cbn [orb]. unfold trim.
  destruct (whitespaceOnly text) eqn:Hw.
  - rewrite <- trimStart_whitespaceOnly in Hw. apply trimEnd_empty in Hw.
    rewrite Hw. reflexivity.
  - destruct (String.eqb_spec (trimEnd (trimStart text)) "") as [He|_]; [|reflexivity].
    apply trimEnd_empty in He. rewrite trimStart_whitespaceOnly in He. congruence.
Qed.

(** X4. Blank text never reaches the parser.  The guard of the clipboard
    intake fires exactly on the texts made of white space only (the empty
    text among them); on such a text, whatever [JSON.parse] would do, the
    intake sets [No data found in clipboard] and moves no other cell. *)
Theorem blank_text_is_no_data text :
  noText text = whitespaceOnly text /\
  forall w,
    whitespaceOnly text = true ->
    exists w',
      processClipboardText text w = (Returned tt, w') /\
      onlyErrorSet "No data found in clipboard" w w' /\
      console w' = console w.
Proof.
  split; [apply noText_whitespaceOnly|].
  intros w Hws. unfold processClipboardText.
  rewrite noText_whitespaceOnly, Hws.
  eexists. split; [reflexivity|]. split; [|reflexivity].
  apply setError_only; reflexivity.
Qed.

(** X5. How the file import fails.  A file that cannot be read sets
    [Error reading the JSON file.]; a file whose text does not parse sets
    [Error parsing JSON: ] followed by the parser's message; an empty file
    is ignored altogether, with no message and no change.  In the first
    two cases no other cell moves. *)
Theorem file_import_failures w file :
  match asText file with
  | None =>
      exists w', handleJsonFileImport file w = (Returned tt, w') /\
                 onlyErrorSet "Error reading the JSON file." w w'
  | Some text =>
      if (text =? "")%string
      then handleJsonFileImport file w = (Returned tt, w)
      else forall e, JSON_parse text = Thrown e ->
           exists w', handleJsonFileImport file w = (Returned tt, w') /\
                      onlyErrorSet ("Error parsing JSON: " ++ message e) w w'
  end.
Proof.
  unfold handleJsonFileImport. destruct (asText file) as [text|].
  - unfold onJsonFileLoaded, tryCatch. destruct (text =? "")%string; cbn [negb].
    + reflexivity.
    + intros e He. erewrite bind_thrown by (apply call_thrown; exact He). cbn.
      eexists. split; [reflexivity|]. apply setError_only; reflexivity.
  - eexists. split; [reflexivity|]. apply setError_only; reflexivity.
Qed.

(** *** What the intake leaves alone *)

Lemma intakeOnly_refl w : intakeOnly w w.
Proof. repeat split. Qed.

Lemma intakeOnly_trans a b c : intakeOnly a b -> intakeOnly b c -> intakeOnly a c.
Proof. unfold intakeOnly. intuition congruence. Qed.

Lemma keeps_ret {A} (a : A) : keepsToIntake (ret a).
Proof. intros w out w' H. inversion H. apply intakeOnly_refl. Qed.

Lemma keeps_call {A} (o : Outcome A) : keepsToIntake (call o).
Proof. intros w out w' H. inversion H. apply intakeOnly_refl. Qed.

Lemma keeps_log entry : keepsToIntake (log entry).
Proof. intros w out w' H. inversion H. repeat split. Qed.

Lemma keeps_bind {A B} (m : M World A) (k : A -> M World B) :
  keepsToIntake m -> (forall a, keepsToIntake (k a)) -> keepsToIntake (bind m k).
Proof.
  intros Hm Hk w out w' H. unfold bind in H.
  destruct (m w) as [[a|e] w1] eqn:Hmw.
  - eapply intakeOnly_trans; [eapply Hm; eauto|eapply Hk; eauto].
  - inversion H; subst. eapply Hm; eauto.
Qed.

Lemma keeps_tryCatch {A} (body : M World A) (handler : Exn -> M World A) :
  keepsToIntake body -> (forall e, keepsToIntake (handler e)) ->
  keepsToIntake (tryCatch body handler).
Proof.
  intros Hb Hh w out w' H. unfold tryCatch in H.
  destruct (body w) as [[a|e] w1] eqn:Hbw.
  - inversion H; subst. eapply Hb; eauto.
  - eapply intakeOnly_trans; [eapply Hb; eauto|eapply Hh; eauto].
Qed.

Lemma keeps_setStatusMessage v : keepsToIntake (update (setStatusMessage v)).
Proof. intros w out w' H. inversion H. repeat split. Qed.

Lemma keeps_setError v : keepsToIntake (update (setError v)).
Proof. intros w out w' H. inversion H. repeat split. Qed.

Lemma keeps_setImportedJsonData v : keepsToIntake (update (setImportedJsonData v)).
Proof. intros w out w' H. inversion H. repeat split. Qed.

Lemma keeps_setImportMethod v : keepsToIntake (update (setImportMethod v)).
Proof. intros w out w' H. inversion H. repeat split. Qed.

Lemma keeps_setImagePreview v : keepsToIntake (update (setImagePreview v)).
Proof. intros w out w' H. inversion H. repeat split. Qed.

Ltac keeps_steps :=
  repeat first
    [ apply keeps_ret | apply keeps_call | apply keeps_log
    | apply keeps_setStatusMessage | apply keeps_setError
    | apply keeps_setImportedJsonData | apply keeps_setImportMethod
    | apply keeps_setImagePreview
    | apply keeps_bind; [|intros ?]
    | apply keeps_tryCatch; [|intros ?]
    | match goal with |- keepsToIntake (if ?b then _ else _) => destruct b end ].

Lemma keeps_showOriginalImage v : keepsToIntake (showOriginalImage v).
Proof. unfold showOriginalImage. keeps_steps. Qed.

Lemma keeps_isComponentData v : keepsToIntake (isComponentData v).
Proof. unfold isComponentData. keeps_steps. Qed.

Lemma keeps_processClipboardText text : keepsToIntake (processClipboardText text).
Proof.
  unfold processClipboardText. keeps_steps;
    auto using keeps_showOriginalImage, keeps_isComponentData.
Qed.

Lemma keeps_handleJsonFileImport file : keepsToIntake (handleJsonFileImport file).
Proof.
  unfold handleJsonFileImport. destruct (asText file); [|keeps_steps].
  unfold onJsonFileLoaded. keeps_steps; auto using keeps_showOriginalImage.
Qed.

Lemma processClipboardText_returns text w :
  exists w', processClipboardText text w = (Returned tt, w').
Proof.
  unfold processClipboardText. destruct (noText text); [eexists; reflexivity|].
  unfold tryCatch.
  match goal with |- context [match ?b w with _ => _ end] => destruct (b w) as [[[]|e] w1] end;
    eexists; reflexivity.
Qed.

Lemma handleJsonFileImport_returns file w :
  exists w', handleJsonFileImport file w = (Returned tt, w').
Proof.
  unfold handleJsonFileImport. destruct (asText file); [|eexists; reflexivity].
  unfold onJsonFileLoaded, tryCatch.
  match goal with |- context [match ?b w with _ => _ end] => destruct (b w) as [[[]|e] w1] end;
    eexists; reflexivity.
Qed.

(** X6. The intake keeps to itself.  Whatever the text or the file and
    whatever the parser does, the clipboard intake, the paste button and
    the file import return without throwing, send nothing to the
    controller and leave the API key, the chosen image, the processing
    flag and the active tab as they were. *)
Theorem intake_keeps_to_itself w text file :
  (exists w', processClipboardText text w = (Returned tt, w') /\ intakeOnly w w') /\
  (exists w', processPastedData text w = (Returned tt, w') /\ intakeOnly w w') /\
  (exists w', handleJsonFileImport file w = (Returned tt, w') /\ intakeOnly w w').
Proof.
  split; [|split].
  - destruct (processClipboardText_returns text w) as [w' H].
    exists w'. split; [exact H|]. eapply keeps_processClipboardText; eauto.
  - unfold processPastedData. destruct (text =? "")%string; cbn [negb].
    + eexists. split; [reflexivity|]. repeat split.
    + destruct (processClipboardText_returns text w) as [w' H].
      exists w'. split; [exact H|]. eapply keeps_processClipboardText; eauto.
  - destruct (handleJsonFileImport_returns file w) as [w' H].
    exists w'. split; [exact H|]. eapply keeps_handleJsonFileImport; eauto.
Qed.

End IntakeProofs.

Section RunProofs.
Import Panel Browser.
Context {NUM : JsNumber} {SVC : Services}.

Lemma enrich_returns analysisResult w :
  exists w', enrich analysisResult w = (Returned tt, w') /\
             state w' = state w /\ emitted w' = emitted w /\
             randomDraws w' = randomDraws w.
Proof.
  unfold enrich, tryCatch, bind, call.
  destruct (findSimilarComponents analysisResult); eexists; (split; [reflexivity|]); auto.
Qed.

Lemma guards_open (w : World) (k : M World unit) :
  ready (state w) = true ->
  (match importMethod (state w), isSome (imageFile (state w)),
         truthy (importedJsonData (state w)) with
   | image, false, _ => update (setError (Some "Please select an image first."))
   | json, _, false => update (setError (Some "Please import a JSON file first."))
   | _, _, _ => k
   end) = k.
Proof.
  unfold ready. intros Hready.
  destruct (importMethod (state w)); rewrite Hready; [reflexivity|].
  destruct (isSome (imageFile (state w))); reflexivity.
Qed.

Lemma guards_shut (w : World) (k : M World unit) :
  ready (state w) = false ->
  exists msg,
    msg <> "" /\
    (match importMethod (state w), isSome (imageFile (state w)),
           truthy (importedJsonData (state w)) with
     | image, false, _ => update (setError (Some "Please select an image first."))
     | json, _, false => update (setError (Some "Please import a JSON file first."))
     | _, _, _ => k
     end) = update (setError (Some msg)).
Proof.
  unfold ready. intros Hready.
  destruct (importMethod (state w)); rewrite Hready.
  - eexists. split; [|reflexivity]. discriminate.
  - destruct (isSome (imageFile (state w))); (eexists; split; [|reflexivity]); discriminate.
Qed.

(** The run of [analyzeImage] once its guards are passed, by the outcome
    of the primary analysis. *)
Lemma analyzeImage_run w :
  ready (state w) = true ->
  exists w',
    analyzeImage w = (Returned tt, w') /\
    isProcessing (state w') = false /\
    match primaryAnalysis (state w) (started w) with
    | (Returned analysisResult, w1) =>
        emitted w' = emitted w ++ [EmitImageAnalysisComplete analysisResult] /\
        error (state w') = None /\
        statusMessage (state w') = "Image analyzed successfully!" /\
        randomDraws w' = randomDraws w1
    | (Thrown err, w1) =>
        emitted w' = emitted w /\
        error (state w') = Some ("Error analyzing image: " ++ message err)%string /\
        statusMessage (state w') = statusMessage (state w) /\
        randomDraws w' = randomDraws w1
    end.
Proof.
  intros Hready.
  unfold analyzeImage. erewrite bind_step by reflexivity.
  rewrite guards_open by exact Hready.
  erewrite bind_step by reflexivity. erewrite bind_step by reflexivity.
  unfold tryFinally, tryCatch.
  change {| state := setError None (state {| state := setIsProcessing true (state w);
                                             console := console w; emitted := emitted w;
                                             randomDraws := randomDraws w |});
            console := _; emitted := _; randomDraws := _ |} with (started w).
  destruct (primaryAnalysis (state w) (started w)) as [[r|e] w1] eqn:Hprimary;
    destruct (quiet_primaryAnalysis _ _ _ _ Hprimary) as (Hs & Hc & He).
  - erewrite bind_step by exact Hprimary.
    destruct (enrich_returns r w1) as (w2 & Hen & Hs2 & He2 & Hd2).
    erewrite bind_step by exact Hen.
    cbn. eexists. split; [reflexivity|]. cbn. rewrite Hs2, Hs, He2, He, Hd2. cbn. repeat split.
  - erewrite bind_thrown by exact Hprimary.
    cbn. eexists. split; [reflexivity|]. cbn. rewrite Hs, He. cbn. repeat split.
Qed.

(** X7. What a run of [analyzeImage] comes to.  It never throws.  With
    its guards shut it only sets an error.  With its guards open it ends
    with the processing flag cleared, and it sends
    [IMAGE_ANALYSIS_COMPLETE] -- once, carrying the result -- exactly
    when the primary analysis returns, whatever the enrichment does;
    when the primary analysis throws, nothing is sent, the error cell
    reads [Error analyzing image: ] followed by the message, and the
    status message stays. *)
Theorem analysis_run_outcomes w :
  exists w',
    analyzeImage w = (Returned tt, w') /\
    if ready (state w) then
      isProcessing (state w') = false /\
      match primaryAnalysis (state w) (started w) with
      | (Returned analysisResult, _) =>
          emitted w' = emitted w ++ [EmitImageAnalysisComplete analysisResult] /\
          error (state w') = None /\
          statusMessage (state w') = "Image analyzed successfully!"
      | (Thrown err, _) =>
          emitted w' = emitted w /\
          error (state w') = Some ("Error analyzing image: " ++ message err)%string /\
          statusMessage (state w') = statusMessage (state w)
      end
    else
      emitted w' = emitted w /\
      exists msg, msg <> "" /\ state w' = setError (Some msg) (state w).
Proof.
  destruct (ready (state w)) eqn:Hready.
  - destruct (analyzeImage_run w Hready) as (w' & Hrun & Hflag & Hout).
    exists w'. split; [exact Hrun|]. split; [exact Hflag|].
    destruct (primaryAnalysis (state w) (started w)) as [[r|e] w1]. all: tauto.
  - unfold analyzeImage. erewrite bind_step by reflexivity.
    destruct (guards_shut w
      (update (setIsProcessing true) ;;
       update (setError None) ;;
       tryFinally
         (tryCatch
            (analysisResult <- primaryAnalysis (state w) ;;
             enrich analysisResult ;;
             emit (EmitImageAnalysisComplete analysisResult) ;;
             update (setStatusMessage "Image analyzed successfully!"))
            (fun err =>
               update (setError (Some ("Error analyzing image: " ++ message err)%string))))
         (update (setIsProcessing false)))%js Hready) as (msg & Hmsg & ->).
    eexists. split; [reflexivity|]. split; [reflexivity|]. exists msg. split; [exact Hmsg|reflexivity].
Qed.

End RunProofs.

Section RemapProofs.
Import Panel Browser.
Context {NUM : JsNumber} {SVC : Services}.

Lemma mapItems_all (f : jsval -> M World jsval) (P : jsval -> jsval -> Prop)
    (cost : jsval -> nat) items :
  (forall v w, notNullish v = true ->
     exists out w', f v w = (Returned out, w') /\ P v out /\
                    randomDraws w' = randomDraws w + cost v) ->
  forallb notNullish items = true ->
  forall w,
  exists outs w',
    mapItems f items w = (Returned outs, w') /\ Forall2 P items outs /\
    randomDraws w' = randomDraws w + list_sum (map cost items).
Proof.
  intros Hf. induction items as [|x rest IH]; cbn [mapItems forallb map list_sum]; intros Hall w.
  - exists [], w. split; [reflexivity|]. split; [constructor|cbn; lia].
  - apply andb_true_iff in Hall as [Hx Hrest].
    destruct (Hf x w Hx) as (y & w1 & Hy & HP & Hd1).
    destruct (IH Hrest w1) as (ys & w2 & Hys & HPs & Hd2).
    exists (y :: ys), w2.
    erewrite bind_step by exact Hy. erewrite bind_step by exact Hys.
    split; [reflexivity|]. split; [constructor; assumption|].
    rewrite Hd2, Hd1. unfold list_sum. cbn [fold_right]. lia.
Qed.

Lemma mapItems_some_null (f : jsval -> M World jsval) items :
  (forall v w, notNullish v = true -> exists out w', f v w = (Returned out, w')) ->
  (forall v w, notNullish v = false -> exists e w', f v w = (Thrown e, w')) ->
  forallb notNullish items = false ->
  forall w, exists e w', mapItems f items w = (Thrown e, w').
Proof.
  intros Hok Hko. induction items as [|x rest IH]; cbn [mapItems forallb]; intros Hall w.
  - discriminate.
  - destruct (notNullish x) eqn:Hx; cbn [andb] in Hall.
    + destruct (Hok x w Hx) as (y & w1 & Hy).
      destruct (IH Hall w1) as (e & w2 & He).
      exists e, w2. erewrite bind_step by exact Hy.
      erewrite bind_thrown by exact He. reflexivity.
    + destruct (Hko x w Hx) as (e & w1 & He).
      exists e, w1. erewrite bind_thrown by exact He. reflexivity.
Qed.

Lemma remapColor_item v w :
  notNullish v = true -> exists out, remapColor v w = (Returned out, w).
Proof.
  intros Hv. unfold remapColor.
  repeat erewrite bind_step by (apply call_returned, member_notNullish, Hv).
  eexists. reflexivity.
Qed.

Lemma remapText_item v w :
  notNullish v = true -> exists out, remapText v w = (Returned out, w).
Proof.
  intros Hv. unfold remapText.
  repeat erewrite bind_step by (apply call_returned, member_notNullish, Hv).
  eexists. reflexivity.
Qed.

Lemma remapComponent_item v w :
  notNullish v = true ->
  exists out w',
    remapComponent v w = (Returned out, w') /\ complete out = true /\
    randomDraws w' = randomDraws w + drawsFor v.
Proof.
  intros Hv. unfold remapComponent, drawsFor, complete.
  erewrite bind_step by (apply call_returned, member_notNullish, Hv).
  destruct (truthy (field v "id")) eqn:Hid.
  - erewrite bind_step by reflexivity.
    repeat erewrite bind_step by (apply call_returned, member_notNullish, Hv).
    eexists _, w. split; [reflexivity|]. split; [|lia].
    cbn. rewrite Hid. unfold js_or.
    destruct (truthy (field v "type")) eqn:Hty; [exact Hty|reflexivity].
  - erewrite bind_step by reflexivity.
    repeat erewrite bind_step by (apply call_returned, member_notNullish, Hv).
    eexists _, _. split; [reflexivity|]. split; [|cbn; lia].
    cbn. unfold js_or.
    destruct (truthy (field v "type")) eqn:Hty; [exact Hty|reflexivity].
Qed.

Lemma remapColor_null v w :
  notNullish v = false -> exists e w', remapColor v w = (Thrown e, w').
Proof.
  intros Hv. destruct (member_nullish v "name" Hv) as [e He].
  exists e, w. unfold remapColor.
  erewrite bind_thrown by (apply call_thrown, He). reflexivity.
Qed.

Lemma remapText_null v w :
  notNullish v = false -> exists e w', remapText v w = (Thrown e, w').
Proof.
  intros Hv. destruct (member_nullish v "text" Hv) as [e He].
  exists e, w. unfold remapText.
  erewrite bind_thrown by (apply call_thrown, He). reflexivity.
Qed.

Lemma remapComponent_null v w :
  notNullish v = false -> exists e w', remapComponent v w = (Thrown e, w').
Proof.
  intros Hv. destruct (member_nullish v "id" Hv) as [e He].
  exists e, w. unfold remapComponent.
  erewrite bind_thrown by (apply call_thrown, He). reflexivity.
Qed.

Lemma arrayMap_array owner key items f w :
  arrayMap owner key (VArr items) f w
  = bind (mapItems f items) (fun ys => ret (VArr ys)) w.
Proof. reflexivity. Qed.

Lemma arrayMap_no_array owner key xs f w :
  asArray xs = None -> exists e, arrayMap owner key xs f w = (Thrown e, w).
Proof. destruct xs; cbn; try discriminate; intros _; eexists; reflexivity. Qed.

Lemma asArray_some xs items : asArray xs = Some items -> xs = VArr items.
Proof. destruct xs; cbn; congruence. Qed.

Lemma Forall2_complete (ks outs : list jsval) :
  Forall2 (fun _ out => complete out = true) ks outs -> forallb complete outs = true.
Proof. induction 1; cbn; [reflexivity|]. now rewrite H, IHForall2. Qed.

(** The remapping on data it can work on. *)
Lemma remapImported_returns imported w :
  remappable imported = true ->
  exists out w',
    remapImported imported w = (Returned out, w') /\
    List.length (itemsOf "colors" out)
      = List.length (itemsOf "colors" (field imported "imageAnalysis")) /\
    List.length (itemsOf "typography" out)
      = List.length (itemsOf "typography" (field imported "imageAnalysis")) /\
    List.length (itemsOf "components" out)
      = List.length (itemsOf "components" (field imported "imageAnalysis")) /\
    forallb complete (itemsOf "components" out) = true /\
    randomDraws w'
      = randomDraws w + identifiersDrawn (itemsOf "components" (field imported "imageAnalysis")).
Proof.
  unfold remappable, itemsOf. intros H. apply andb_true_iff in H as [Hv H].
  set (ia := field imported "imageAnalysis") in *.
  destruct (asArray (field ia "colors")) as [cs|] eqn:Hcs; [|discriminate].
  destruct (asArray (field ia "typography")) as [ts|] eqn:Hts; [|discriminate].
  destruct (asArray (field ia "components")) as [ks|] eqn:Hks; [|discriminate].
  apply andb_true_iff in H as [H Hk]. apply andb_true_iff in H as [Hc Ht].
  assert (Hia : notNullish ia = true).
  { destruct (notNullish ia) eqn:E; [reflexivity|].
    rewrite (field_nullish ia "colors" E) in Hcs. discriminate. }
  apply asArray_some in Hcs, Hts, Hks.
  destruct (mapItems_all remapColor (fun _ _ => True) (fun _ => 0) cs) with (w := w)
    as (cs' & w1 & Hrun1 & Hall1 & Hd1); [|exact Hc|].
  { intros v w0 Hv0. destruct (remapColor_item v w0 Hv0) as [out Hout].
    exists out, w0. split; [exact Hout|]. split; [exact I|lia]. }
  destruct (mapItems_all remapText (fun _ _ => True) (fun _ => 0) ts) with (w := w1)
    as (ts' & w2 & Hrun2 & Hall2 & Hd2); [|exact Ht|].
  { intros v w0 Hv0. destruct (remapText_item v w0 Hv0) as [out Hout].
    exists out, w0. split; [exact Hout|]. split; [exact I|lia]. }
  destruct (mapItems_all remapComponent (fun _ out => complete out = true) drawsFor ks)
    with (w := w2) as (ks' & w3 & Hrun3 & Hall3 & Hd3); [|exact Hk|].
  { intros v w0 Hv0. apply remapComponent_item, Hv0. }
  exists (VObj [("colors", VArr cs'); ("typography", VArr ts'); ("components", VArr ks')]), w3.
  split.
  - unfold remapImported.
    erewrite bind_step by (apply call_returned, member_notNullish, Hv). fold ia.
    erewrite bind_step by (apply call_returned, member_notNullish, Hia). rewrite Hcs.
    erewrite bind_step by (rewrite arrayMap_array; erewrite bind_step by exact Hrun1; reflexivity).
    erewrite bind_step by (apply call_returned, member_notNullish, Hia). rewrite Hts.
    erewrite bind_step by (rewrite arrayMap_array; erewrite bind_step by exact Hrun2; reflexivity).
    erewrite bind_step by (apply call_returned, member_notNullish, Hia). rewrite Hks.
    erewrite bind_step by (rewrite arrayMap_array; erewrite bind_step by exact Hrun3; reflexivity).
    reflexivity.
  - cbn. apply Forall2_length in Hall1 as L1. apply Forall2_length in Hall2 as L2.
    apply Forall2_length in Hall3 as L3.
    repeat split; try congruence.
    + now apply Forall2_complete in Hall3.
    + unfold identifiersDrawn. rewrite Hd3, Hd2, Hd1.
      assert (Z : forall l : list jsval, list_sum (map (fun _ => 0) l) = 0)
        by (induction l; cbn; auto).
      rewrite !Z. lia.
Qed.

(** The remapping on data it cannot work on. *)
Lemma remapImported_throws imported w :
  remappable imported = false ->
  exists e w', remapImported imported w = (Thrown e, w').
Proof.
  unfold remappable. intros H. unfold remapImported.
  destruct (notNullish imported) eqn:Hv; cbn [andb] in H.
  2:{ destruct (member_nullish imported "imageAnalysis" Hv) as [e He].
      exists e, w. erewrite bind_thrown by (apply call_thrown, He). reflexivity. }
  erewrite bind_step by (apply call_returned, member_notNullish, Hv).
  set (ia := field imported "imageAnalysis") in *.
  destruct (notNullish ia) eqn:Hia.
  2:{ destruct (member_nullish ia "colors" Hia) as [e He].
      exists e, w. erewrite bind_thrown by (apply call_thrown, He). reflexivity. }
  erewrite bind_step by (apply call_returned, member_notNullish, Hia).
  destruct (asArray (field ia "colors")) as [cs|] eqn:Hcs.
  2:{ destruct (arrayMap_no_array "jsonData" "colors" _ remapColor w Hcs) as [e He].
      exists e, w. erewrite bind_thrown by exact He. reflexivity. }
  apply asArray_some in Hcs. rewrite Hcs.
  destruct (forallb notNullish cs) eqn:Hc.
  2:{ destruct (mapItems_some_null remapColor cs) with (w := w) as (e & w1 & He);
        [intros v w0 Hv0; destruct (remapColor_item v w0 Hv0); eauto
        |apply remapColor_null|exact Hc|].
      exists e, w1.
      erewrite bind_thrown
        by (rewrite arrayMap_array; erewrite bind_thrown by exact He; reflexivity).
      reflexivity. }
  destruct (mapItems_all remapColor (fun _ _ => True) (fun _ => 0) cs) with (w := w)
    as (cs' & w1 & Hrun1 & _); [|exact Hc|].
  { intros v w0 Hv0. destruct (remapColor_item v w0 Hv0) as [out Hout].
    exists out, w0. split; [exact Hout|]. split; [exact I|lia]. }
  erewrite bind_step by (rewrite arrayMap_array; erewrite bind_step by exact Hrun1; reflexivity).
  erewrite bind_step by (apply call_returned, member_notNullish, Hia).
  destruct (asArray (field ia "typography")) as [ts|] eqn:Hts.
  2:{ destruct (arrayMap_no_array "jsonData" "typography" _ remapText w1 Hts) as [e He].
      exists e, w1. erewrite bind_thrown by exact He. reflexivity. }
  apply asArray_some in Hts. rewrite Hts.
  destruct (forallb notNullish ts) eqn:Ht.
  2:{ destruct (mapItems_some_null remapText ts) with (w := w1) as (e & w2 & He);
        [intros v w0 Hv0; destruct (remapText_item v w0 Hv0); eauto
        |apply remapText_null|exact Ht|].
      exists e, w2.
      erewrite bind_thrown
        by (rewrite arrayMap_array; erewrite bind_thrown by exact He; reflexivity).
      reflexivity. }
  destruct (mapItems_all remapText (fun _ _ => True) (fun _ => 0) ts) with (w := w1)
    as (ts' & w2 & Hrun2 & _); [|exact Ht|].
  { intros v w0 Hv0. destruct (remapText_item v w0 Hv0) as [out Hout].
    exists out, w0. split; [exact Hout|]. split; [exact I|lia]. }
  erewrite bind_step by (rewrite arrayMap_array; erewrite bind_step by exact Hrun2; reflexivity).
  erewrite bind_step by (apply call_returned, member_notNullish, Hia).
  destruct (asArray (field ia "components")) as [ks|] eqn:Hks.
  2:{ destruct (arrayMap_no_array "jsonData" "components" _ remapComponent w2 Hks) as [e He].
      exists e, w2. erewrite bind_thrown by exact He. reflexivity. }
  apply asArray_some in Hks. rewrite Hks.
  cbn [andb] in H.
  destruct (mapItems_some_null remapComponent ks) with (w := w2) as (e & w3 & He);
    [intros v w0 Hv0; destruct (remapComponent_item v w0 Hv0) as (? & ? & ? & _); eauto
    |apply remapComponent_null|exact H|].
  exists e, w3.
  erewrite bind_thrown
    by (rewrite arrayMap_array; erewrite bind_thrown by exact He; reflexivity).
  reflexivity.
Qed.

(** X8. The remapping of imported data returns exactly when the data's
    [imageAnalysis] holds [colors], [typography] and [components] as
    arrays none of whose elements is [null] or [undefined]; on any other
    data it throws.  Either way it writes to no cell, to no console and
    sends nothing. *)
Theorem remap_returns_exactly_on_three_arrays imported w :
  match remapImported imported w with
  | (Returned _, w') => remappable imported = true /\ sameButDraws w w'
  | (Thrown _, w') => remappable imported = false /\ sameButDraws w w'
  end.
Proof.
  assert (Hq : quiet (remapImported imported)).
  { apply (quiet_primaryAnalysis
             (setImportMethod json (setImportedJsonData imported (initialState "")))). }
  destruct (remappable imported) eqn:Hr.
  - destruct (remapImported_returns imported w Hr) as (out & w' & Hrun & _).
    rewrite Hrun. split; [reflexivity|]. eapply Hq, Hrun.
  - destruct (remapImported_throws imported w Hr) as (e & w' & Hrun).
    rewrite Hrun. split; [reflexivity|]. eapply Hq, Hrun.
Qed.

(** X9. What the remapping returns.  On data it can work on, the result
    has as many colours, text entries and components as the imported
    [imageAnalysis]; every component of the result has a truthy [id] and
    a truthy [type]; one random identifier was drawn for each imported
    component whose [id] was falsy, none otherwise; and nothing else of
    the panel moved. *)
Theorem remap_keeps_sizes_and_completes_components imported w :
  remappable imported = true ->
  exists out w',
    remapImported imported w = (Returned out, w') /\
    List.length (itemsOf "colors" out)
      = List.length (itemsOf "colors" (field imported "imageAnalysis")) /\
    List.length (itemsOf "typography" out)
      = List.length (itemsOf "typography" (field imported "imageAnalysis")) /\
    List.length (itemsOf "components" out)
      = List.length (itemsOf "components" (field imported "imageAnalysis")) /\
    forallb complete (itemsOf "components" out) = true /\
    randomDraws w'
      = randomDraws w + identifiersDrawn (itemsOf "components" (field imported "imageAnalysis")) /\
    sameButDraws w w'.
Proof.
  intros Hr.
  destruct (remapImported_returns imported w Hr) as (out & w' & Hrun & Hc & Ht & Hk & Hids & Hd).
  exists out, w'. repeat (split; [assumption|]).
  apply (quiet_primaryAnalysis
           (setImportMethod json (setImportedJsonData imported (initialState "")))
           _ _ _ Hrun).
Qed.

End RemapProofs.

Section EndToEndProofs.
Import Panel Browser.
Context {NUM : JsNumber} {SVC : Services}.

Lemma handleCreateComponents_json w :
  importMethod (state w) = json -> truthy (importedJsonData (state w)) = true ->
  handleCreateComponents w = analyzeImage w /\ ready (state w) = true.
Proof.
  intros Hm Hd. unfold handleCreateComponents, ready.
  erewrite bind_step by reflexivity. rewrite Hm, Hd. split; reflexivity.
Qed.

(** X10. From the clipboard to the controller.  A text the clipboard
    intake accepts, followed by a press on [Create Components], reaches
    the controller exactly when the payload can be remapped: then one
    [IMAGE_ANALYSIS_COMPLETE] is sent, with as many colours, text entries
    and components as the payload, and no error shows; otherwise nothing
    is sent and the error cell reads [Error analyzing image: ...].  In
    both cases neither step throws and the processing flag ends
    cleared. *)
Theorem accepted_paste_is_sent_iff_remappable w text v :
  noText text = false ->
  JSON_parse text = Returned v ->
  acceptedByClipboard v = true ->
  exists w1 w2,
    processClipboardText text w = (Returned tt, w1) /\
    handleCreateComponents w1 = (Returned tt, w2) /\
    isProcessing (state w2) = false /\
    if remappable v then
      exists out,
        emitted w2 = emitted w ++ [EmitImageAnalysisComplete out] /\
        List.length (itemsOf "colors" out)
          = List.length (itemsOf "colors" (field v "imageAnalysis")) /\
        List.length (itemsOf "typography" out)
          = List.length (itemsOf "typography" (field v "imageAnalysis")) /\
        List.length (itemsOf "components" out)
          = List.length (itemsOf "components" (field v "imageAnalysis")) /\
        error (state w2) = None
    else
      emitted w2 = emitted w /\
      exists err,
        error (state w2) = Some ("Error analyzing image: " ++ message err)%string.
Proof.
  intros Hnt Hparse Hacc.
  assert (Hv : truthy v = true).
  { unfold acceptedByClipboard in Hacc. destruct (truthy v); [reflexivity|discriminate]. }
  pose proof (processClipboardText_accepts w text v Hnt Hparse Hacc) as Hpaste.
  match type of Hpaste with _ = (_, ?x) => set (w1 := x) in * end.
  destruct (handleCreateComponents_json w1) as [Hcreate Hready]; [reflexivity|exact Hv|].
  destruct (analyzeImage_run w1 Hready) as (w2 & Hrun & Hflag & Hout).
  rewrite <- Hcreate in Hrun.
  exists w1, w2. split; [exact Hpaste|]. split; [exact Hrun|]. split; [exact Hflag|].
  change (primaryAnalysis (state w1) (started w1)) with (remapImported v (started w1)) in Hout.
  destruct (remappable v) eqn:Hr.
  - destruct (remapImported_returns v (started w1) Hr)
      as (out & w' & Hremap & Hc & Ht & Hk & _).
    rewrite Hremap in Hout. destruct Hout as (Hem & Herr & _).
    exists out. repeat (split; [assumption|]). exact Herr.
  - destruct (remapImported_throws v (started w1) Hr) as (e & w' & Hremap).
    rewrite Hremap in Hout. destruct Hout as (Hem & Herr & _).
    split; [exact Hem|]. exists e. exact Herr.
Qed.

(** X11. External data is stored unchecked.  On an
    [EXTERNAL_DATA_RECEIVED] message the panel stores the message's
    [data] and switches to method [json] whatever the data is -- no test
    on [version] or [imageAnalysis] is made -- and neither clears nor
    sets the error cell; the listener throws exactly when the data is
    [null] or [undefined], after having stored it. *)
Theorem external_data_is_stored_unchecked w eventData :
  truthy (field eventData "pluginMessage") = true ->
  isString (field (field eventData "pluginMessage") "type") "EXTERNAL_DATA_RECEIVED" = true ->
  exists out w',
    handleExternalMessage eventData w = (out, w') /\
    importedJsonData (state w') = field (field eventData "pluginMessage") "data" /\
    importMethod (state w') = json /\
    error (state w') = error (state w) /\
    emitted w' = emitted w /\
    match out with
    | Returned _ => notNullish (field (field eventData "pluginMessage") "data") = true
    | Thrown _ => notNullish (field (field eventData "pluginMessage") "data") = false
    end.
Proof.
  intros Hpm Hty.
  assert (Hev : notNullish eventData = true).
  { destruct (notNullish eventData) eqn:E; [reflexivity|].
    rewrite (field_nullish eventData "pluginMessage" E) in Hpm. discriminate. }
  set (pm := field eventData "pluginMessage") in *.
  set (d := field pm "data").
  unfold handleExternalMessage.
  erewrite bind_step by (apply call_returned, member_notNullish, Hev). fold pm. rewrite Hpm.
  erewrite bind_step by (apply call_returned, member_field, Hpm). rewrite Hty.
  erewrite bind_step by reflexivity.
  erewrite bind_step by (apply call_returned, member_field, Hpm). fold d.
  do 3 (erewrite bind_step by reflexivity).
  destruct (notNullish d) eqn:Hd.
  - erewrite bind_step by (apply call_returned, member_notNullish, Hd).
    destruct (truthy (field d "imageAnalysis")) eqn:Hia.
    + erewrite bind_step by (apply call_returned, member_field, Hia).
      destruct (truthy (field (field d "imageAnalysis") "originalImage"));
        eexists _, _; (split; [reflexivity|]); cbn; repeat split.
    + eexists _, _. split; [reflexivity|]. cbn. repeat split.
  - destruct (member_nullish d "imageAnalysis" Hd) as [e He].
    erewrite bind_thrown by (apply call_thrown, He).
    eexists _, _. split; [reflexivity|]. cbn. repeat split.
Qed.

(** X12. A chosen image goes to the vision service.  Choosing a file
    whose name does not end in [.json] makes it the image, switches to
    method [image], clears the error and drops any imported data; the
    preview becomes the file's data URL when it can be read.  A press on
    [Create Components] then hands that data URL to the vision service
    and sends its answer to the controller; when the service throws, or
    the file cannot be read, nothing is sent and the error cell says
    so. *)
Theorem chosen_image_goes_to_the_vision_service w file others :
  endsWith (toLowerCase (fileName file)) ".json" = false ->
  exists w1 w2,
    handleFileChange (file :: others) w = (Returned tt, w1) /\
    imageFile (state w1) = Some file /\
    importMethod (state w1) = image /\
    importedJsonData (state w1) = VNull /\
    error (state w1) = None /\
    imagePreview (state w1)
      = match asDataURL file with
        | Some url => Some url
        | None => imagePreview (state w)
        end /\
    handleCreateComponents w1 = (Returned tt, w2) /\
    isProcessing (state w2) = false /\
    match asDataURL file with
    | Some url =>
        match visionAnalyzeImage url with
        | Returned analysisResult =>
            emitted w2 = emitted w ++ [EmitImageAnalysisComplete analysisResult] /\
            error (state w2) = None
        | Thrown err =>
            emitted w2 = emitted w /\
            error (state w2) = Some ("Error analyzing image: " ++ message err)%string
        end
    | None =>
        emitted w2 = emitted w /\
        error (state w2) = Some "Error analyzing image: undefined"%string
    end.
Proof.
  intros Hname.
  destruct (handleFileChange (file :: others) w) as [out w1] eqn:Hchange.
  assert (Hw1 : out = Returned tt /\
    w1 = {| state :=
              (match asDataURL file with
               | Some url => setImagePreview (Some url)
               | None => fun s => s
               end)
                (setImportedJsonData VNull
                   (setError None (setImportMethod image
                      (setImageFile (Some file) (state w)))));
            console := console w; emitted := emitted w;
            randomDraws := randomDraws w |}).
  { unfold handleFileChange in Hchange. rewrite Hname in Hchange.
    do 4 (erewrite bind_step in Hchange by reflexivity).
    destruct (asDataURL file); inversion Hchange; split; reflexivity. }
  destruct Hw1 as [-> Hw1].
  assert (Hready : ready (state w1) = true /\ handleCreateComponents w1 = analyzeImage w1).
  { subst w1. unfold ready, handleCreateComponents. erewrite bind_step by reflexivity.
    destruct (asDataURL file); split; reflexivity. }
  destruct Hready as [Hready Hcreate].
  destruct (analyzeImage_run w1 Hready) as (w2 & Hrun & Hflag & Hout).
  exists w1, w2. split; [reflexivity|].
  assert (Hprimary : primaryAnalysis (state w1) (started w1)
    = match asDataURL file with
      | Some url => (visionAnalyzeImage url, started w1)
      | None => (Thrown (Error "undefined"), started w1)
      end).
  { subst w1. unfold primaryAnalysis.
    destruct (asDataURL file) as [url|] eqn:Hurl;
      cbn [state importMethod imageFile setImagePreview setImportedJsonData setError
           setImportMethod setImageFile];
      unfold fileToBase64; rewrite Hurl; reflexivity. }
  rewrite Hprimary in Hout. rewrite Hcreate.
  assert (Hem : emitted w1 = emitted w) by (subst w1; reflexivity).
  rewrite Hem in Hout.
  repeat split; try (subst w1; destruct (asDataURL file); reflexivity);
    try assumption.
  destruct (asDataURL file) as [url|].
  - destruct (visionAnalyzeImage url); tauto.
  - cbn in Hout. tauto.
Qed.

End EndToEndProofs.

(** ** The panel in its browser window *)

Section SessionProofs.
Import Panel Browser.
Context {NUM : JsNumber} {SVC : Services}.

Lemma obj_get_set_same {V : Type} k (v : V) o : obj_get k (obj_set k v o) = Some v.
Proof.
  induction o as [|[k' v'] o IH]; cbn.
  - now rewrite String.eqb_refl.
  - destruct (String.eqb_spec k' k) as [->|Hne]; cbn.
    + now rewrite String.eqb_refl.
    + destruct (String.eqb_spec k' k); [contradiction|exact IH].
Qed.

Lemma lift_returned {A} (m : M World A) s a w' :
  m (world s) = (Returned a, w') ->
  lift m s = (Returned a,
              {| world := w'; clipboard := clipboard s; localStorage := localStorage s;
                 timeouts := timeouts s; manualPasteOptions := manualPasteOptions s;
                 warnings := warnings s |}).
Proof. intros H. unfold lift. now rewrite H. Qed.

(** Both clipboard handlers, by what the clipboard has to offer. *)
Lemma handlePasteFromClipboard_holds s text :
  clipboard s = Holds text ->
  exists w',
    processClipboardText text (snd (update (setStatusMessage "Reading from clipboard...")
                                      (world s)))
    = (Returned tt, w') /\
    handlePasteFromClipboard s
    = (Returned tt,
       {| world := w'; clipboard := clipboard s; localStorage := localStorage s;
          timeouts := timeouts s; manualPasteOptions := manualPasteOptions s;
          warnings := warnings s |}).
Proof.
  intros Hc.
  destruct (processClipboardText_returns text
              (snd (update (setStatusMessage "Reading from clipboard...") (world s))))
    as [w' Hrun].
  exists w'. split; [exact Hrun|].
  unfold handlePasteFromClipboard, tryCatch.
  erewrite bind_step by reflexivity. erewrite bind_step by reflexivity.
  cbn [clipboard]. rewrite Hc. cbn [clipboardApi].
  erewrite bind_step by reflexivity.
  erewrite lift_returned by exact Hrun. reflexivity.
Qed.

Lemma checkClipboardForComponentData_holds s text :
  clipboard s = Holds text ->
  exists w',
    processClipboardText text
      (snd (update (setStatusMessage "Checking clipboard for component data...") (world s)))
    = (Returned tt, w') /\
    checkClipboardForComponentData s
    = (Returned tt,
       {| world := w'; clipboard := clipboard s; localStorage := localStorage s;
          timeouts := timeouts s; manualPasteOptions := manualPasteOptions s;
          warnings := warnings s |}).
Proof.
  intros Hc.
  destruct (processClipboardText_returns text
              (snd (update (setStatusMessage "Checking clipboard for component data...")
                      (world s))))
    as [w' Hrun].
  exists w'. split; [exact Hrun|].
  unfold checkClipboardForComponentData, tryCatch.
  erewrite bind_step by reflexivity. erewrite bind_step by reflexivity.
  cbn [clipboard]. rewrite Hc. cbn [clipboardApi].
  erewrite bind_step by reflexivity.
  erewrite lift_returned by exact Hrun. reflexivity.
Qed.

(** X13. Reading the clipboard.  Neither the paste button nor the check
    made when the panel opens ever throws.  When the clipboard yields a
    text, both hand it to the clipboard intake and add no manual-paste
    field.  When the clipboard API is missing or the read is rejected,
    both set a non-empty error, add exactly one manual-paste field, send
    nothing to the controller and leave the imported data and the import
    method alone. *)
Theorem clipboard_read_outcomes s :
  exists s1 s2,
    handlePasteFromClipboard s = (Returned tt, s1) /\
    checkClipboardForComponentData s = (Returned tt, s2) /\
    match clipboard s with
    | Holds text =>
        processClipboardText text
          (snd (update (setStatusMessage "Reading from clipboard...") (world s)))
        = (Returned tt, world s1) /\
        processClipboardText text
          (snd (update (setStatusMessage "Checking clipboard for component data...")
                  (world s)))
        = (Returned tt, world s2) /\
        manualPasteOptions s1 = manualPasteOptions s /\
        manualPasteOptions s2 = manualPasteOptions s
    | _ =>
        (exists msg, msg <> ""%string /\ error (state (world s1)) = Some msg) /\
        (exists msg, msg <> ""%string /\ error (state (world s2)) = Some msg) /\
        manualPasteOptions s1 = S (manualPasteOptions s) /\
        manualPasteOptions s2 = S (manualPasteOptions s) /\
        importedJsonData (state (world s1)) = importedJsonData (state (world s)) /\
        importedJsonData (state (world s2)) = importedJsonData (state (world s)) /\
        importMethod (state (world s1)) = importMethod (state (world s)) /\
        importMethod (state (world s2)) = importMethod (state (world s)) /\
        emitted (world s1) = emitted (world s) /\
        emitted (world s2) = emitted (world s)
    end.
Proof.
  destruct (clipboard s) as [|e|text] eqn:Hc.
  - unfold handlePasteFromClipboard, checkClipboardForComponentData, tryCatch, bind, gets, lift.
    cbn. rewrite Hc. cbn.
    eexists _, _. split; [reflexivity|]. split; [reflexivity|]. cbn.
    repeat split; eexists; (split; [|reflexivity]); discriminate.
  - unfold handlePasteFromClipboard, checkClipboardForComponentData, tryCatch, bind, gets, lift.
    cbn. rewrite Hc. cbn.
    eexists _, _. split; [reflexivity|]. split; [reflexivity|]. cbn.
    repeat split; eexists; (split; [|reflexivity]); destruct e; discriminate.
  - destruct (handlePasteFromClipboard_holds s text Hc) as (w1 & Hrun1 & ->).
    destruct (checkClipboardForComponentData_holds s text Hc) as (w2 & Hrun2 & ->).
    eexists _, _. split; [reflexivity|]. split; [reflexivity|]. cbn [world manualPasteOptions].
    auto.
Qed.

Lemma checkClipboardForComponentData_keeps s :
  exists s',
    checkClipboardForComponentData s = (Returned tt, s') /\
    apiKey (state (world s')) = apiKey (state (world s)) /\
    localStorage s' = localStorage s.
Proof.
  destruct (clipboard s) as [|e|text] eqn:Hc.
  - unfold checkClipboardForComponentData, tryCatch, bind, gets, lift.
    cbn. rewrite Hc. cbn. eexists. split; [reflexivity|]. split; reflexivity.
  - unfold checkClipboardForComponentData, tryCatch, bind, gets, lift.
    cbn. rewrite Hc. cbn. eexists. split; [reflexivity|]. split; reflexivity.
  - destruct (checkClipboardForComponentData_holds s text Hc) as (w2 & Hrun2 & ->).
    eexists. split; [reflexivity|]. cbn [world localStorage]. split; [|reflexivity].
    apply keeps_processClipboardText in Hrun2. destruct Hrun2 as [Hk _]. exact Hk.
Qed.

(** X14. A saved API key survives the panel.  Saving stores the key of
    the moment under [googleVisionApiKey], replacing what was stored,
    shows a confirmation and schedules its clearing after 3000 ms.  A
    panel opened afterwards on the same storage starts with the saved
    key -- whatever its clipboard holds -- unless the saved key was
    empty, in which case it starts with the configured one. *)
Theorem saved_api_key_survives_reopening s configuredKey c :
  exists s1 s2,
    handleApiKeySave s = (Returned tt, s1) /\
    obj_get apiKeyItem (localStorage s1) = Some (apiKey (state (world s))) /\
    statusMessage (state (world s1)) = "API Key saved successfully!"%string /\
    timeouts s1 = timeouts s ++ [(3000, ClearStatusMessage)] /\
    onMount (freshSession configuredKey c (localStorage s1)) = (Returned tt, s2) /\
    apiKey (state (world s2))
      = (if (apiKey (state (world s)) =? "")%string then configuredKey
         else apiKey (state (world s))) /\
    localStorage s2 = localStorage s1.
Proof.
  assert (Hsave : handleApiKeySave s
    = (Returned tt,
       {| world := {| state := setStatusMessage "API Key saved successfully!" (state (world s));
                      console := console (world s); emitted := emitted (world s);
                      randomDraws := randomDraws (world s) |};
          clipboard := clipboard s;
          localStorage := obj_set apiKeyItem (apiKey (state (world s))) (localStorage s);
          timeouts := timeouts s ++ [(3000, ClearStatusMessage)];
          manualPasteOptions := manualPasteOptions s;
          warnings := warnings s |})) by reflexivity.
  match type of Hsave with _ = (_, ?x) => exists x end.
  rewrite Hsave. cbn [localStorage world state statusMessage setStatusMessage timeouts].
  set (key := apiKey (state (world s))).
  set (storage := obj_set apiKeyItem key (localStorage s)).
  unfold onMount.
  erewrite bind_step
    by (unfold getItem, gets; cbn [freshSession localStorage];
        unfold storage; rewrite obj_get_set_same; reflexivity).
  cbn beta iota.
  destruct (String.eqb_spec key "") as [Hk|Hk]; cbn [negb].
  - erewrite bind_step by reflexivity.
    destruct (checkClipboardForComponentData_keeps (freshSession configuredKey c storage))
      as (s2 & Hrun & Hkey & Hst).
    exists s2. split; [reflexivity|]. split; [apply obj_get_set_same|].
    split; [reflexivity|]. split; [reflexivity|]. split; [exact Hrun|].
    split; [exact Hkey|exact Hst].
  - erewrite bind_step by reflexivity.
    match goal with |- context [checkClipboardForComponentData ?x] =>
      destruct (checkClipboardForComponentData_keeps x) as (s2 & Hrun & Hkey & Hst) end.
    exists s2. split; [reflexivity|]. split; [apply obj_get_set_same|].
    split; [reflexivity|]. split; [reflexivity|]. split; [exact Hrun|].
    split; [exact Hkey|exact Hst].
Qed.

End SessionProofs.

(** ** The controller's listener for external messages *)

Section ListenerProofs.
Import External.
Context {NUM : JsNumber} {CORE : UnifiedCore}.

Lemma get_field v k (w : World) :
  truthy v = true -> get v k w = (Returned (Panel.field v k), w).
Proof. intros Hv. unfold get. now rewrite (member_field v k Hv). Qed.

(** X15. One answer to each external message.  The listener never
    throws.  A message from a recognised sender that carries a truthy
    [componentData] (or, failing that, [data]) is answered with exactly
    one [EXTERNAL_DATA_RECEIVED] envelope once the processing has
    settled: the payload itself, flagged, with a notice and without
    processing, when it is marked [simplified]; the processed payload
    when [processComponentData] is there and settles with one; the
    payload as it came when processing fails or is not available.  Any
    other message is answered with nothing at all. *)
Theorem external_message_answered_once eventData w :
  exists w',
    onMessage eventData w = (Returned tt, w') /\
    match payloadOf eventData with
    | Some componentData =>
        if isTrue (Panel.field componentData "simplified") then
          posted w' = posted w ++
            [{| envData := componentData; envSimplified := true;
                envMessage :=
                  Some (js_or (Panel.field componentData "message")
                          (VStr "Data was simplified due to size constraints")) |}] /\
          notices w' = notices w ++ [SimplifiedNotice] /\
          reprocessed w' = reprocessed w
        else
          notices w' = notices w /\
          match processComponentData with
          | Some process =>
              reprocessed w' = reprocessed w ++ [componentData] /\
              posted w' = posted w ++
                [raw (match process componentData with
                      | Returned processedData => processedData
                      | Thrown _ => componentData
                      end)]
          | None =>
              reprocessed w' = reprocessed w /\
              posted w' = posted w ++ [raw componentData]
          end
    | None =>
        posted w' = posted w /\ notices w' = notices w /\ reprocessed w' = reprocessed w
    end.
Proof.
  unfold onMessage, payloadOf, tryCatch.
  destruct (truthy eventData) eqn:Hev; cbn [andb];
    [|eexists; split; [reflexivity|]; repeat split].
  erewrite bind_step by (apply get_field, Hev).
  destruct (Browser.isString (Panel.field eventData "source") "sticker-chrome-extension"
            || Browser.isString (Panel.field eventData "source") "sticker-system");
    [|eexists; split; [reflexivity|]; repeat split].
  erewrite bind_step by reflexivity.
  erewrite bind_step by (apply get_field, Hev).
  unfold js_or.
  set (w1 := {| posted := posted w; notices := notices w; reprocessed := reprocessed w;
                console := console w ++ [LogInfo "Received external message:"] |}).
  assert (Hcd :
    (if truthy (Panel.field eventData "componentData")
     then ret (Panel.field eventData "componentData")
     else get eventData "data") w1
    = (Returned (if truthy (Panel.field eventData "componentData")
                 then Panel.field eventData "componentData"
                 else Panel.field eventData "data"), w1)).
  { destruct (truthy (Panel.field eventData "componentData")); [reflexivity|].
    apply get_field, Hev. }
  erewrite bind_step by exact Hcd. clear Hcd.
  set (componentData := if truthy (Panel.field eventData "componentData")
                        then Panel.field eventData "componentData"
                        else Panel.field eventData "data").
  destruct (truthy componentData) eqn:Hcd;
    [|eexists; split; [reflexivity|]; repeat split].
  erewrite bind_step by (apply get_field, Hcd).
  destruct (isTrue (Panel.field componentData "simplified")).
  - erewrite bind_step by reflexivity.
    erewrite bind_step by (apply get_field, Hcd).
    eexists. split; [reflexivity|]. repeat split.
  - destruct processComponentData as [process|].
    + unfold bind, callCore. destruct (process componentData);
        eexists; (split; [reflexivity|]); repeat split.
    + eexists. split; [reflexivity|]. repeat split.
Qed.

End ListenerProofs.

(** ** The controller: fonts and failure *)

Section FontProofs.
Context {NUM : JsNumber} {ENV : Collaborators}.

Lemma sameButStyles_refl w : sameButStyles w w.
Proof. repeat split. Qed.

Lemma sameButStyles_trans a b c : sameButStyles a b -> sameButStyles b c -> sameButStyles a c.
Proof. unfold sameButStyles. intuition congruence. Qed.

Lemma stylesOnly_ret {A} (a : A) : stylesOnly (ret a).
Proof. intros w out w' H. inversion H. apply sameButStyles_refl. Qed.

Lemma stylesOnly_bind {A B} (m : M World A) (k : A -> M World B) :
  stylesOnly m -> (forall a, stylesOnly (k a)) -> stylesOnly (bind m k).
Proof.
  intros Hm Hk w out w' H. unfold bind in H.
  destruct (m w) as [[a|e] w1] eqn:Hmw.
  - eapply sameButStyles_trans; [eapply Hm; eauto|eapply Hk; eauto].
  - inversion H; subst. eapply Hm; eauto.
Qed.

Lemma stylesOnly_loadFontAsync f : stylesOnly (loadFontAsync f).
Proof.
  intros w out w' H. unfold loadFontAsync in H.
  destruct (fontAvailable f); inversion H; apply sameButStyles_refl.
Qed.

Lemma stylesOnly_getStyleByName nm : stylesOnly (getStyleByName nm).
Proof. intros w out w' H. inversion H. apply sameButStyles_refl. Qed.

Lemma stylesOnly_createStyle kind : stylesOnly (createStyle kind).
Proof. intros w out w' H. inversion H. repeat split. Qed.

Lemma stylesOnly_setStyleProp sid k v : stylesOnly (setStyleProp sid k v).
Proof. intros w out w' H. inversion H. repeat split. Qed.

Ltac styles_steps :=
  repeat first
    [ apply stylesOnly_ret | apply stylesOnly_loadFontAsync
    | apply stylesOnly_getStyleByName | apply stylesOnly_createStyle
    | apply stylesOnly_setStyleProp
    | apply stylesOnly_bind; [|intros ?]
    | match goal with |- stylesOnly (match ?x with Some _ => _ | None => _ end) =>
        destruct x end ].

Lemma stylesOnly_sectionTitle characters : stylesOnly (sectionTitle characters).
Proof. unfold sectionTitle. styles_steps. Qed.

Lemma stylesOnly_colorSwatch c : stylesOnly (colorSwatch c).
Proof. unfold colorSwatch, paintStyleFor. styles_steps. Qed.

Lemma stylesOnly_colorLoop colors : forall row, stylesOnly (colorLoop colors row).
Proof.
  induction colors as [|c cs IH]; intros row; cbn [colorLoop].
  - apply stylesOnly_ret.
  - apply stylesOnly_bind; [apply stylesOnly_colorSwatch|intros wrapper; apply IH].
Qed.

Lemma stylesOnly_textSample sample : stylesOnly (textSample sample).
Proof. unfold textSample, textStyleFor. styles_steps. Qed.

Lemma stylesOnly_groupLoop textGroups : forall sec, stylesOnly (groupLoop textGroups sec).
Proof.
  induction textGroups as [|[k bucket] gs IH]; intros sec; cbn [groupLoop].
  - apply stylesOnly_ret.
  - destruct bucket as [|sample rest]; [apply IH|].
    apply stylesOnly_bind; [apply stylesOnly_textSample|intros node; apply IH].
Qed.

Lemma stylesOnly_buildColorSection colors : stylesOnly (buildColorSection colors).
Proof.
  unfold buildColorSection.
  apply stylesOnly_bind; [apply stylesOnly_sectionTitle|intros title].
  apply stylesOnly_bind; [apply stylesOnly_colorLoop|intros row; apply stylesOnly_ret].
Qed.

Lemma stylesOnly_buildTypographySection typography :
  stylesOnly (buildTypographySection typography).
Proof.
  unfold buildTypographySection.
  apply stylesOnly_bind; [apply stylesOnly_sectionTitle|intros title].
  apply stylesOnly_groupLoop.
Qed.

(** *** Which fonts a stage asks for *)

Lemma loadsFonts_ret {A} (a : A) : loadsFonts [] (ret a).
Proof. intros w. reflexivity. Qed.

Lemma loadsFonts_loadFontAsync f : loadsFonts [f] (loadFontAsync f).
Proof.
  intros w. unfold loadFontAsync. cbn [forallb].
  destruct (fontAvailable f); cbn; [reflexivity|]. split; [reflexivity|apply sameButStyles_refl].
Qed.

Lemma loadsFonts_bind {A B} fs gs (m : M World A) (k : A -> M World B) :
  loadsFonts fs m -> stylesOnly m -> (forall a, loadsFonts gs (k a)) ->
  loadsFonts (fs ++ gs) (bind m k).
Proof.
  intros Hm Hs Hk w. unfold bind. specialize (Hm w).
  destruct (m w) as [[a|e] w1] eqn:Hmw.
  - specialize (Hk a w1). rewrite forallb_app, Hm. cbn [andb].
    destruct (k a w1) as [[b|e] w2]; [exact Hk|].
    destruct Hk as [Hg Hf]. split; [exact Hg|].
    eapply sameButStyles_trans; [eapply Hs; eauto|exact Hf].
  - destruct Hm as [Hm Hf]. rewrite forallb_app, Hm. split; [reflexivity|exact Hf].
Qed.

Lemma loadsFonts_same {A} fs gs (m : M World A) :
  forallb fontAvailable fs = forallb fontAvailable gs -> loadsFonts fs m -> loadsFonts gs m.
Proof. intros Heq Hm w. specialize (Hm w). rewrite <- Heq. exact Hm. Qed.

Lemma loadsFonts_quiet {A} (m : M World A) :
  (forall w, exists a w', m w = (Returned a, w')) -> loadsFonts [] m.
Proof. intros H w. destruct (H w) as (a & w' & ->). reflexivity. Qed.

Lemma loadsFonts_sectionTitle characters : loadsFonts [InterBold] (sectionTitle characters).
Proof.
  unfold sectionTitle.
  apply (loadsFonts_bind [InterBold] []);
    [apply loadsFonts_loadFontAsync|apply stylesOnly_loadFontAsync|].
  intros []. apply loadsFonts_ret.
Qed.

Lemma paintStyleFor_returns c w : exists sid w', paintStyleFor c w = (Returned sid, w').
Proof.
  unfold paintStyleFor. erewrite bind_step by reflexivity.
  destruct (find _ _); eexists _, _; reflexivity.
Qed.

Lemma loadsFonts_colorSwatch c : loadsFonts [InterRegular] (colorSwatch c).
Proof.
  unfold colorSwatch.
  apply (loadsFonts_bind [] [InterRegular]);
    [apply loadsFonts_quiet, paintStyleFor_returns
    |unfold paintStyleFor; styles_steps|].
  intros sid.
  apply (loadsFonts_bind [InterRegular] []);
    [apply loadsFonts_loadFontAsync|apply stylesOnly_loadFontAsync|].
  intros []. apply loadsFonts_ret.
Qed.

Lemma loadsFonts_colorLoop colors : forall row,
  loadsFonts (map (fun _ => InterRegular) colors) (colorLoop colors row).
Proof.
  induction colors as [|c cs IH]; intros row; cbn [colorLoop map].
  - apply loadsFonts_ret.
  - apply (loadsFonts_bind [InterRegular] _);
      [apply loadsFonts_colorSwatch|apply stylesOnly_colorSwatch|].
    intros wrapper. apply IH.
Qed.

Lemma loadsFonts_textSample sample : loadsFonts [sampleFontName sample] (textSample sample).
Proof.
  intros w. unfold textSample, textStyleFor, loadFontAsync. cbn [forallb].
  unfold bind at 1. unfold bind at 1. unfold getStyleByName at 1, gets at 1.
  destruct (find _ _) as [st|].
  - unfold bind, ret, throw.
    destruct (fontAvailable (sampleFontName sample)); cbn; [reflexivity|].
    split; [reflexivity|apply sameButStyles_refl].
  - unfold bind, ret, throw, createStyle, setStyleProp, onFigma, modify.
    destruct (fontAvailable (sampleFontName sample)); cbn; [reflexivity|].
    split; [reflexivity|repeat split].
Qed.

Lemma loadsFonts_groupLoop textGroups : forall sec,
  loadsFonts (map sampleFontName (samplesOf textGroups)) (groupLoop textGroups sec).
Proof.
  induction textGroups as [|[k bucket] gs IH]; intros sec; cbn [groupLoop].
  - apply loadsFonts_ret.
  - destruct bucket as [|sample rest]; cbn [samplesOf flat_map snd app map]; [apply IH|].
    apply (loadsFonts_bind [sampleFontName sample] _);
      [apply loadsFonts_textSample|apply stylesOnly_textSample|].
    intros node. apply IH.
Qed.

Lemma forallb_repeat_font (colors : list ColorData.t) :
  nonEmpty colors = true ->
  forallb fontAvailable (InterBold :: map (fun _ => InterRegular) colors)
  = forallb fontAvailable [InterBold; InterRegular].
Proof.
  destruct colors as [|c cs]; [discriminate|]. intros _. cbn.
  destruct (fontAvailable InterBold); [|reflexivity]. cbn.
  destruct (fontAvailable InterRegular) eqn:Hr; [|reflexivity]. cbn.
  induction cs; cbn; [reflexivity|]. now rewrite Hr.
Qed.

Lemma loadsFonts_buildColorSection colors :
  nonEmpty colors = true ->
  loadsFonts [InterBold; InterRegular] (buildColorSection colors).
Proof.
  intros Hne. eapply loadsFonts_same; [apply forallb_repeat_font, Hne|].
  unfold buildColorSection.
  apply (loadsFonts_bind [InterBold] _);
    [apply loadsFonts_sectionTitle|apply stylesOnly_sectionTitle|].
  intros title.
  rewrite <- (app_nil_r (map _ colors)).
  apply loadsFonts_bind; [apply loadsFonts_colorLoop|apply stylesOnly_colorLoop|].
  intros row. apply loadsFonts_ret.
Qed.

Lemma loadsFonts_buildTypographySection typography :
  loadsFonts (InterBold :: map sampleFontName (samplesOf (groupTypography typography)))
    (buildTypographySection typography).
Proof.
  unfold buildTypographySection.
  apply (loadsFonts_bind [InterBold] _);
    [apply loadsFonts_sectionTitle|apply stylesOnly_sectionTitle|].
  intros title. apply loadsFonts_groupLoop.
Qed.

Lemma buildComponentsSection_returns comps w :
  fontAvailable InterBold = true ->
  exists section w', buildComponentsSection comps w = (Returned section, w').
Proof.
  intros Hf. destruct (buildComponentsSection_eq comps w Hf) as (title & _ & ->).
  destruct (namedAlike comps).
  - destruct (createComponentSet comps (figma w)) as [[cset|e] f1]; [eauto|].
    match goal with |- context [individualLoop comps 0 ?s ?x] =>
      destruct (individualLoop_builds comps 0 s x) as (nodes & evs & f' & -> & _) end.
    eauto.
  - destruct (individualLoop_builds comps 0 (componentsFrame title) w)
      as (nodes & evs & f' & -> & _).
    eauto.
Qed.

Lemma loadsFonts_buildComponentsSection comps :
  loadsFonts [InterBold] (buildComponentsSection comps).
Proof.
  intros w. cbn [forallb]. rewrite andb_true_r.
  destruct (fontAvailable InterBold) eqn:Hf.
  - destruct (buildComponentsSection_returns comps w Hf) as (section & w' & ->). reflexivity.
  - unfold buildComponentsSection, sectionTitle, loadFontAsync. rewrite Hf.
    unfold bind, throw. cbn. split; [reflexivity|apply sameButStyles_refl].
Qed.

Lemma loadsFonts_stage fs (wanted : bool) (parentFrame : SceneNode)
    (build : M World SceneNode) :
  (wanted = true -> loadsFonts fs build) ->
  loadsFonts (if wanted then fs else [])
    (if wanted
     then bind build (fun section => ret (appendChild parentFrame section))
     else ret parentFrame).
Proof.
  intros Hb. destruct wanted; [|apply loadsFonts_ret].
  intros w. unfold bind. specialize (Hb eq_refl w).
  destruct (build w) as [[section|e] w1]; exact Hb.
Qed.

Lemma stylesOnly_stage (wanted : bool) (parentFrame : SceneNode)
    (build : M World SceneNode) :
  stylesOnly build ->
  stylesOnly (if wanted
              then bind build (fun section => ret (appendChild parentFrame section))
              else ret parentFrame).
Proof.
  intros Hb. destruct wanted; [|apply stylesOnly_ret].
  apply stylesOnly_bind; [exact Hb|intros section; apply stylesOnly_ret].
Qed.

Lemma loadsFonts_last {A B} fs (m : M World A) (k : A -> M World B) :
  loadsFonts fs m -> (forall a w, exists b w', k a w = (Returned b, w')) ->
  loadsFonts fs (bind m k).
Proof.
  intros Hm Hk w. unfold bind. specialize (Hm w).
  destruct (m w) as [[a|e] w1]; [|exact Hm].
  destruct (Hk a w1) as (b & w' & ->). exact Hm.
Qed.

Lemma loadsFonts_run imageData :
  loadsFonts (fontsNeeded imageData) (processImageAnalysisResults imageData).
Proof.
  unfold processImageAnalysisResults, fontsNeeded.
  apply loadsFonts_bind;
    [apply loadsFonts_stage; intros Hne; now apply loadsFonts_buildColorSection
    |apply stylesOnly_stage, stylesOnly_buildColorSection|intros frame1].
  apply loadsFonts_bind;
    [apply loadsFonts_stage; intros _; apply loadsFonts_buildTypographySection
    |apply stylesOnly_stage, stylesOnly_buildTypographySection|intros frame2].
  apply loadsFonts_last;
    [apply loadsFonts_stage; intros _; apply loadsFonts_buildComponentsSection|].
  intros frame3 w. eexists _, _. reflexivity.
Qed.

Lemma run_places_the_frame imageData w frame w' :
  processImageAnalysisResults imageData w = (Returned frame, w') ->
  selection (figma w') = [frame] /\ viewport (figma w') = [frame] /\
  exists others, pageChildren (figma w') = others ++ [frame].
Proof.
  unfold processImageAnalysisResults. intros H.
  apply bind_returned in H as (frame1 & w1 & _ & H).
  apply bind_returned in H as (frame2 & w2 & _ & H).
  apply bind_returned in H as (frame3 & w3 & _ & H).
  inversion H; subst. cbn. eauto.
Qed.


(** X17. What the panel hears about fonts.  The handler of
    [IMAGE_ANALYSIS_COMPLETE] never throws and always schedules the
    closing.  With every needed font available its last message to the
    panel is [CREATION_COMPLETE] and the new frame is the selection.
    With a font missing it answers [CREATION_ERROR] with the failure's
    message, logs the failure as its only trace, and page and selection
    are what they were. *)
Theorem panel_hears_of_missing_fonts imageData w :
  exists w',
    handler (IMAGE_ANALYSIS_COMPLETE imageData) w = (Returned tt, w') /\
    (exists earlier, timers (figma w') = earlier ++ [(2000, ClosePluginAction)]) /\
    if forallb fontAvailable (fontsNeeded imageData) then
      exists frame others earlier,
        selection (figma w') = [frame] /\
        pageChildren (figma w') = others ++ [frame] /\
        uiMessages (figma w') = earlier ++ [CREATION_COMPLETE]
    else
      exists e,
        uiMessages (figma w')
          = uiMessages (figma w)
            ++ [CREATION_ERROR ("Error creating components: " ++ message e)%string] /\
        trace w' = trace w ++ [ConsoleError "Error in image analysis handler:" e] /\
        pageChildren (figma w') = pageChildren (figma w) /\
        selection (figma w') = selection (figma w).
Proof.
  pose proof (loadsFonts_run imageData w) as Hfonts.
  cbn [handler]. unfold onImageAnalysisComplete, tryFinally, tryCatch.
  destruct (processImageAnalysisResults imageData w) as [[frame|e] w1] eqn:Hrun.
  - rewrite Hfonts. erewrite bind_step by exact Hrun. cbn.
    destruct (run_places_the_frame imageData w frame w1 Hrun) as (_ & _ & others & Hpage).
    eexists. split; [reflexivity|]. cbn. split; [eauto|].
    exists frame, others, (uiMessages (figma w1)). auto.
  - destruct Hfonts as [-> (Htr & Hpg & Hsel & _ & Hmsg & _)].
    erewrite bind_thrown by exact Hrun. cbn.
    eexists. split; [reflexivity|]. cbn. split; [eauto|].
    exists e. rewrite Hmsg, Htr, Hpg, Hsel. auto.
Qed.

End FontProofs.

(** ** The controller: a failed variant set, in the stage and in the run *)

Section VariantFailure.
Context {NUM : JsNumber} {ENV : Collaborators}.

(** The run up to its components stage: with the fonts at hand the first
    two stages return, having touched nothing but styles, and the run
    ends as the components stage does. *)
Lemma run_reaches_components imageData w :
  forallb fontAvailable (fontsNeeded imageData) = true ->
  nonEmpty (components imageData) = true ->
  exists frame2 w2,
    sameButStyles w w2 /\
    forall section w3,
      buildComponentsSection (components imageData) w2 = (Returned section, w3) ->
      processImageAnalysisResults imageData w
      = (Returned (appendChild frame2 section),
         {| figma := with_page (figma w3)
                       (pageChildren (figma w3) ++ [appendChild frame2 section])
                       [appendChild frame2 section] [appendChild frame2 section];
            trace := trace w3 |}).
Proof.
  unfold fontsNeeded. rewrite !forallb_app. intros Hfonts Hne.
  apply andb_true_iff in Hfonts as [Hf1 Hfonts].
  apply andb_true_iff in Hfonts as [Hf2 _].
  unfold processImageAnalysisResults.
  pose proof (loadsFonts_stage [InterBold; InterRegular] (nonEmpty (colors imageData))
                newParentFrame (buildColorSection (colors imageData))
                (fun H => loadsFonts_buildColorSection _ H) w) as L1.
  pose proof (stylesOnly_stage (nonEmpty (colors imageData)) newParentFrame
                (buildColorSection (colors imageData))
                (stylesOnly_buildColorSection _) w) as S1.
  destruct ((if nonEmpty (colors imageData)
             then bind (buildColorSection (colors imageData))
                    (fun section => ret (appendChild newParentFrame section))
             else ret newParentFrame) w) as [[frame1|e] w1] eqn:H1;
    [|destruct L1 as [L1 _]; congruence].
  specialize (S1 _ _ eq_refl).
  pose proof (loadsFonts_stage
                (InterBold :: map sampleFontName
                                (samplesOf (groupTypography (typography imageData))))
                (nonEmpty (typography imageData))
                frame1 (buildTypographySection (typography imageData))
                (fun _ => loadsFonts_buildTypographySection _) w1) as L2.
  pose proof (stylesOnly_stage (nonEmpty (typography imageData)) frame1
                (buildTypographySection (typography imageData))
                (stylesOnly_buildTypographySection _) w1) as S2.
  destruct ((if nonEmpty (typography imageData)
             then bind (buildTypographySection (typography imageData))
                    (fun section => ret (appendChild frame1 section))
             else ret frame1) w1) as [[frame2|e] w2] eqn:H2;
    [|destruct L2 as [L2 _]; congruence].
  specialize (S2 _ _ eq_refl).
  exists frame2, w2. split; [eapply sameButStyles_trans; eauto|].
  intros section w3 Hsec.
  erewrite bind_step by exact H1. erewrite bind_step by exact H2.
  rewrite Hne.
  erewrite bind_step by (erewrite bind_step by exact Hsec; reflexivity).
  reflexivity.
Qed.

Lemma namedAlike_nonEmpty (comps : list ComponentData.t) :
  namedAlike comps = true -> nonEmpty comps = true.
Proof. destruct comps as [|c0 [|c1 rest]]; cbn; congruence. Qed.

(** C4. A failed variant set demotes the batch to the individual path,
    and the run goes on.  When the first two components are named alike
    and [createComponentSet] throws, the throw is logged, every component
    is then built by the individual path from the document the failed
    call left, and the stage returns a section holding the title and one
    node per component.  A run over these components alone, begun in the
    same document, returns a frame whose one child is that section, with
    the call and the logged throw at the head of what it adds to the
    trace.  And for any analysis with these components, in any document,
    when the builder cannot make this set at all and the fonts the run
    needs are at hand, the run returns a frame whose last child is the
    components section: title, then the nodes of the individual build,
    one per component; its trace gains the call, the logged throw and
    then, console output apart, one [createSystemComponent] call per
    component, in order. *)
Theorem variant_failure_falls_back comps w e f1 :
  fontAvailable InterBold = true ->
  firstTwoShareName comps ->
  createComponentSet comps (figma w) = (Thrown e, f1) ->
  (exists section title nodes evs f',
     buildComponentsSection comps w
       = (Returned section,
          {| figma := f';
             trace := trace w ++ CallCreateComponentSet comps
                      :: ConsoleError "Error creating component variants:" e :: evs |}) /\
     children section = title :: nodes /\
     isBoldTitle title /\
     IndividualBuild 0 comps f1 nodes evs f' /\
     List.length nodes = List.length comps) /\
  (exists frame section title nodes evs f',
     processImageAnalysisResults {| components := comps; colors := []; typography := [] |} w
       = (Returned frame,
          {| figma := with_page f' (pageChildren f' ++ [frame]) [frame] [frame];
             trace := trace w ++ CallCreateComponentSet comps
                      :: ConsoleError "Error creating component variants:" e :: evs |}) /\
     children frame = [section] /\
     children section = title :: nodes /\
     isBoldTitle title /\
     IndividualBuild 0 comps f1 nodes evs f' /\
     List.length nodes = List.length comps) /\
  (forall imageData w0,
     components imageData = comps ->
     (forall f, exists e' f1', createComponentSet comps f = (Thrown e', f1')) ->
     forallb fontAvailable (fontsNeeded imageData) = true ->
     exists frame w' earlier section title nodes e' evs,
       processImageAnalysisResults imageData w0 = (Returned frame, w') /\
       children frame = earlier ++ [section] /\
       children section = title :: nodes /\
       isBoldTitle title /\
       List.length nodes = List.length comps /\
       trace w' = trace w0 ++ CallCreateComponentSet comps
                  :: ConsoleError "Error creating component variants:" e' :: evs /\
       (exists f1' f2, IndividualBuild 0 comps f1' nodes evs f2) /\
       builderCalls evs = map CallCreateSystemComponent comps).
Proof.
  intros Hf Hshare Hset. apply namedAlike_iff in Hshare.
  destruct (buildComponentsSection_falls_back comps w e f1 Hf Hshare Hset)
    as (section & title & nodes & evs & f' & Hstage & Hch & Hbold & Hbuild & Hlen).
  split; [|split].
  - exists section, title, nodes, evs, f'. auto.
  - exists (appendChild newParentFrame section), section, title, nodes, evs, f'.
    split; [|split; [reflexivity|auto]].
    unfold processImageAnalysisResults. cbn [colors typography components].
    change (nonEmpty (@nil ColorData.t)) with false.
    change (nonEmpty (@nil TypographyData.t)) with false.
    rewrite (namedAlike_nonEmpty comps Hshare).
    erewrite bind_step by reflexivity. erewrite bind_step by reflexivity.
    erewrite bind_step by (erewrite bind_step by exact Hstage; reflexivity).
    reflexivity.
  - intros imageData w0 Hcomps Hnever Hfonts. subst comps.
    destruct (run_reaches_components imageData w0 Hfonts
                (namedAlike_nonEmpty _ Hshare))
      as (frame2 & w2 & (Htr & _) & Hrun).
    destruct (Hnever (figma w2)) as (e' & f1' & Hset2).
    destruct (buildComponentsSection_falls_back _ w2 e' f1' Hf Hshare Hset2)
      as (section2 & title2 & nodes2 & evs2 & f2 & Hstage2 & Hch2 & Hbold2 & Hbuild2 & Hlen2).
    eexists _, _, (children frame2), section2, title2, nodes2, e', evs2.
    split; [exact (Hrun _ _ Hstage2)|].
    split; [reflexivity|]. split; [exact Hch2|]. split; [exact Hbold2|].
    split; [exact Hlen2|]. split; [cbn; now rewrite Htr|].
    split; [eauto|]. eapply IndividualBuild_calls; eauto.
Qed.

End VariantFailure.

Lemma variant_failure_falls_back_witness :
  (exists section title nodes evs f',
     @buildComponentsSection Sample.Rational Sample.fragile Sample.variants Sample.emptyWorld
       = (Returned section,
          {| figma := f';
             trace := trace Sample.emptyWorld ++ CallCreateComponentSet Sample.variants
                      :: ConsoleError "Error creating component variants:"
                           (Error "variants unsupported") :: evs |}) /\
     children section = title :: nodes /\
     isBoldTitle title /\
     @IndividualBuild Sample.Rational Sample.fragile 0 Sample.variants emptyFigma nodes evs f' /\
     List.length nodes = 3) /\
  (exists frame w' earlier section title nodes e' evs,
     @processImageAnalysisResults Sample.Rational Sample.fragile Cases.withVariants
       Sample.emptyWorld = (Returned frame, w') /\
     children frame = earlier ++ [section] /\
     children section = title :: nodes /\
     isBoldTitle title /\
     List.length nodes = 3 /\
     trace w' = trace Sample.emptyWorld ++ CallCreateComponentSet Sample.variants
                :: ConsoleError "Error creating component variants:" e' :: evs /\
     (exists f1' f2,
        @IndividualBuild Sample.Rational Sample.fragile 0 Sample.variants f1' nodes evs f2) /\
     builderCalls evs = map CallCreateSystemComponent Sample.variants).
Proof.
  pose proof (@variant_failure_falls_back Sample.Rational Sample.fragile
                Sample.variants Sample.emptyWorld (Error "variants unsupported") emptyFigma
                eq_refl
                (ex_intro _ _ (ex_intro _ _ (ex_intro _ _ (conj eq_refl eq_refl))))
                eq_refl) as (Hstage & _ & Hrun).
  split; [exact Hstage|].
  apply (Hrun Cases.withVariants Sample.emptyWorld eq_refl); [|reflexivity].
  intros f. exists (Error "variants unsupported"), f. reflexivity.
Defined.

(** ** The controller: the style registry across failures and runs *)

Section RegistryProofs.
Context {NUM : JsNumber} {ENV : Collaborators}.

Lemma style_named_bare sid sample :
  style_named (textStyleName sample) (bareTextStyle sid sample) = true.
Proof. unfold style_named, bareTextStyle. cbn. apply String.eqb_refl. Qed.

(** X18. A font failure leaves a text style half made.  When the
    document has no style of a sample's name and the sample's font
    cannot be loaded, the sample throws after having registered a text
    style that carries the name only.  A later attempt in the same
    document, the font now loadable, finds that style by its name and
    binds the sample to it without setting font or size on it: the
    registry is left exactly as the failure left it. *)
Theorem font_failure_leaves_a_bare_text_style (LATER : Collaborators) sample w :
  wellFormed (figma w) = true ->
  find (style_named (textStyleName sample)) (styles (figma w)) = None ->
  @fontAvailable NUM ENV (sampleFontName sample) = false ->
  @fontAvailable NUM LATER (sampleFontName sample) = true ->
  exists e w',
    @textSample NUM ENV sample w = (Thrown e, w') /\
    styles (figma w')
      = styles (figma w) ++ [bareTextStyle (nextStyleId (figma w)) sample] /\
    exists node,
      @textSample NUM LATER sample w' = (Returned node, w') /\
      prop "textStyleId" node = Some (PStyleId (nextStyleId (figma w))).
Proof.
  intros Hwf Hnone Hmissing Hlater. apply wellFormed_spec in Hwf.
  assert (Hfail : exists e,
    @textSample NUM ENV sample w
    = (Thrown e,
       {| figma := with_styles (figma w)
                     (styles (figma w) ++ [bareTextStyle (nextStyleId (figma w)) sample])
                     (S (nextStyleId (figma w)));
          trace := trace w |})).
  { unfold textSample, textStyleFor.
    unfold bind at 1. unfold bind at 1. unfold getStyleByName at 1, gets at 1.
    rewrite Hnone.
    erewrite bind_step by reflexivity. erewrite bind_step by reflexivity.
    unfold loadFontAsync. rewrite Hmissing.
    unfold bind, throw. cbn [figma trace with_styles styles nextStyleId].
    rewrite map_updateStyle_last by exact Hwf. eexists. reflexivity. }
  destruct Hfail as [e Hfail]. rewrite Hfail.
  eexists _, _. split; [reflexivity|]. split; [reflexivity|].
  unfold textSample, textStyleFor.
  erewrite bind_step
    by (erewrite bind_step by reflexivity;
        cbn [figma styles with_styles];
        rewrite (find_app_none _ _ _ Hnone); cbn [find];
        rewrite style_named_bare; reflexivity).
  erewrite bind_step by (apply loadFontAsync_ok, Hlater).
  eexists. split; reflexivity.
Qed.

(** *** Styles already filed *)

Lemma filed_colorSwatch c w out w' :
  (exists st, find (style_named (colorStyleName c)) (styles (figma w)) = Some st) ->
  colorSwatch c w = (out, w') -> w' = w.
Proof.
  intros [st Hst] H. unfold colorSwatch, paintStyleFor in H.
  erewrite bind_step in H
    by (erewrite bind_step by reflexivity; rewrite Hst; reflexivity).
  unfold bind, loadFontAsync in H.
  destruct (fontAvailable InterRegular); inversion H; reflexivity.
Qed.

Lemma filed_colorLoop colors : forall row w out w',
  paletteFiled colors (figma w) = true ->
  colorLoop colors row w = (out, w') -> w' = w.
Proof.
  induction colors as [|c cs IH]; intros row w out w' Hfiled H; cbn [colorLoop] in H.
  - inversion H. reflexivity.
  - cbn [paletteFiled forallb] in Hfiled. apply andb_true_iff in Hfiled as [Hc Hcs].
    assert (Hst : exists st,
      find (style_named (colorStyleName c)) (styles (figma w)) = Some st).
    { destruct (find _ _) as [st|]; [eauto|discriminate]. }
    unfold bind in H. destruct (colorSwatch c w) as [[wrapper|e] w1] eqn:Hs;
      apply (filed_colorSwatch _ _ _ _ Hst) in Hs; subst w1.
    + eapply IH; eauto.
    + inversion H. reflexivity.
Qed.

Lemma filed_textSample sample w out w' :
  (exists st, find (style_named (textStyleName sample)) (styles (figma w)) = Some st) ->
  textSample sample w = (out, w') -> w' = w.
Proof.
  intros [st Hst] H. unfold textSample, textStyleFor in H.
  erewrite bind_step in H
    by (erewrite bind_step by reflexivity; rewrite Hst; reflexivity).
  unfold bind, loadFontAsync in H.
  destruct (fontAvailable (sampleFontName sample)); inversion H; reflexivity.
Qed.

Lemma filed_groupLoop textGroups : forall sec w out w',
  forallb (fun s => match find (style_named (textStyleName s)) (styles (figma w)) with
                    | Some _ => true
                    | None => false
                    end) (samplesOf textGroups) = true ->
  groupLoop textGroups sec w = (out, w') -> w' = w.
Proof.
  induction textGroups as [|[k bucket] gs IH]; intros sec w out w' Hfiled H;
    cbn [groupLoop] in H.
  - inversion H. reflexivity.
  - destruct bucket as [|sample rest]; cbn [samplesOf flat_map snd app forallb] in Hfiled.
    + eapply IH; eauto.
    + apply andb_true_iff in Hfiled as [Hs Hgs].
      assert (Hst : exists st,
        find (style_named (textStyleName sample)) (styles (figma w)) = Some st).
      { destruct (find _ _) as [st|]; [eauto|discriminate]. }
      unfold bind in H. destruct (textSample sample w) as [[node|e] w1] eqn:Hn;
        apply (filed_textSample _ _ _ _ Hst) in Hn; subst w1.
      * eapply IH; eauto.
      * inversion H. reflexivity.
Qed.

Lemma sectionTitle_unchanged characters w out w' :
  sectionTitle characters w = (out, w') -> w' = w.
Proof.
  unfold sectionTitle, bind, loadFontAsync.
  destruct (fontAvailable InterBold); intros H; inversion H; reflexivity.
Qed.

Lemma filed_buildColorSection colors w out w' :
  paletteFiled colors (figma w) = true ->
  buildColorSection colors w = (out, w') -> w' = w.
Proof.
  intros Hfiled H. unfold buildColorSection in H. unfold bind at 1 in H.
  destruct (sectionTitle "Color Styles" w) as [[title|e] w1] eqn:Ht;
    apply sectionTitle_unchanged in Ht; subst w1; [|inversion H; reflexivity].
  unfold bind in H.
  destruct (colorLoop colors _ w) as [[row|e] w1] eqn:Hl;
    apply (filed_colorLoop _ _ _ _ _ Hfiled) in Hl; subst w1; inversion H; reflexivity.
Qed.

Lemma filed_buildTypographySection typography w out w' :
  samplesFiled typography (figma w) = true ->
  buildTypographySection typography w = (out, w') -> w' = w.
Proof.
  intros Hfiled H. unfold buildTypographySection in H. unfold bind at 1 in H.
  destruct (sectionTitle "Text Styles" w) as [[title|e] w1] eqn:Ht;
    apply sectionTitle_unchanged in Ht; subst w1; [|inversion H; reflexivity].
  eapply filed_groupLoop; eauto.
Qed.

(** What a stage that returned has filed. *)
Lemma linked_filed f colors wrappers :
  Forall2 (swatchLinkedTo f) colors wrappers -> paletteFiled colors f = true.
Proof.
  unfold paletteFiled. induction 1 as [|c wr cs wrs Hc _ IH]; cbn [forallb]; [reflexivity|].
  destruct Hc as (rect & label & st & _ & _ & _ & Hfind & _).
  fold (colorStyleName c) in Hfind. now rewrite Hfind.
Qed.

Lemma bound_filed f samples nodes :
  Forall2 (sampleBoundTo f) samples nodes ->
  forallb (fun s => match find (style_named (textStyleName s)) (styles f) with
                    | Some _ => true
                    | None => false
                    end) samples = true.
Proof.
  induction 1 as [|s n ss ns Hs _ IH]; cbn [forallb]; [reflexivity|].
  destruct Hs as (_ & _ & st & Hfind & _).
  change (styleNameOfFirst s) with (textStyleName s) in Hfind. now rewrite Hfind.
Qed.

Lemma paletteFiled_extends colors f f' :
  extends f f' -> paletteFiled colors f = true -> paletteFiled colors f' = true.
Proof.
  intros Hext. unfold paletteFiled. rewrite !forallb_forall. intros H c Hc.
  specialize (H c Hc). destruct (find _ (styles f)) as [st|] eqn:Hf; [|discriminate].
  now rewrite (extends_find _ _ _ _ Hext Hf).
Qed.

Lemma buildColorSection_files colors w section w' :
  WellFormed (figma w) ->
  buildColorSection colors w = (Returned section, w') ->
  WellFormed (figma w') /\ paletteFiled colors (figma w') = true.
Proof.
  intros Hwf H. unfold buildColorSection in H.
  apply bind_returned in H as (title & w1 & Ht & H).
  apply sectionTitle_returned in Ht as (_ & -> & _).
  apply bind_returned in H as (row & w2 & Hloop & H).
  inversion H; subst section w2; clear H.
  destruct (colorLoop_spec _ _ _ _ _ Hwf Hloop) as (Hwf' & _ & _ & (wrs & _ & Hall) & _).
  split; [exact Hwf'|]. eapply linked_filed, Hall.
Qed.

Lemma buildTypographySection_files typography w section w' :
  WellFormed (figma w) ->
  buildTypographySection typography w = (Returned section, w') ->
  extends (figma w) (figma w') /\ samplesFiled typography (figma w') = true.
Proof.
  intros Hwf H. unfold buildTypographySection in H.
  apply bind_returned in H as (title & w1 & Ht & H).
  apply sectionTitle_returned in Ht as (_ & -> & _).
  destruct (groupLoop_spec _ _ _ _ _ Hwf H) as (_ & Hext & _ & (nodes & _ & Hall) & _).
  split; [exact Hext|]. eapply bound_filed, Hall.
Qed.

Lemma nonEmpty_false {A} (xs : list A) : nonEmpty xs = false -> xs = [].
Proof. destruct xs; [reflexivity|discriminate]. Qed.

(** X19. A second run creates no style.  In a document whose style ids
    are well formed, once a run over colours and typography has returned,
    running the same analysis again in the document it left returns
    again, registers no style at all -- every colour and every sample
    finds the style of the first run -- and appends one more frame to the
    page. *)
Theorem second_run_creates_no_style imageData w frame w1 :
  wellFormed (figma w) = true ->
  components imageData = [] ->
  processImageAnalysisResults imageData w = (Returned frame, w1) ->
  exists frame2 w2,
    processImageAnalysisResults imageData w1 = (Returned frame2, w2) /\
    styles (figma w2) = styles (figma w1) /\
    nextStyleId (figma w2) = nextStyleId (figma w1) /\
    pageChildren (figma w2) = pageChildren (figma w1) ++ [frame2].
Proof.
  intros Hwf Hnone Hrun. apply wellFormed_spec in Hwf.
  pose proof (loadsFonts_run imageData w) as Hfonts. rewrite Hrun in Hfonts.
  (* what the first run filed *)
  assert (Hfiled : paletteFiled (colors imageData) (figma w1) = true /\
                   samplesFiled (typography imageData) (figma w1) = true).
  { unfold processImageAnalysisResults in Hrun. rewrite Hnone in Hrun.
    apply bind_returned in Hrun as (frame1 & wa & H1 & Hrun).
    apply bind_returned in Hrun as (frame2 & wb & H2 & Hrun).
    cbn [nonEmpty List.length Nat.ltb Nat.leb] in Hrun.
    erewrite bind_step in Hrun by reflexivity.
    erewrite bind_step in Hrun by reflexivity.
    inversion Hrun; subst frame w1; clear Hrun.
    cbn [figma]. unfold paletteFiled, samplesFiled. cbn [styles with_page].
    fold (paletteFiled (colors imageData) (figma wb)).
    fold (samplesFiled (typography imageData) (figma wb)).
    assert (Ha : WellFormed (figma wa) /\ paletteFiled (colors imageData) (figma wa) = true).
    { destruct (nonEmpty (colors imageData)) eqn:Hne.
      - apply bind_returned in H1 as (section & wa' & Hb & H1).
        inversion H1; subst; clear H1. eapply buildColorSection_files; eauto.
      - inversion H1; subst; clear H1. split; [exact Hwf|].
        now rewrite (nonEmpty_false _ Hne). }
    destruct Ha as [Hwfa Hpa].
    destruct (nonEmpty (typography imageData)) eqn:Hne.
    - apply bind_returned in H2 as (section & wb' & Hb & H2).
      inversion H2; subst; clear H2.
      destruct (buildTypographySection_files _ _ _ _ Hwfa Hb) as [Hext Hsb].
      split; [eapply paletteFiled_extends; eauto|exact Hsb].
    - inversion H2; subst; clear H2. split; [exact Hpa|].
      now rewrite (nonEmpty_false _ Hne). }
  destruct Hfiled as [Hp Hs].
  pose proof (loadsFonts_run imageData w1) as Hagain.
  destruct (processImageAnalysisResults imageData w1) as [[frame2|e] w2] eqn:Hrun2;
    [|destruct Hagain as [Hagain _]; congruence].
  exists frame2, w2. split; [reflexivity|].
  unfold processImageAnalysisResults in Hrun2. rewrite Hnone in Hrun2.
  apply bind_returned in Hrun2 as (fr1 & wa & H1 & Hrun2).
  apply bind_returned in Hrun2 as (fr2 & wb & H2 & Hrun2).
  cbn [nonEmpty List.length Nat.ltb Nat.leb] in Hrun2.
  erewrite bind_step in Hrun2 by reflexivity.
  erewrite bind_step in Hrun2 by reflexivity.
  assert (Ha : wa = w1).
  { destruct (nonEmpty (colors imageData)).
    - unfold bind in H1.
      destruct (buildColorSection (colors imageData) w1) as [[section|e] wa'] eqn:Hb;
        [|discriminate].
      apply (filed_buildColorSection _ _ _ _ Hp) in Hb. inversion H1; congruence.
    - inversion H1; reflexivity. }
  subst wa.
  assert (Hb : wb = w1).
  { destruct (nonEmpty (typography imageData)).
    - unfold bind in H2.
      destruct (buildTypographySection (typography imageData) w1) as [[section|e] wb'] eqn:Hb;
        [|discriminate].
      apply (filed_buildTypographySection _ _ _ _ Hs) in Hb. inversion H2; congruence.
    - inversion H2; reflexivity. }
  subst wb.
  inversion Hrun2; subst. cbn. repeat split.
Qed.

End RegistryProofs.

(** ** The controller: grouping and variants *)

Section GroupingProofs.
Context {NUM : JsNumber} {ENV : Collaborators}.

Lemma filter_split_perm {T} (p : T -> bool) l :
  Permutation (filter p l ++ filter (fun x => negb (p x)) l) l.
Proof.
  induction l as [|x l IH]; cbn; [constructor|].
  destruct (p x); cbn.
  - now constructor.
  - apply Permutation_sym, Permutation_cons_app, Permutation_sym, IH.
Qed.

Lemma filter_filter_implied {T} (p q : T -> bool) l :
  (forall x, p x = true -> q x = true) -> filter p (filter q l) = filter p l.
Proof.
  intros Himp. induction l as [|x l IH]; cbn; [reflexivity|].
  destruct (q x) eqn:Hq; cbn.
  - now rewrite IH.
  - destruct (p x) eqn:Hp; [|exact IH]. apply Himp in Hp. congruence.
Qed.

Lemma buckets_cover ks :
  NoDup ks ->
  forall l : list TypographyData.t,
    (forall t, In t l -> In (groupKey t) ks) ->
    Permutation (List.concat (map (fun k => bucketOf k l) ks)) l.
Proof.
  induction 1 as [|k ks Hk Hnd IH]; intros l Hkeys; cbn [map List.concat].
  - destruct l as [|t l]; [constructor|]. destruct (Hkeys t (or_introl eq_refl)).
  - set (others := filter (fun t => negb (groupKey t =? k)%string) l).
    assert (Hsame : map (fun k' => bucketOf k' l) ks = map (fun k' => bucketOf k' others) ks).
    { apply map_ext_in. intros k' Hk'. unfold bucketOf, others. symmetry.
      apply filter_filter_implied. intros t Ht.
      apply String.eqb_eq in Ht. subst k'. cbn beta.
      destruct (String.eqb_spec (groupKey t) k) as [Heq|];
        [rewrite Heq in Hk'; contradiction|reflexivity]. }
    rewrite Hsame.
    eapply Permutation_trans; [|apply (filter_split_perm (fun t => (groupKey t =? k)%string))].
    apply Permutation_app_head. apply IH.
    intros t Ht. unfold others in Ht. apply filter_In in Ht as [Hin Hne].
    destruct (Hkeys t Hin) as [Heq|Hks]; [|exact Hks].
    cbn beta in Hne. rewrite <- Heq, String.eqb_refl in Hne. discriminate.
Qed.

Lemma firstOccurrences_length ks : List.length (firstOccurrences ks) <= List.length ks.
Proof.
  induction ks as [|k ks IH]; cbn; [lia|].
  pose proof (filter_length_le (fun k' => negb (k' =? k)%string) (firstOccurrences ks)). lia.
Qed.

(** X20. Grouping files every entry exactly once.  The groups hold,
    between them, the typography entries of the input, none lost and
    none twice; no two groups have the same key; no group is empty and
    the entries of a group all have the group's key.  So there are never
    more groups -- and never more text styles and samples -- than
    entries. *)
Theorem grouping_files_every_entry_once typography :
  Permutation (List.concat (map snd (groupTypography typography))) typography /\
  NoDup (map fst (groupTypography typography)) /\
  Forall (fun g => snd g <> [] /\ Forall (fun t => groupKey t = fst g) (snd g))
    (groupTypography typography) /\
  List.length (samplesOf (groupTypography typography)) = List.length (groupTypography typography) /\
  List.length (groupTypography typography) <= List.length typography.
Proof.
  rewrite groupTypography_grouped. unfold groupedByKey.
  set (ks := firstOccurrences (map groupKey typography)).
  assert (Hnd : NoDup ks) by apply firstOccurrences_NoDup.
  split; [|split; [|split; [|split]]].
  - rewrite map_map. cbn [snd]. apply buckets_cover; [exact Hnd|].
    intros t Ht. apply firstOccurrences_In, in_map, Ht.
  - rewrite map_map. cbn [fst]. now rewrite map_id.
  - apply Forall_forall. intros g Hg.
    pose proof (groupedByKey_nonempty typography) as Hne.
    rewrite Forall_forall in Hne. split; [apply Hne, Hg|].
    apply in_map_iff in Hg as (k & <- & _). cbn [fst snd].
    apply Forall_forall. intros t Ht. apply filter_In in Ht as [_ Ht].
    now apply String.eqb_eq.
  - pose proof (groupedByKey_nonempty typography) as Hne. fold ks in Hne.
    unfold groupedByKey in Hne. fold ks in Hne.
    induction Hne as [|g gs Hg _ IH]; [reflexivity|].
    cbn [samplesOf flat_map]. rewrite length_app.
    fold (samplesOf gs). rewrite IH.
    destruct (snd g); [contradiction|reflexivity].
  - rewrite length_map. unfold ks.
    pose proof (firstOccurrences_length (map groupKey typography)) as H.
    now rewrite length_map in H.
Qed.

(** X21. A variant set stands for all its components.  When the first
    two components are named alike and [createComponentSet] returns a
    set, the components section holds its title and that set and nothing
    else, however many components there are; the call is the only one
    made to the builder, nothing is logged, and the document is the one
    the builder left. *)
Theorem variant_set_stands_for_all_components comps w componentSet f1 :
  fontAvailable InterBold = true ->
  namedAlike comps = true ->
  createComponentSet comps (figma w) = (Returned componentSet, f1) ->
  exists section title,
    buildComponentsSection comps w
      = (Returned section,
         {| figma := f1; trace := trace w ++ [CallCreateComponentSet comps] |}) /\
    children section = [title; componentSet] /\
    isBoldTitle title /\
    2 <= List.length comps.
Proof.
  intros Hf Hshare Hset.
  destruct (buildComponentsSection_eq comps w Hf) as (title & Hbold & Heq).
  rewrite Hshare, Hset in Heq.
  eexists _, title. split; [exact Heq|]. split; [reflexivity|]. split; [exact Hbold|].
  unfold namedAlike in Hshare. apply andb_true_iff in Hshare as [Hlen _].
  apply Nat.ltb_lt in Hlen. lia.
Qed.

End GroupingProofs.

(** ** The further properties at work on the sample data *)

Lemma clipboard_intake_decides_on_truthiness_witness :
  exists w',
    @Panel.processClipboardText Sample.Rational Sample.services
      Sample.colorsOnlyText Sample.panel = (Returned tt, w') /\
    Panel.emitted w' = [] /\
    Panel.importedJsonData (Panel.state w') = Panel.colorsOnlyPayload /\
    Panel.importMethod (Panel.state w') = Panel.json /\
    Panel.error (Panel.state w') = Some ""%string.
Proof.
  destruct (@clipboard_intake_decides_on_truthiness Sample.Rational Sample.services
              Sample.panel Sample.colorsOnlyText Panel.colorsOnlyPayload eq_refl eq_refl)
    as (w' & Hrun & Hem & Hst).
  exists w'. split; [exact Hrun|]. split; [exact Hem|]. rewrite Hst. repeat split.
Defined.

Lemma file_import_decides_on_two_fields_witness :
  exists w',
    @Panel.handleJsonFileImport Sample.Rational Sample.services
      (Sample.jsonFile Sample.colorsOnlyText) Sample.panel = (Returned tt, w') /\
    Panel.emitted w' = [] /\
    Panel.importedJsonData (Panel.state w') = Panel.colorsOnlyPayload /\
    Panel.error (Panel.state w') = None.
Proof.
  destruct (@file_import_decides_on_two_fields Sample.Rational Sample.services
              Sample.panel (Sample.jsonFile Sample.colorsOnlyText) Sample.colorsOnlyText
              Panel.colorsOnlyPayload eq_refl ltac:(discriminate) eq_refl)
    as (w' & Hrun & Hem & Hst).
  exists w'. split; [exact Hrun|]. split; [exact Hem|].
  cbn in Hst. rewrite Hst. split; reflexivity.
Defined.

Lemma clipboard_acceptance_implies_file_acceptance_witness :
  exists w1 w2,
    @Panel.processClipboardText Sample.Rational Sample.services
      Sample.colorsOnlyText Sample.panel = (Returned tt, w1) /\
    @Panel.handleJsonFileImport Sample.Rational Sample.services
      (Sample.jsonFile Sample.colorsOnlyText) Sample.panelWithImage = (Returned tt, w2) /\
    Panel.importedJsonData (Panel.state w1) = Panel.colorsOnlyPayload /\
    Panel.importMethod (Panel.state w1) = Panel.json /\
    Panel.importedJsonData (Panel.state w2) = Panel.colorsOnlyPayload /\
    Panel.importMethod (Panel.state w2) = Panel.json.
Proof.
  exact (@clipboard_acceptance_implies_file_acceptance Sample.Rational Sample.services
           Sample.panel Sample.panelWithImage (Sample.jsonFile Sample.colorsOnlyText)
           Sample.colorsOnlyText Panel.colorsOnlyPayload eq_refl eq_refl eq_refl eq_refl).
Defined.

Lemma blank_text_is_no_data_witness :
  exists w',
    @Panel.processClipboardText Sample.Rational Sample.services "   " Sample.panel
      = (Returned tt, w') /\
    Panel.onlyErrorSet "No data found in clipboard" Sample.panel w' /\
    Panel.console w' = [].
Proof.
  exact (proj2 (@blank_text_is_no_data Sample.Rational Sample.services "   ")
           Sample.panel eq_refl).
Defined.

Lemma file_import_failures_witness :
  exists w',
    @Panel.handleJsonFileImport Sample.Rational Sample.services
      (Sample.jsonFile Sample.notJson) Sample.panel = (Returned tt, w') /\
    Panel.onlyErrorSet "Error parsing JSON: Unexpected token" Sample.panel w'.
Proof.
  exact (@file_import_failures Sample.Rational Sample.services Sample.panel
           (Sample.jsonFile Sample.notJson) (Error "Unexpected token") eq_refl).
Defined.

Lemma remap_keeps_sizes_and_completes_components_witness :
  exists out w',
    @Panel.remapImported Sample.Rational Cases.services Cases.fullPayload Sample.panel
      = (Returned out, w') /\
    List.length (Browser.itemsOf "colors" out) = 1 /\
    List.length (Browser.itemsOf "typography" out) = 1 /\
    List.length (Browser.itemsOf "components" out) = 2 /\
    forallb Browser.complete (Browser.itemsOf "components" out) = true /\
    Panel.randomDraws w' = 1 /\
    Panel.sameButDraws Sample.panel w'.
Proof.
  exact (@remap_keeps_sizes_and_completes_components Sample.Rational Cases.services
           Cases.fullPayload Sample.panel eq_refl).
Defined.

Lemma accepted_paste_is_sent_iff_remappable_witness :
  exists w1 w2,
    @Panel.processClipboardText Sample.Rational Cases.services Cases.fullText Sample.panel
      = (Returned tt, w1) /\
    @Panel.handleCreateComponents Sample.Rational Cases.services w1 = (Returned tt, w2) /\
    Panel.isProcessing (Panel.state w2) = false /\
    exists out,
      Panel.emitted w2 = [Panel.EmitImageAnalysisComplete out] /\
      List.length (Browser.itemsOf "colors" out) = 1 /\
      List.length (Browser.itemsOf "typography" out) = 1 /\
      List.length (Browser.itemsOf "components" out) = 2 /\
      Panel.error (Panel.state w2) = None.
Proof.
  exact (@accepted_paste_is_sent_iff_remappable Sample.Rational Cases.services
           Sample.panel Cases.fullText Cases.fullPayload eq_refl eq_refl eq_refl).
Defined.

Lemma external_data_is_stored_unchecked_witness :
  exists out w',
    @Browser.handleExternalMessage Sample.Rational Cases.externalMessage Sample.panel
      = (out, w') /\
    Panel.importedJsonData (Panel.state w') = Cases.fullPayload /\
    Panel.importMethod (Panel.state w') = Panel.json /\
    Panel.error (Panel.state w') = None /\
    Panel.emitted w' = [] /\
    match out with
    | Returned _ => true = true
    | Thrown _ => true = false
    end.
Proof.
  exact (@external_data_is_stored_unchecked Sample.Rational
           Sample.panel Cases.externalMessage eq_refl eq_refl).
Defined.

Lemma chosen_image_goes_to_the_vision_service_witness :
  exists w1 w2,
    @Panel.handleFileChange Sample.Rational Sample.services [Sample.screenshot] Sample.panel
      = (Returned tt, w1) /\
    Panel.imageFile (Panel.state w1) = Some Sample.screenshot /\
    Panel.importMethod (Panel.state w1) = Panel.image /\
    Panel.importedJsonData (Panel.state w1) = VNull /\
    Panel.error (Panel.state w1) = None /\
    Panel.imagePreview (Panel.state w1) = Some "data:image/png;base64,iVBORw0KGgo="%string /\
    @Panel.handleCreateComponents Sample.Rational Sample.services w1 = (Returned tt, w2) /\
    Panel.isProcessing (Panel.state w2) = false /\
    Panel.emitted w2 = [Panel.EmitImageAnalysisComplete Sample.emptyResult] /\
    Panel.error (Panel.state w2) = None.
Proof.
  exact (@chosen_image_goes_to_the_vision_service Sample.Rational Sample.services
           Sample.panel Sample.screenshot [] eq_refl).
Defined.

Lemma font_failure_leaves_a_bare_text_style_witness :
  exists e w',
    @textSample Sample.Rational Cases.interOnly Cases.quote Sample.emptyWorld
      = (Thrown e, w') /\
    styles (figma w') = [bareTextStyle 0 Cases.quote] /\
    exists node,
      @textSample Sample.Rational Sample.sturdy Cases.quote w' = (Returned node, w') /\
      prop "textStyleId" node = Some (PStyleId 0).
Proof.
  exact (@font_failure_leaves_a_bare_text_style Sample.Rational Cases.interOnly
           Sample.sturdy Cases.quote Sample.emptyWorld eq_refl eq_refl eq_refl eq_refl).
Defined.

Lemma second_run_creates_no_style_witness :
  exists frame w1 frame2 w2,
    @processImageAnalysisResults Sample.Rational Sample.sturdy Cases.paletteAndTexts
      Sample.emptyWorld = (Returned frame, w1) /\
    @processImageAnalysisResults Sample.Rational Sample.sturdy Cases.paletteAndTexts w1
      = (Returned frame2, w2) /\
    styles (figma w2) = styles (figma w1) /\
    nextStyleId (figma w2) = nextStyleId (figma w1) /\
    pageChildren (figma w2) = pageChildren (figma w1) ++ [frame2].
Proof.
  destruct (@processImageAnalysisResults_total Sample.Rational Sample.sturdy
              (fun _ => eq_refl) Cases.paletteAndTexts Sample.emptyWorld)
    as (frame & w1 & Hrun).
  destruct (@second_run_creates_no_style Sample.Rational Sample.sturdy Cases.paletteAndTexts
              Sample.emptyWorld frame w1 eq_refl eq_refl Hrun) as (frame2 & w2 & H).
  exists frame, w1, frame2, w2. split; [exact Hrun|exact H].
Defined.

Lemma variant_set_stands_for_all_components_witness :
  exists section title,
    @buildComponentsSection Sample.Rational Sample.sturdy Sample.variants Sample.emptyWorld
      = (Returned section,
         {| figma := emptyFigma; trace := [CallCreateComponentSet Sample.variants] |}) /\
    children section
      = [title; assign "name" (PStr "Variants") (createNode COMPONENT_SET)] /\
    isBoldTitle title /\
    2 <= 3.
Proof.
  exact (@variant_set_stands_for_all_components Sample.Rational Sample.sturdy
           Sample.variants Sample.emptyWorld
           (assign "name" (PStr "Variants") (createNode COMPONENT_SET)) emptyFigma
           eq_refl eq_refl eq_refl).
Defined.
